(** * ADR emoji sync: a shallow embedding of the extraction and reconciliation engine

    Sources embedded here:
    - [skills/adr/scripts/adr-sync-emojis.ts]  (module [AdrSync])
    - [skills/adr/scripts/adr-report.ts]       (module [AdrReport])
    - [skills/atlassian/scripts/confluence-properties.ts] (module [ConfluenceProperties])
    - [skills/adr/scripts/lib/confluence.ts]   (the [ApiResponse] shape, [exitWithError])
    - the report's helpers and rows (modules [ReportHelpers], [ShortTitle],
      [ReportRows], [ReportSummary])
    - the property command line (modules [PropertiesCli], [PropertyRemoval])
    - the page scripts confluence-create.ts, confluence-update.ts and
      confluence-get.ts (modules [PageApi], [ConfluenceCreate],
      [ConfluenceUpdate], [ConfluenceGet])

    Strings are sequences of code units below 256 (the Latin-1 range of a
    JavaScript string), so that [string] literals can be used for markup. *)

From Stdlib Require Import String Ascii List ZArith Bool Lia Arith.
From Stdlib Require Import Numbers.DecimalString.
From Stdlib Require Import Sorting.Permutation Sorting.Sorted.
Import ListNotations.
Open Scope string_scope.
Open Scope list_scope.
Open Scope nat_scope.

(* ===================================================================== *)
(** ** JavaScript string primitives used by the scripts *)
(* ===================================================================== *)

Module JsString.

Definition code (a : ascii) : nat := nat_of_ascii a.

(** WhiteSpace and LineTerminator code units below 256: TAB, LF, VT, FF,
    CR, SP and NBSP.  This is the set behind both [\s] and [trim()]. *)
Definition is_space (a : ascii) : bool :=
  let n := code a in
  ((9 <=? n) && (n <=? 13)) || (n =? 32) || (n =? 160).

Definition is_digit (a : ascii) : bool :=
  let n := code a in (48 <=? n) && (n <=? 57).

Definition is_upper (a : ascii) : bool :=
  let n := code a in (65 <=? n) && (n <=? 90).

Definition is_lower (a : ascii) : bool :=
  let n := code a in (97 <=? n) && (n <=? 122).

(** [toLowerCase] on one code unit: A-Z, and the Latin-1 capitals
    U+00C0..U+00DE except the multiplication sign U+00D7. *)
Definition lower_char (a : ascii) : ascii :=
  let n := code a in
  if is_upper a then ascii_of_nat (n + 32)
  else if (192 <=? n) && (n <=? 222) && negb (n =? 215) then ascii_of_nat (n + 32)
  else a.

(** Canonicalisation of a code unit under the [i] flag (no [u] flag):
    upper-casing, except that a code unit of 128 or more is never folded
    onto an ASCII one. Only its action on what an ASCII pattern character
    can match matters here, which is ASCII upper-casing. *)
Definition canon (a : ascii) : ascii :=
  if is_lower a then ascii_of_nat (code a - 32) else a.

Fixpoint toLowerCase (s : string) : string :=
  match s with
  | EmptyString => EmptyString
  | String a s' => String (lower_char a) (toLowerCase s')
  end.

Fixpoint trimStart (s : string) : string :=
  match s with
  | EmptyString => EmptyString
  | String a s' => if is_space a then trimStart s' else s
  end.

Fixpoint trimEnd (s : string) : string :=
  match s with
  | EmptyString => EmptyString
  | String a s' =>
      match trimEnd s' with
      | EmptyString => if is_space a then EmptyString else String a EmptyString
      | t => String a t
      end
  end.

Definition trim (s : string) : string := trimEnd (trimStart s).

(** Truthiness of a string: only the empty string is falsy. *)
Definition truthy (s : string) : bool :=
  match s with EmptyString => false | _ => true end.

Fixpoint all_chars (p : ascii -> bool) (s : string) : bool :=
  match s with
  | EmptyString => true
  | String a s' => p a && all_chars p s'
  end.

(** The first code unit of [s], if any, fails [p]. *)
Definition stops (p : ascii -> bool) (s : string) : bool :=
  match s with
  | EmptyString => true
  | String a _ => negb (p a)
  end.

(** Two strings equal up to case, code unit by code unit. *)
Fixpoint eq_ci (u v : string) : bool :=
  match u, v with
  | EmptyString, EmptyString => true
  | String a u', String b v' => Ascii.eqb (canon a) (canon b) && eq_ci u' v'
  | _, _ => false
  end.

End JsString.

(* ===================================================================== *)
(** ** The regular expressions of the scripts, with backtracking semantics *)
(* ===================================================================== *)

Module Regex.
Import JsString.

(** Character classes that occur in the patterns: [\s], [\d], [[^c]] and
    [[\s\S]]. *)
Inductive cls := CSpace | CDigit | CNot (a : ascii) | CAny.

Definition in_cls (c : cls) (a : ascii) : bool :=
  match c with
  | CSpace => is_space a
  | CDigit => is_digit a
  | CNot b => negb (Ascii.eqb a b)
  | CAny => true
  end.

(** A pattern is a sequence of literal characters and quantified classes;
    every quantifier in the scripts applies to a single class, and every
    capture group wraps exactly one quantified class.
    [Rep c min1 greedy capture] is [c*] ([min1 = false]) or [c+]
    ([min1 = true]), lazy when [greedy = false], and a capture group when
    [capture = true]. *)
Inductive node :=
| Chr (a : ascii)
| Rep (c : cls) (min1 greedy capture : bool).

Record regex := { nodes : list node; ignoreCase : bool }.

Definition chr_eq (ic : bool) (a b : ascii) : bool :=
  if ic then Ascii.eqb (canon a) (canon b) else Ascii.eqb a b.

Section Backtracking.
Context {R : Type}.

(** [c*] then the continuation [k consumed rest]: longest first. *)
Fixpoint rep_greedy (c : cls) (k : string -> string -> option R) (s : string)
  : option R :=
  match s with
  | String a s' =>
      if in_cls c a then
        match rep_greedy c (fun u v => k (String a u) v) s' with
        | Some r => Some r
        | None => k EmptyString s
        end
      else k EmptyString s
  | EmptyString => k EmptyString s
  end.

(** [c*?] then the continuation: shortest first. *)
Fixpoint rep_lazy (c : cls) (k : string -> string -> option R) (s : string)
  : option R :=
  match k EmptyString s with
  | Some r => Some r
  | None =>
      match s with
      | String a s' =>
          if in_cls c a then rep_lazy c (fun u v => k (String a u) v) s'
          else None
      | EmptyString => None
      end
  end.
End Backtracking.

Definition rep (greedy : bool) {R} := if greedy then @rep_greedy R else @rep_lazy R.

(** Match the node sequence at the start of [s]: the captures in order and
    the rest of the input after the match. *)
Fixpoint exec_nodes (ic : bool) (r : list node) (s : string)
  : option (list string * string) :=
  match r with
  | [] => Some ([], s)
  | Chr a :: r' =>
      match s with
      | String b s' => if chr_eq ic a b then exec_nodes ic r' s' else None
      | EmptyString => None
      end
  | Rep c min1 greedy capture :: r' =>
      let k u v :=
        match exec_nodes ic r' v with
        | Some (caps, rest) => Some (if capture then u :: caps else caps, rest)
        | None => None
        end in
      if min1 then
        match s with
        | String a s' =>
            if in_cls c a then rep greedy c (fun u v => k (String a u) v) s'
            else None
        | EmptyString => None
        end
      else rep greedy c k s
  end.

Definition exec_at (r : regex) (s : string) := exec_nodes (ignoreCase r) (nodes r) s.

(** [s.match(r)] for a pattern without the [g] flag: the leftmost start
    position at which the pattern matches; the result is the list of
    capture groups. *)
Fixpoint re_match (r : regex) (s : string) : option (list string) :=
  match exec_at r s with
  | Some (caps, _) => Some caps
  | None =>
      match s with
      | String _ s' => re_match r s'
      | EmptyString => None
      end
  end.

(** [r.test(s)] *)
Definition test (r : regex) (s : string) : bool :=
  match re_match r s with Some _ => true | None => false end.

(** [match[1]] *)
Definition group1 (caps : list string) : string := nth 0 caps EmptyString.

(** [s.replace(r, "")] for a pattern with the [g] flag: every match, left
    to right, is dropped; after an empty match one code unit is copied.
    The recursion restarts on the rest after a match, so it is driven by
    a counter that [remove_all] sets to more than the length of [s]. *)
Fixpoint remove_all_from (n : nat) (r : regex) (s : string) : string :=
  match n with
  | O => s
  | S n' =>
      match exec_at r s with
      | Some (_, rest) =>
          if String.length rest <? String.length s then remove_all_from n' r rest
          else match s with
               | String a s' => String a (remove_all_from n' r s')
               | EmptyString => EmptyString
               end
      | None =>
          match s with
          | String a s' => String a (remove_all_from n' r s')
          | EmptyString => EmptyString
          end
      end
  end.

Definition remove_all (r : regex) (s : string) : string :=
  remove_all_from (S (String.length s)) r s.

Definition lit (s : string) : list node := map Chr (list_ascii_of_string s).

End Regex.

(* ===================================================================== *)
(** ** JavaScript values that reach the scripts *)
(* ===================================================================== *)

Module JsValue.
Import JsString.

(** A property value is typed [unknown]; the lookup in the status table
    can also reach members inherited from [Object.prototype]. Numbers are
    the integers that print in plain decimal. *)
Inductive jsval :=
| JUndefined
| JNull
| JBool (b : bool)
| JNum (n : Z)
| JStr (s : string)
| JFunction (name : string)   (* a built-in function object *)
| JObject.                    (* an ordinary object *)

(** [String(v)] *)
Definition js_String (v : jsval) : string :=
  match v with
  | JUndefined => "undefined"
  | JNull => "null"
  | JBool true => "true"
  | JBool false => "false"
  | JNum n => NilZero.string_of_int (Z.to_int n)
  | JStr s => s
  | JFunction name => "function " ++ name ++ "() { [native code] }"
  | JObject => "[object Object]"
  end.

(** ToBoolean *)
Definition js_truthy (v : jsval) : bool :=
  match v with
  | JUndefined | JNull => false
  | JBool b => b
  | JNum n => negb (Z.eqb n 0)
  | JStr s => truthy s
  | JFunction _ | JObject => true
  end.

(** [s === v] for a string [s] *)
Definition strict_eq_str (s : string) (v : jsval) : bool :=
  match v with
  | JStr t => String.eqb s t
  | _ => false
  end.

(** The members every ordinary object inherits from [Object.prototype]. *)
Definition Object_prototype (k : string) : option jsval :=
  if String.eqb k "constructor" then Some (JFunction "Object")
  else if String.eqb k "__proto__" then Some JObject
  else if existsb (String.eqb k)
       ["hasOwnProperty"; "isPrototypeOf"; "propertyIsEnumerable";
        "toLocaleString"; "toString"; "valueOf";
        "__defineGetter__"; "__defineSetter__";
        "__lookupGetter__"; "__lookupSetter__"]
  then Some (JFunction k)
  else None.

Fixpoint own_property (o : list (string * string)) (k : string) : option string :=
  match o with
  | [] => None
  | (k', v) :: o' => if String.eqb k k' then Some v else own_property o' k
  end.

(** [o[k]] for an object literal [o] with string values: an own property,
    else an inherited one, else [undefined]. *)
Definition get_property (o : list (string * string)) (k : string) : jsval :=
  match own_property o k with
  | Some v => JStr v
  | None =>
      match Object_prototype k with
      | Some v => v
      | None => JUndefined
      end
  end.

Definition hex_digit (a : ascii) : option Z :=
  let n := code a in
  if is_digit a then Some (Z.of_nat (n - 48))
  else if (97 <=? n) && (n <=? 102) then Some (Z.of_nat (n - 87))
  else if (65 <=? n) && (n <=? 70) then Some (Z.of_nat (n - 55))
  else None.

(** The longest prefix of hex digits, most significant first. *)
Fixpoint hex_prefix (acc : option Z) (s : string) : option Z :=
  match s with
  | String a s' =>
      match hex_digit a with
      | Some d => hex_prefix (Some (match acc with Some n => 16 * n + d | None => d end)%Z) s'
      | None => acc
      end
  | EmptyString => acc
  end.

(** [parseInt(s, 16)]; [None] is NaN. *)
Definition parseInt16 (s : string) : option Z :=
  let s1 := trimStart s in
  let '(neg, s2) :=
    match s1 with
    | String "-" t => (true, t)
    | String "+" t => (false, t)
    | _ => (false, s1)
    end in
  let s3 :=
    match s2 with
    | String "0" (String "x" t) => t
    | String "0" (String "X" t) => t
    | _ => s2
    end in
  match hex_prefix None s3 with
  | Some n => Some (if neg then (- n)%Z else n)
  | None => None
  end.

(** What evaluating an expression yields: a value or a thrown error. *)
Inductive completion (A : Type) :=
| Normal (a : A)
| Abrupt (error : string).
Arguments Normal {A} a.
Arguments Abrupt {A} error.

(** [String.fromCodePoint(n)], the result named by its code point. *)
Definition fromCodePoint (n : option Z) : completion Z :=
  match n with
  | Some c => if ((0 <=? c) && (c <=? 1114111))%Z then Normal c else Abrupt "RangeError"
  | None => Abrupt "RangeError"
  end.

End JsValue.

(* ===================================================================== *)
(** ** lib/confluence.ts: responses, the remote store, effects *)
(* ===================================================================== *)

Module Confluence.
Import JsValue.

(** [ApiResponse<T>]; the [status] field is never read by the scripts. *)
Record ApiResponse (T : Type) := mkResp {
  ok : bool;
  data : option T;
  error : option string
}.
Arguments mkResp {T}.
Arguments ok {T}.
Arguments data {T}.
Arguments error {T}.

Definition success {T} (d : T) : ApiResponse T := mkResp true (Some d) None.
Definition no_content {T} : ApiResponse T := mkResp true None None.
Definition failure {T} (e : string) : ApiResponse T := mkResp false None (Some e).

(** [ConfluencePage]: [pg_body] is [body?.storage?.value]. *)
Record ConfluencePage := mkPage {
  pg_id : string;
  pg_title : string;
  pg_body : option string
}.

(** [SearchResponse]: [sr_next] is [_links?.next]. *)
Record SearchResponse := mkSearch {
  sr_results : list ConfluencePage;
  sr_next : option string
}.

(** [ContentProperty]: [prop_version] is [version?.number]. *)
Record ContentProperty := mkProp {
  prop_id : string;
  prop_key : string;
  prop_value : jsval;
  prop_version : option Z
}.

(** [PropertyListResponse] *)
Record PropertyListResponse := mkList { pl_results : list ContentProperty }.

(** The requests the scripts send. *)
Inductive Call :=
| LegacyGetSearch (cql : string) (limit start : Z) (expand : string)
    (* confluenceLegacyGet("content/search", {cql, limit, start, expand}) *)
| GetProperties (pageId key : string)
    (* confluenceGet(`pages/${pageId}/properties`, {key}) *)
| PostProperty (pageId key : string) (value : jsval)
    (* confluencePost(`pages/${pageId}/properties`, {key, value}) *)
| GetProperty (pageId propId : string)
    (* confluenceGet(`pages/${pageId}/properties/${propId}`) *)
| PutProperty (pageId propId key : string) (value : jsval) (version : Z).
    (* confluencePut(`pages/${pageId}/properties/${propId}`,
                     {key, value, version: {number}}) *)

Definition reply (c : Call) : Type :=
  match c with
  | LegacyGetSearch _ _ _ _ => SearchResponse
  | GetProperties _ _ => PropertyListResponse
  | PostProperty _ _ _ => ContentProperty
  | GetProperty _ _ => ContentProperty
  | PutProperty _ _ _ _ _ => ContentProperty
  end.

(** Requests that create or update a property. *)
Definition is_write (c : Call) : bool :=
  match c with
  | PostProperty _ _ _ | PutProperty _ _ _ _ _ => true
  | _ => false
  end.

Definition is_property_call (c : Call) : bool :=
  match c with
  | LegacyGetSearch _ _ _ _ => false
  | _ => true
  end.

(** The remote store as the scripts see it: every request is answered by
    an [ApiResponse] and may change the store. *)
Class Remote (St : Type) := {
  serve : forall c : Call, St -> ApiResponse (reply c) * St
}.

(** Lines written by [console.log]. *)
Inductive Line :=
| LStart (dryRun : bool)
| LFound (count : nat)
| LNoStatus (title : string)                    (* Could not extract status -- skipping *)
| LNonStandard (title status : string)          (* Non-standard status -- skipping *)
| LSynced (emoji : Z) (title status : string)   (* emoji  title  ->  status *)
| LPartial (title : string) (published draft : bool)   (* Partial update (...) *)
| LFailed (title : string)                      (* Failed to update emoji *)
| LDone (updated skipped unchanged errors : nat).

Record World (St : Type) := mkWorld {
  remote : St;
  calls : list Call;        (* requests sent so far, oldest first *)
  console : list Line       (* lines logged so far, oldest first *)
}.
Arguments mkWorld {St}.
Arguments remote {St}.
Arguments calls {St}.
Arguments console {St}.

(** How a computation ends: it returns, [process.exit(1)] is called by
    [exitWithError], an exception escapes, or the loop counter of the
    model ran out while the store kept announcing further pages. *)
Inductive Res (A : Type) :=
| Done (a : A)
| Exit (message : string)
| Throw (error : string)
| Stalled.
Arguments Done {A}.
Arguments Exit {A}.
Arguments Throw {A}.
Arguments Stalled {A}.

Definition M (St A : Type) : Type := World St -> Res A * World St.

Definition ret {St A} (a : A) : M St A := fun w => (Done a, w).

Definition bind {St A B} (m : M St A) (f : A -> M St B) : M St B :=
  fun w =>
    match m w with
    | (Done a, w') => f a w'
    | (Exit e, w') => (Exit e, w')
    | (Throw e, w') => (Throw e, w')
    | (Stalled, w') => (Stalled, w')
    end.

Definition request {St} `{Remote St} (c : Call) : M St (ApiResponse (reply c)) :=
  fun w =>
    let '(r, st) := serve c (remote w) in
    (Done r, mkWorld st (calls w ++ [c]) (console w)).

Definition log {St} (l : Line) : M St unit :=
  fun w => (Done tt, mkWorld (remote w) (calls w) (console w ++ [l])).

(** [exitWithError] *)
Definition exitWithError {St A} (message : string) : M St A :=
  fun w => (Exit message, w).

Definition throw {St A} (e : string) : M St A := fun w => (Throw e, w).

(** [a || b] on an optional string *)
Definition or_else (a : option string) (b : string) : string :=
  match a with
  | Some (String c s) => String c s
  | _ => b
  end.

End Confluence.

Declare Scope js_scope.
Notation "x <- c ;; k" := (Confluence.bind c (fun x => k))
  (at level 61, c at next level, right associativity) : js_scope.
Notation "c ;;; k" := (Confluence.bind c (fun _ => k))
  (at level 61, right associativity) : js_scope.
Open Scope js_scope.

(* ===================================================================== *)
(** ** adr-sync-emojis.ts *)
(* ===================================================================== *)

Module AdrSync.
Import JsString Regex JsValue Confluence.

Definition ADR_PARENT_PAGE_ID : string := "31859277900".

Definition STATUS_EMOJI_MAP : list (string * string) :=
  [ ("accepted", "2705");
    ("approved", "2705");
    ("proposal", "23f3");
    ("proposed", "23f3");
    ("pending approval", "23f3");
    ("draft", "1f5d2");
    ("planning", "1f5d2");
    ("withdrawn", "1f6ab");
    ("rejected", "1f6ab");
    ("postponed", "270b") ].

(** [Status<\/span><\/strong><\/p><\/td>\s*<td[^>]*>] *)
Definition status_cell : list node :=
  lit "Status</span></strong></p></td>"
  ++ [Rep CSpace false true false]
  ++ lit "<td" ++ [Rep (CNot ">") false true false] ++ lit ">".

(** [/Status<\/span><\/strong><\/p><\/td>\s*<td[^>]*>\s*<p[^>]*>([^<]+)<\/p>/i] *)
Definition primary_re : regex :=
  {| nodes := status_cell
              ++ [Rep CSpace false true false]
              ++ lit "<p" ++ [Rep (CNot ">") false true false] ++ lit ">"
              ++ [Rep (CNot "<") true true true]
              ++ lit "</p>";
     ignoreCase := true |}.

(** [/Status<\/span><\/strong><\/p><\/td>\s*<td[^>]*>\s*<p\s*\/>/i] *)
Definition empty_re : regex :=
  {| nodes := status_cell
              ++ [Rep CSpace false true false]
              ++ lit "<p" ++ [Rep CSpace false true false] ++ lit "/>";
     ignoreCase := true |}.

(** [/Status<\/span><\/strong><\/p><\/td>\s*<td[^>]*>([\s\S]*?)<\/td>/i] *)
Definition fallback_re : regex :=
  {| nodes := status_cell ++ [Rep CAny false false true] ++ lit "</td>";
     ignoreCase := true |}.

(** [/<[^>]*>/g] *)
Definition tag_re : regex :=
  {| nodes := lit "<" ++ [Rep (CNot ">") false true false] ++ lit ">";
     ignoreCase := false |}.

(** [extractStatus]; [None] is [null]. *)
Definition extractStatus (body : string) : option string :=
  match re_match primary_re body with
  | Some primary => Some (trim (group1 primary))
  | None =>
      match re_match empty_re body with
      | Some _ => None
      | None =>
          match re_match fallback_re body with
          | Some fallback =>
              let text := trim (remove_all tag_re (group1 fallback)) in
              if truthy text then Some text else None
          | None => None
          end
      end
  end.

(** [getEmojiCodePoint]: [STATUS_EMOJI_MAP[status.toLowerCase().trim()] || null];
    [None] is [null]. *)
Definition getEmojiCodePoint (status : string) : option jsval :=
  let v := get_property STATUS_EMOJI_MAP (trim (toLowerCase status)) in
  if js_truthy v then Some v else None.

(** [codePointToEmoji]: [String.fromCodePoint(parseInt(hex, 16))] *)
Definition codePointToEmoji (hex : jsval) : completion Z :=
  fromCodePoint (parseInt16 (js_String hex)).

Definition adr_re : regex :=
  {| nodes := lit "ADR-" ++ [Rep CDigit true true false]; ignoreCase := false |}.
Definition reserved_re : regex :=
  {| nodes := lit "Reserved"; ignoreCase := true |}.
Definition design_review_re : regex :=
  {| nodes := lit "Design Review"; ignoreCase := true |}.

Definition isAdrPage (title : string) : bool :=
  test adr_re title && negb (test reserved_re title)
  && negb (test design_review_re title).

Section Effects.
Context {St : Type} `{Remote St}.

(** [upsertProperty]: true on success, false on failure. *)
Definition upsertProperty (pageId key : string) (value : jsval) : M St bool :=
  listResp <- request (GetProperties pageId key) ;;
  if negb (ok listResp) then ret false
  else
    (* listResp.data?.results?.[0] *)
    match match data listResp with
          | Some d => hd_error (pl_results d)
          | None => None
          end with
    | None =>
        createResp <- request (PostProperty pageId key value) ;;
        ret (ok createResp)
    | Some existing =>
        if strict_eq_str (js_String (prop_value existing)) value then ret true
        else
          detailResp <- request (GetProperty pageId (prop_id existing)) ;;
          if negb (ok detailResp) then ret false
          else
            (* detailResp.data?.version?.number, tested for truthiness *)
            match match data detailResp with
                  | Some d => prop_version d
                  | None => None
                  end with
            | None => ret false
            | Some currentVersion =>
                if Z.eqb currentVersion 0 then ret false
                else
                  updateResp <- request (PutProperty pageId (prop_id existing)
                                           key value (currentVersion + 1)) ;;
                  ret (ok updateResp)
            end
    end.

Definition search_cql : string :=
  "space = CE AND type = page AND ancestor = " ++ ADR_PARENT_PAGE_ID.

(** The [while (true)] loop that fetches all pages, [limit = 50].
    [n] bounds the number of iterations of the model. *)
Fixpoint fetchPages (n : nat) (start : Z) (allPages : list ConfluencePage)
  : M St (list ConfluencePage) :=
  match n with
  | O => fun w => (Stalled, w)
  | S n' =>
      response <- request (LegacyGetSearch search_cql 50 start "body.storage") ;;
      if negb (ok response)
      then exitWithError (or_else (error response) "Failed to search Confluence")
      else
        match data response with
        | None => throw "TypeError"      (* response.data!.results *)
        | Some d =>
            let allPages' := allPages ++ sr_results d in
            match sr_next d with
            | Some (String _ _) => fetchPages n' (start + 50)%Z allPages'
            | _ => ret allPages'
            end
        end
  end.

(** The four counters of [syncEmojis]. *)
Record Tally := mkTally {
  updated : nat;
  skipped : nat;
  unchanged : nat;
  errors : nat
}.

Definition inc_updated (t : Tally) : Tally :=
  mkTally (S (updated t)) (skipped t) (unchanged t) (errors t).
Definition inc_skipped (t : Tally) : Tally :=
  mkTally (updated t) (S (skipped t)) (unchanged t) (errors t).
Definition inc_errors (t : Tally) : Tally :=
  mkTally (updated t) (skipped t) (unchanged t) (S (errors t)).

Variable dryRun : bool.

(** One iteration of [for (const page of adrPages)]. *)
Definition syncPage (page : ConfluencePage) (t : Tally) : M St Tally :=
  let body := match pg_body page with
              | Some (String a s) => String a s
              | _ => EmptyString
              end in
  match extractStatus body with
  | None | Some EmptyString =>
      log (LNoStatus (pg_title page)) ;;; ret (inc_skipped t)
  | Some status =>
      match getEmojiCodePoint status with
      | None =>
          log (LNonStandard (pg_title page) status) ;;; ret (inc_skipped t)
      | Some emojiCode =>
          match codePointToEmoji emojiCode with
          | Abrupt e => throw e
          | Normal emoji =>
              if dryRun then
                log (LSynced emoji (pg_title page) status) ;;; ret (inc_updated t)
              else
                ok1 <- upsertProperty (pg_id page) "emoji-title-published" emojiCode ;;
                ok2 <- upsertProperty (pg_id page) "emoji-title-draft" emojiCode ;;
                if ok1 && ok2 then
                  log (LSynced emoji (pg_title page) status) ;;; ret (inc_updated t)
                else if ok1 || ok2 then
                  log (LPartial (pg_title page) ok1 ok2) ;;; ret (inc_errors t)
                else
                  log (LFailed (pg_title page)) ;;; ret (inc_errors t)
          end
      end
  end.

Fixpoint syncPages (adrPages : list ConfluencePage) (t : Tally) : M St Tally :=
  match adrPages with
  | [] => ret t
  | page :: rest => t' <- syncPage page t ;; syncPages rest t'
  end.

Definition adrPagesOf (allPages : list ConfluencePage) : list ConfluencePage :=
  filter (fun p => isAdrPage (pg_title p)) allPages.

(** [syncEmojis] *)
Definition syncEmojis (n : nat) : M St unit :=
  log (LStart dryRun) ;;;
  allPages <- fetchPages n 0%Z [] ;;
  let adrPages := adrPagesOf allPages in
  log (LFound (length adrPages)) ;;;
  t <- syncPages adrPages (mkTally 0 0 0 0) ;;
  log (LDone (updated t) (skipped t) (unchanged t) (errors t)).

End Effects.

End AdrSync.

(* ===================================================================== *)
(** ** adr-report.ts: the report path's extractor *)
(* ===================================================================== *)

Module AdrReport.
Import JsString Regex.

Definition primary_re := AdrSync.primary_re.
Definition empty_re := AdrSync.empty_re.
Definition fallback_re := AdrSync.fallback_re.
Definition tag_re := AdrSync.tag_re.

Definition extractStatus (body : string) : string :=
  match re_match primary_re body with
  | Some primary => trim (group1 primary)
  | None =>
      match re_match empty_re body with
      | Some _ => "Unknown"
      | None =>
          match re_match fallback_re body with
          | Some fallback =>
              let text := trim (remove_all tag_re (group1 fallback)) in
              if truthy text then text else "Unknown"
          | None => "Unknown"
          end
      end
  end.

Definition isAdrPage := AdrSync.isAdrPage.

End AdrReport.

(* ===================================================================== *)
(** ** confluence-properties.ts: the command-line upsert *)
(* ===================================================================== *)

Module ConfluenceProperties.
Import JsString JsValue Confluence.

Section Effects.
Context {St : Type} `{Remote St}.

(** [fetchPropertyDetails]; [None] is [undefined]. *)
Definition fetchPropertyDetails (pageIdValue key : string)
  : M St (option ContentProperty) :=
  response <- request (GetProperties pageIdValue key) ;;
  if negb (ok response)
  then exitWithError (or_else (error response) "Failed to fetch properties")
  else
    match match data response with
          | Some d => hd_error (pl_results d)
          | None => None
          end with
    | None => ret None
    | Some property =>
        detailResponse <- request (GetProperty pageIdValue (prop_id property)) ;;
        if negb (ok detailResponse)
        then exitWithError
               (or_else (error detailResponse) "Failed to fetch property details")
        else ret (data detailResponse)
    end.

Definition fetchPropertyForUpdate := fetchPropertyDetails.

(** [upsertProperty] *)
Definition upsertProperty (pageIdValue key : string) (value : jsval)
  : M St (option ContentProperty) :=
  existing <- fetchPropertyForUpdate pageIdValue key ;;
  match existing with
  | None =>
      createResponse <- request (PostProperty pageIdValue key value) ;;
      if negb (ok createResponse)
      then exitWithError
             (or_else (error createResponse) ("Failed to create property " ++ key))
      else ret (data createResponse)
  | Some existing =>
      match match prop_version existing with
            | Some v => if Z.eqb v 0 then None else Some v
            | None => None
            end with
      | None => exitWithError ("Property " ++ key ++ " is missing version metadata")
      | Some currentVersion =>
          updateResponse <- request (PutProperty pageIdValue (prop_id existing)
                                       key value (currentVersion + 1)) ;;
          if negb (ok updateResponse)
          then exitWithError
                 (or_else (error updateResponse) ("Failed to update property " ++ key))
          else ret (data updateResponse)
      end
  end.

End Effects.

End ConfluenceProperties.

(* ===================================================================== *)
(** ** A reference store *)
(* ===================================================================== *)

Module RefStore.
Import JsString JsValue Confluence.

(** Modelled from the spec: the remote document store, an external
    service that is not code of this repository. Section 6 of the spec
    gives its interface: children are listed page by page with bodies
    inline; properties are listed, fetched, created and updated by key and
    id; an update must carry the successor of the stored version and is
    rejected otherwise. [rejects] lets a test make chosen requests fail. *)
Record Store := mkStore {
  pages : list ConfluencePage;
  props : list (string * ContentProperty);     (* page id, property *)
  rejects : Call -> bool
}.

Definition props_of (st : Store) (pageId key : string) : list ContentProperty :=
  map snd (filter (fun e => String.eqb (fst e) pageId
                            && String.eqb (prop_key (snd e)) key) (props st)).

Definition prop_by_id (st : Store) (pageId propId : string) : option ContentProperty :=
  hd_error (map snd (filter (fun e => String.eqb (fst e) pageId
                                      && String.eqb (prop_id (snd e)) propId) (props st))).

(** Property ids are assigned as [pageId/key]. *)
Definition fresh_id (pageId key : string) : string := pageId ++ "/" ++ key.

Definition storable (v : jsval) : bool :=
  match v with
  | JUndefined | JFunction _ => false     (* dropped by JSON.stringify *)
  | _ => true
  end.

Definition set_props (st : Store) (ps : list (string * ContentProperty)) : Store :=
  mkStore (pages st) ps (rejects st).

Definition replace_prop (pageId : string) (p : ContentProperty)
    (e : string * ContentProperty) : string * ContentProperty :=
  if String.eqb (fst e) pageId && String.eqb (prop_id (snd e)) (prop_id p)
  then (pageId, p) else e.

Definition serve_ref (c : Call) (st : Store) : ApiResponse (reply c) * Store :=
  if rejects st c then (failure "API error (500): rejected", st)
  else
    match c return ApiResponse (reply c) * Store with
    | LegacyGetSearch _ limit start _ =>
        let from := Z.to_nat start in
        let chunk := firstn (Z.to_nat limit) (skipn from (pages st)) in
        let more := from + Z.to_nat limit <? length (pages st) in
        (success (mkSearch chunk (if more then Some "/rest/api/content/search?next" else None)), st)
    | GetProperties pageId key =>
        (success (mkList (props_of st pageId key)), st)
    | PostProperty pageId key value =>
        match props_of st pageId key with
        | [] =>
            if storable value then
              let p := mkProp (fresh_id pageId key) key value (Some 1%Z) in
              (success p, set_props st (props st ++ [(pageId, p)]))
            else (failure "API error (400): value is required", st)
        | _ :: _ => (failure "API error (409): property exists", st)
        end
    | GetProperty pageId propId =>
        match prop_by_id st pageId propId with
        | Some p => (success p, st)
        | None => (failure "API error (404): not found", st)
        end
    | PutProperty pageId propId key value version =>
        match prop_by_id st pageId propId with
        | Some p =>
            if storable value
               && match prop_version p with
                  | Some v => Z.eqb version (v + 1)
                  | None => false
                  end
            then
              let p' := mkProp propId key value (Some version) in
              (success p', set_props st (map (replace_prop pageId p') (props st)))
            else (failure "API error (409): version conflict", st)
        | None => (failure "API error (404): not found", st)
        end
    end.

#[export] Instance Remote_Store : Remote Store := {| serve := serve_ref |}.

Definition start (st : Store) : World Store := mkWorld st [] [].

End RefStore.

(* ===================================================================== *)
(** ** Vocabulary of the statements: markup shapes, titles, request traces *)
(* ===================================================================== *)

Module Literal.
Import JsString Regex.

(** [s] starts with the literal [l] (up to case when [ic]). *)
Fixpoint starts (ic : bool) (l s : string) : bool :=
  match l, s with
  | EmptyString, _ => true
  | String a l', String b s' => chr_eq ic a b && starts ic l' s'
  | String _ _, EmptyString => false
  end.

Fixpoint skip (n : nat) (s : string) : string :=
  match n, s with
  | S n', String _ s' => skip n' s'
  | _, _ => s
  end.

(** Some position inside [pre] starts an occurrence of [l] in [pre ++ rest]. *)
Fixpoint occurs_before (ic : bool) (l pre rest : string) : bool :=
  match pre with
  | EmptyString => false
  | String a pre' => starts ic l (pre ++ rest) || occurs_before ic l pre' rest
  end.

(** [l] occurs somewhere in [s]. *)
Definition occurs (ic : bool) (l s : string) : bool := occurs_before ic l s "".

End Literal.

Module Markup.
Import JsString Regex.
Local Open Scope string_scope.

Definition status_label : string := "Status</span></strong></p></td>".

(** The Status label cell followed by the opening tag of the value cell:
    [label gap td td_attrs >], each literal part up to case. *)
Record Row := mkRow {
  label : string;
  gap : string;
  td : string;
  td_attrs : string
}.

Definition row_text (r : Row) (rest : string) : string :=
  label r ++ gap r ++ td r ++ td_attrs r ++ ">" ++ rest.

Definition row_ok (r : Row) : bool :=
  eq_ci status_label (label r)
  && all_chars is_space (gap r)
  && eq_ci "<td" (td r)
  && all_chars (in_cls (CNot ">")) (td_attrs r).

(** The value cell opens with a plain paragraph: [ws <p attrs > text </p>]. *)
Definition plain_paragraph (ws p attrs text close : string) : bool :=
  all_chars is_space ws
  && eq_ci "<p" p
  && all_chars (in_cls (CNot ">")) attrs
  && all_chars (in_cls (CNot "<")) text
  && truthy text
  && eq_ci "</p>" close.

(** The value cell opens with a self-closing paragraph: [ws <p ws' />]. *)
Definition empty_paragraph (ws p ws' close : string) : bool :=
  all_chars is_space ws
  && eq_ci "<p" p
  && all_chars is_space ws'
  && eq_ci "/>" close.

(** The value cell opens with a paragraph whose content starts with a tag:
    [ws <p sp attrs > inner], where [attrs] does not start with a space or
    a slash and [inner] is empty or starts with [<]. *)
Definition tagged_paragraph (ws p sp attrs inner : string) : bool :=
  all_chars is_space ws
  && eq_ci "<p" p
  && all_chars is_space sp
  && all_chars (in_cls (CNot ">")) attrs
  && stops (fun a => is_space a || Ascii.eqb a "/") attrs
  && stops (in_cls (CNot "<")) inner.

(** The Status label occurs in [pre ++ tail] at the start of [tail] only. *)
Definition label_only_at (pre tail : string) : bool :=
  negb (Literal.occurs_before true status_label pre tail)
  && negb (Literal.occurs true status_label (Literal.skip 1 tail)).

(** [cell] is the whole content of the value cell, closed by [close]. *)
Definition whole_cell (cell close rest : string) : bool :=
  eq_ci "</td>" close
  && negb (Literal.occurs_before true "</td>" cell (close ++ rest)).

(** Which capture groups a pattern has: the class and whether it is [+]. *)
Fixpoint captures_of (r : list node) : list (cls * bool) :=
  match r with
  | [] => []
  | Chr _ :: r' => captures_of r'
  | Rep c min1 _ true :: r' => (c, min1) :: captures_of r'
  | Rep _ _ _ false :: r' => captures_of r'
  end.

Definition cap_ok (cap : string) (d : cls * bool) : Prop :=
  all_chars (in_cls (fst d)) cap = true /\ (snd d = true -> cap <> "").

End Markup.

Module Titles.
Import JsString Regex.
Local Open Scope string_scope.



End Titles.

Module Protocol.
Import JsString JsValue Confluence AdrSync.

(** [listResp.data?.results?.[0]] *)
Definition first_result (r : ApiResponse PropertyListResponse)
  : option ContentProperty :=
  match data r with
  | Some d => hd_error (pl_results d)
  | None => None
  end.

(** [detailResp.data?.version?.number] *)
Definition version_number (r : ApiResponse ContentProperty) : option Z :=
  match data r with
  | Some d => prop_version d
  | None => None
  end.

(** The world after the requests [cs] were sent and left the store in [st]. *)
Definition sent {St} (w : World St) (st : St) (cs : list Call) : World St :=
  mkWorld st (calls w ++ cs) (console w).

(** The world after the lines [ls] were logged. *)
Definition logged {St} (w : World St) (ls : list Line) : World St :=
  mkWorld (remote w) (calls w) (console w ++ ls).

(** The world after requests [cs] and log lines [ls], with the store in [st]. *)
Definition after {St} (w : World St) (st : St) (cs : list Call) (ls : list Line)
  : World St :=
  mkWorld st (calls w ++ cs) (console w ++ ls).

Definition search_call (start : Z) : Call :=
  LegacyGetSearch search_cql 50 start "body.storage".

(** The [k] search requests from offset [start] on are all answered with a
    page of results and a link to a further page; the result is the store
    they leave behind. *)
Fixpoint pages_ok {St} `{Remote St} (k : nat) (start : Z) (st : St) : option St :=
  match k with
  | O => Some st
  | S k' =>
      let '(resp, st') := serve (search_call start) st in
      if ok resp then
        match data resp with
        | Some d =>
            match sr_next d with
            | Some (String _ _) => pages_ok k' (start + 50)%Z st'
            | _ => None
            end
        | None => None
        end
      else None
  end.

(** The offsets [start], [start + 50], ... of [k] successive requests. *)
Fixpoint search_calls (k : nat) (start : Z) : list Call :=
  match k with
  | O => []
  | S k' => search_call start :: search_calls k' (start + 50)%Z
  end.

Definition body_of (page : ConfluencePage) : string :=
  match pg_body page with
  | Some (String a s) => String a s
  | _ => EmptyString
  end.

(** The indicator of the page, if it has one, has a symbol. *)
Definition renders (page : ConfluencePage) : bool :=
  match extractStatus (body_of page) with
  | Some (String a s) =>
      match getEmojiCodePoint (String a s) with
      | Some v =>
          match codePointToEmoji v with
          | Normal _ => true
          | Abrupt _ => false
          end
      | None => true
      end
  | _ => true
  end.

Definition total (t : Tally) : nat :=
  updated t + skipped t + unchanged t + errors t.

(** The line and the counter that follow the two upserts. *)
Definition verdict (page : ConfluencePage) (emoji : Z) (status : string)
    (ok1 ok2 : bool) (t : Tally) : Line * Tally :=
  if ok1 && ok2 then (LSynced emoji (pg_title page) status, inc_updated t)
  else if ok1 || ok2 then (LPartial (pg_title page) ok1 ok2, inc_errors t)
  else (LFailed (pg_title page), inc_errors t).

Definition published : string := "emoji-title-published".
Definition draft : string := "emoji-title-draft".

End Protocol.

Module Fixtures.
Import JsString Regex JsValue Confluence Markup RefStore.
Local Open Scope string_scope.

(** The head of a card table up to the Status row. *)
Definition card_head : string :=
  "<table><tbody><tr><td><p><strong><span style='color: rgb(0,0,0);'>".

Definition styled_row : Row := mkRow "Status</span></strong></p></td>" "" "<td" "".
Definition spaced_row : Row := mkRow "STATUS</SPAN></strong></p></td>" " " "<TD" " colspan='2'".

Definition card_tail : string := "</tr></tbody></table>".

(** A card whose value cell is [cell]. *)
Definition card (cell : string) : string :=
  card_head ++ row_text styled_row (cell ++ card_tail).

Definition pageDraft : ConfluencePage :=
  mkPage "103" "ADR-003: Use X" (Some (card "<p>Draft</p></td>")).
Definition pageReserved : ConfluencePage :=
  mkPage "104" "ADR-004: Reserved Range" (Some (card "<p>Draft</p></td>")).
Definition pageOnboarding : ConfluencePage :=
  mkPage "105" "ADR-005: New hires" (Some (card "<p>Onboarding</p></td>")).
Definition pageConstructor : ConfluencePage :=
  mkPage "106" "ADR-006: Builders" (Some (card "<p>Constructor</p></td>")).

Definition accepts_all (c : Call) : bool := false.

(** Creating the draft property is rejected. *)
Definition draft_create_down (c : Call) : bool :=
  match c with
  | PostProperty _ key _ => String.eqb key "emoji-title-draft"
  | _ => false
  end.

(** Creating the published property is rejected. *)
Definition published_create_down (c : Call) : bool :=
  match c with
  | PostProperty _ key _ => String.eqb key "emoji-title-published"
  | _ => false
  end.

(** The second page of the listing is refused. *)
Definition second_page_down (c : Call) : bool :=
  match c with
  | LegacyGetSearch _ _ start _ => Z.eqb start 50
  | _ => false
  end.

Definition fleet : list ConfluencePage := [pageDraft; pageReserved; pageOnboarding].

Definition store0 : RefStore.Store := RefStore.mkStore fleet [] accepts_all.

Definition store_with (rejects : Call -> bool) : RefStore.Store :=
  RefStore.mkStore fleet [] rejects.

(** Sixty pages: the listing takes two requests. *)
Definition big_store : RefStore.Store :=
  RefStore.mkStore (repeat pageReserved 60) [] second_page_down.

(** The published property exists with another value, at version [v]. *)
Definition stale_store (v : option Z) : RefStore.Store :=
  RefStore.mkStore fleet
    [("103", mkProp "p1" "emoji-title-published" (JStr "23f3") v)] accepts_all.

(** The published property holds the number 2705 rather than the string. *)
Definition numeric_store : RefStore.Store :=
  RefStore.mkStore fleet
    [("103", mkProp "p1" "emoji-title-published" (JNum 2705) (Some 2%Z))] accepts_all.

Definition constructor_store : RefStore.Store :=
  RefStore.mkStore [pageConstructor] [] accepts_all.

Definition t0 : AdrSync.Tally := AdrSync.mkTally 0 0 0 0.

Definition partial_run :=
  AdrSync.syncPage false pageDraft t0 (RefStore.start (store_with draft_create_down)).
Definition partial_run' :=
  AdrSync.syncPage false pageDraft t0 (RefStore.start (store_with published_create_down)).
Definition failed_run :=
  AdrSync.syncPage false pageDraft t0 (RefStore.start (store_with is_property_call)).

(** A first run on the fleet, and a second run on the store it leaves. *)
Definition first_run := AdrSync.syncEmojis false 3 (RefStore.start store0).
Definition second_run :=
  AdrSync.syncEmojis false 3 (RefStore.start (remote (snd first_run))).

End Fixtures.

(* ===================================================================== *)
(** ** adr-report.ts: the other helpers *)
(* ===================================================================== *)

Module ReportHelpers.
Import JsString Regex JsValue.

(** [/ADR-(\d+)/] *)
Definition adr_number_re : regex :=
  {| nodes := lit "ADR-" ++ [Rep CDigit true true true]; ignoreCase := false |}.

Definition digit_value (a : ascii) : option Z :=
  if is_digit a then Some (Z.of_nat (code a - 48)) else None.

(** The longest prefix of decimal digits, most significant first. *)
Fixpoint dec_prefix (acc : option Z) (s : string) : option Z :=
  match s with
  | String a s' =>
      match digit_value a with
      | Some d => dec_prefix (Some (match acc with Some n => 10 * n + d | None => d end)%Z) s'
      | None => acc
      end
  | EmptyString => acc
  end.

(** [parseInt(s, 10)]; [None] is NaN. The result is the integer read; it is
    the Number [parseInt] returns as long as it is below 2^53. *)
Definition parseInt10 (s : string) : option Z :=
  let s1 := trimStart s in
  let '(neg, s2) :=
    match s1 with
    | String "-" t => (true, t)
    | String "+" t => (false, t)
    | _ => (false, s1)
    end in
  match dec_prefix None s2 with
  | Some n => Some (if neg then (- n)%Z else n)
  | None => None
  end.

(** [extractAdrNumber]; [None] is NaN. *)
Definition extractAdrNumber (title : string) : option Z :=
  match re_match adr_number_re title with
  | Some m => parseInt10 (group1 m)
  | None => Some (-1)%Z
  end.

(** [getStatusEmoji]; the returned string is given by its code points. *)
Definition getStatusEmoji (status : string) : list Z :=
  let s := trim (toLowerCase status) in
  if String.eqb s "accepted" || String.eqb s "approved" then [0x2705%Z]
  else if String.eqb s "proposal" || String.eqb s "proposed"
          || String.eqb s "pending approval" then [0x23f3%Z]
  else if String.eqb s "draft" then [0x1f5d2%Z; 0xfe0f%Z]
  else if String.eqb s "withdrawn" || String.eqb s "rejected" then [0x1f6ab%Z]
  else if String.eqb s "postponed" then [0x270b%Z]
  else [0x2753%Z].

End ReportHelpers.

(** Vocabulary for the statements about these helpers. *)
Module ReportShapes.
Import JsString Regex.

(** No [<] of [s] is followed, anywhere later in [s], by [>]. *)
Fixpoint tag_free (s : string) : bool :=
  match s with
  | EmptyString => true
  | String a s' =>
      (if Ascii.eqb a "<" then all_chars (in_cls (CNot ">")) s' else true)
      && tag_free s'
  end.


End ReportShapes.

(** Vocabulary for further statements about the sync script. *)
Module SyncShapes.
Import JsString Regex JsValue Confluence AdrSync Protocol.

(** The [k + 1] search requests from offset [start] on are all answered
    with a page of results, the first [k] with a link to a further page and
    the last one without: the results in order, and the store left behind. *)
Fixpoint collected {St} `{Remote St} (k : nat) (start : Z) (st : St)
  : option (list ConfluencePage * St) :=
  let '(resp, st') := serve (search_call start) st in
  if ok resp then
    match data resp with
    | Some d =>
        match sr_next d, k with
        | Some (String _ _), S k' =>
            match collected k' (start + 50)%Z st' with
            | Some (ps, st'') => Some (sr_results d ++ ps, st'')
            | None => None
            end
        | Some (String _ _), O => None
        | _, O => Some (sr_results d, st')
        | _, S _ => None
        end
    | None => None
    end
  else None.

(** How many of the pages get an indicator. *)
Definition mapped (page : ConfluencePage) : bool :=
  match extractStatus (body_of page) with
  | Some (String a s) =>
      match getEmojiCodePoint (String a s) with
      | Some _ => true
      | None => false
      end
  | _ => false
  end.

(** The title a log line names. *)
Definition line_title (l : Line) : option string :=
  match l with
  | LNoStatus title | LNonStandard title _ | LSynced _ title _
  | LPartial title _ _ | LFailed title => Some title
  | LStart _ | LFound _ | LDone _ _ _ _ => None
  end.

(** The key and the value a write carries. *)
Definition write_of (c : Call) : option (string * jsval) :=
  match c with
  | PostProperty _ key value | PutProperty _ _ key value _ => Some (key, value)
  | _ => None
  end.

(** Fifty-two pages and no refusals: the listing takes two requests. *)
Definition long_store : RefStore.Store :=
  RefStore.mkStore (repeat Fixtures.pageDraft 51 ++ [Fixtures.pageOnboarding])
    [] Fixtures.accepts_all.

End SyncShapes.

(* ===================================================================== *)
(** ** confluence-properties.ts: the commands on properties *)
(* ===================================================================== *)

Module PropertiesCli.
Import JsString JsValue Confluence ConfluenceProperties.

(** One entry of the [properties] array that [set] and [set-emoji] print:
    [id], [key] and [version?.number]. *)
Record Summary := mkSummary {
  sm_id : option string;
  sm_key : option string;
  sm_version : option Z
}.

(** The entry read through [?.]: every field of an undefined result is
    undefined. *)
Definition summary (p : option ContentProperty) : Summary :=
  match p with
  | Some p => mkSummary (Some (prop_id p)) (Some (prop_key p)) (prop_version p)
  | None => mkSummary None None None
  end.

(** [PropertyInput] *)
Record PropertyInput := mkInput { pi_key : string; pi_value : jsval }.

(** [SetInput]; an absent [value] is [JUndefined]. *)
Record SetInput := mkSetInput {
  si_key : option string;
  si_value : jsval;
  si_properties : option (list PropertyInput)
}.

(** The [properties] array that [setProperties] builds from its input. *)
Definition assemble (input : SetInput) : list PropertyInput :=
  match si_key input with
  | Some (String a k) => [mkInput (String a k) (si_value input)]
  | _ => []
  end
  ++ match si_properties input with
     | Some ps => ps
     | None => []
     end.

(** [result.id], [result.key], [result.version?.number] for each result;
    [None] when a result is undefined and [result.id] throws. *)
Fixpoint summaries (results : list (option ContentProperty))
  : option (list Summary) :=
  match results with
  | [] => Some []
  | Some p :: rest =>
      match summaries rest with
      | Some l => Some (summary (Some p) :: l)
      | None => None
      end
  | None :: _ => None
  end.

(** [v === undefined] and [v == null] *)
Definition is_undefined (v : jsval) : bool :=
  match v with JUndefined => true | _ => false end.
Definition nullish (v : jsval) : bool :=
  match v with JUndefined | JNull => true | _ => false end.

(** [p?.value] *)
Definition value_of (p : option ContentProperty) : jsval :=
  match p with
  | Some p => prop_value p
  | None => JUndefined
  end.

Definition quote : string := String (ascii_of_nat 34) EmptyString.

Section Effects.
Context {St : Type} `{Remote St}.

(** [getPropertyByKey]; the result is the value passed to [output]. *)
Definition getPropertyByKey (pageIdValue key : string) : M St ContentProperty :=
  property <- fetchPropertyDetails pageIdValue key ;;
  match property with
  | None =>
      exitWithError ("Property " ++ quote ++ key ++ quote
                     ++ " not found on page " ++ pageIdValue)
  | Some p => ret p
  end.

(** The first loop of [setProperties]. *)
Fixpoint validate (properties : list PropertyInput) : M St unit :=
  match properties with
  | [] => ret tt
  | property :: rest =>
      if negb (truthy (pi_key property))
      then exitWithError "Property key is required"
      else if is_undefined (pi_value property)
      then exitWithError ("Property value is required for " ++ pi_key property)
      else validate rest
  end.

(** The second loop of [setProperties]. *)
Fixpoint upsertAll (pageIdValue : string) (properties : list PropertyInput)
    (results : list (option ContentProperty))
  : M St (list (option ContentProperty)) :=
  match properties with
  | [] => ret results
  | property :: rest =>
      r <- upsertProperty pageIdValue (pi_key property) (pi_value property) ;;
      upsertAll pageIdValue rest (results ++ [r])
  end.

(** [setProperties]; the result is the value passed to [output]:
    [pageId], [updated] and [properties]. *)
Definition setProperties (pageIdValue : string) (input : SetInput)
  : M St (string * nat * list Summary) :=
  let properties := assemble input in
  match properties with
  | [] => exitWithError "Provide a key/value or properties array"
  | _ :: _ =>
      validate properties ;;;
      results <- upsertAll pageIdValue properties [] ;;
      match summaries results with
      | Some l => ret (pageIdValue, length results, l)
      | None => throw "TypeError"
      end
  end.

(** [setEmoji]; the result is the value passed to [output]:
    [pageId], [emoji] and [properties]. *)
Definition setEmoji (pageIdValue : string) (emojiValue : jsval)
  : M St (string * jsval * list Summary) :=
  if is_undefined emojiValue then exitWithError "Emoji value is required"
  else
    published <- upsertProperty pageIdValue "emoji-title-published" emojiValue ;;
    draft <- upsertProperty pageIdValue "emoji-title-draft" emojiValue ;;
    ret (pageIdValue, emojiValue, [summary published; summary draft]).

(** [getEmoji]; the result is the value passed to [output]: [pageId],
    [emoji] and the properties found, each with its four fields. *)
Definition getEmoji (pageIdValue : string)
  : M St (string * jsval * list ContentProperty) :=
  published <- fetchPropertyDetails pageIdValue "emoji-title-published" ;;
  draft <- fetchPropertyDetails pageIdValue "emoji-title-draft" ;;
  let emojiValue :=
    if nullish (value_of published) then value_of draft
    else value_of published in
  ret (pageIdValue, emojiValue,
       match published with Some p => [p] | None => [] end
       ++ match draft with Some d => [d] | None => [] end).

End Effects.

End PropertiesCli.

(** Vocabulary for the statements about these commands. *)
Module CliShapes.
Import JsString JsValue Confluence PropertiesCli.

(** An entry of the input that passes the checks of [setProperties]. *)
Definition valid (p : PropertyInput) : bool :=
  truthy (pi_key p) && negb (is_undefined (pi_value p)).

(** The writes among the requests, each as the key and value it carries. *)
Definition writes (cs : list Call) : list (option (string * jsval)) :=
  map SyncShapes.write_of (filter is_write cs).

(** The write that an entry of the input asks for. *)
Definition wanted (p : PropertyInput) : option (string * jsval) :=
  Some (pi_key p, pi_value p).

(** The message for an entry that fails the checks. *)
Definition complaint (p : PropertyInput) : string :=
  if truthy (pi_key p) then "Property value is required for " ++ pi_key p
  else "Property key is required".

(** A run that has ended by returning or by [exitWithError]. *)
Definition settled {A} (r : Res A) : Prop :=
  match r with
  | Done _ | Exit _ => True
  | Throw _ | Stalled => False
  end.

End CliShapes.

(* ===================================================================== *)
(** ** The page API: requests on pages and spaces, and their effects *)
(* ===================================================================== *)

Module PageApi.
Import JsString JsValue Confluence.

(** [PageV2] / [PageResponse]: [p_version] is [version?.number],
    [p_createdAt] is [version?.createdAt], [p_body] is
    [body?.storage?.value], [p_webui] is [_links?.webui]. *)
Record PageV2 := mkPageV2 {
  p_id : string;
  p_title : string;
  p_status : string;
  p_spaceId : string;
  p_parentId : option string;
  p_version : option Z;
  p_createdAt : option string;
  p_body : option string;
  p_webui : option string
}.

(** [SpaceResponse] *)
Record SpaceResponse := mkSpace {
  sp_id : string;
  sp_key : string;
  sp_name : string
}.

(** [CreatePageResponse] *)
Record CreatePageResponse := mkCreated {
  cr_id : string;
  cr_title : string;
  cr_status : option string;
  cr_webui : option string
}.

(** The list of properties of a page, without a key filter:
    [results], [size] and [_links?.next]. *)
Record PropertyListing := mkListing {
  ls_results : list ContentProperty;
  ls_size : option Z;
  ls_next : option string
}.

(** The body [createPage] posts; [representation] is always "storage". *)
Record CreateBody := mkCreateBody {
  cb_spaceId : string;
  cb_status : string;
  cb_title : string;
  cb_value : string;
  cb_parentId : option string
}.

(** The body [updatePage] puts; [representation] is always "storage". *)
Record UpdateBody := mkUpdateBody {
  ub_id : string;
  ub_status : string;
  ub_title : string;
  ub_spaceId : string;
  ub_parentId : option string;
  ub_value : string;
  ub_version : Z
}.

Inductive PageCall :=
| GetSpaces (keys : string)
    (* confluenceGet("spaces", {keys, limit: "1"}) *)
| GetSpace (spaceId : string)
    (* confluenceGet(`spaces/${spaceId}`) *)
| GetPage (pageId : string)
    (* confluenceGet(`pages/${pageId}`, {"body-format": "storage"}) *)
| FindPages (title spaceId : string)
    (* confluenceGet("pages", {title, "space-id", limit: "1", "body-format"}) *)
| ListProperties (pageId : string)
    (* confluenceGet(`pages/${pageId}/properties`) *)
| PostPage (body : CreateBody)
    (* confluencePost("pages", body) *)
| PutPage (pageId : string) (body : UpdateBody)
    (* confluencePut(`pages/${pageId}`, body) *)
| DeleteProperty (pageId propId : string).
    (* confluenceDelete(`pages/${pageId}/properties/${propId}`) *)

Definition page_reply (c : PageCall) : Type :=
  match c with
  | GetSpaces _ => list SpaceResponse
  | GetSpace _ => SpaceResponse
  | GetPage _ => PageV2
  | FindPages _ _ => list PageV2
  | ListProperties _ => PropertyListing
  | PostPage _ => CreatePageResponse
  | PutPage _ _ => PageV2
  | DeleteProperty _ _ => unit
  end.

(** The remote store also answers the page requests. *)
Class PageRemote (St : Type) := {
  serve_page : forall c : PageCall, St -> ApiResponse (page_reply c) * St
}.

(** A request of either kind. *)
Inductive Sent :=
| OnProperty (c : Call)
| OnPage (c : PageCall).

(** Requests that change the store. *)
Definition changes (c : Sent) : bool :=
  match c with
  | OnProperty c => is_write c
  | OnPage (PostPage _) | OnPage (PutPage _ _) | OnPage (DeleteProperty _ _) => true
  | OnPage _ => false
  end.

Record Session (St : Type) := mkSession {
  store : St;
  trace : list Sent       (* requests sent so far, oldest first *)
}.
Arguments mkSession {St}.
Arguments store {St}.
Arguments trace {St}.

Definition P (St A : Type) : Type := Session St -> Res A * Session St.

Definition pret {St A} (a : A) : P St A := fun s => (Done a, s).

Definition pbind {St A B} (m : P St A) (f : A -> P St B) : P St B :=
  fun s =>
    match m s with
    | (Done a, s') => f a s'
    | (Exit e, s') => (Exit e, s')
    | (Throw e, s') => (Throw e, s')
    | (Stalled, s') => (Stalled, s')
    end.

Definition ask {St} `{PageRemote St} (c : PageCall)
  : P St (ApiResponse (page_reply c)) :=
  fun s =>
    let '(r, st) := serve_page c (store s) in
    (Done r, mkSession st (trace s ++ [OnPage c])).

(** A computation on properties, run within a session: its requests are
    added to the trace. *)
Definition lift {St A} (m : M St A) : P St A :=
  fun s =>
    let '(r, w) := m (mkWorld (store s) [] []) in
    (r, mkSession (remote w) (trace s ++ map OnProperty (calls w))).

Definition pexit {St A} (message : string) : P St A :=
  fun s => (Exit message, s).

Definition pthrow {St A} (e : string) : P St A := fun s => (Throw e, s).

(** [o?.x ? ... : undefined] and [a || b] on optional strings *)
Definition truthy_opt (o : option string) : bool :=
  match o with
  | Some s => truthy s
  | None => false
  end.

Definition quote : string := String (ascii_of_nat 34) EmptyString.

End PageApi.

Declare Scope page_scope.
Notation "x <- c ;; k" := (PageApi.pbind c (fun x => k))
  (at level 61, c at next level, right associativity) : page_scope.
Notation "c ;;; k" := (PageApi.pbind c (fun _ => k))
  (at level 61, right associativity) : page_scope.

(* ===================================================================== *)
(** ** confluence-create.ts *)
(* ===================================================================== *)

Module ConfluenceCreate.
Import JsString JsValue Confluence PageApi.
Local Open Scope page_scope.
Local Open Scope string_scope.

(** [CreatePageInput], as parsed from JSON: every field may be absent. *)
Record CreatePageInput := mkCreateInput {
  ci_space : option string;
  ci_title : option string;
  ci_body : option string;
  ci_parentId : option string;
  ci_status : option string
}.

(** What [createPage] prints. *)
Record CreateOutput := mkCreateOutput {
  co_id : string;
  co_title : string;
  co_status : option string;
  co_url : option string
}.

Section Effects.
Context {St : Type} `{PageRemote St}.
Variable site : string.     (* getConfig().site *)

Definition getSiteUrl : string := "https://" ++ site.

(** [results.find(result => result.key.toLowerCase() === spaceKey.toLowerCase())] *)
Definition find_space (spaceKey : string) (results : list SpaceResponse)
  : option SpaceResponse :=
  find (fun result => String.eqb (toLowerCase (sp_key result)) (toLowerCase spaceKey))
    results.

Definition getSpaceId (spaceKey : string) : P St string :=
  response <- ask (GetSpaces spaceKey) ;;
  if negb (ok response)
  then pexit (or_else (error response) ("Failed to resolve space key " ++ spaceKey))
  else
    match match data response with
          | Some results => find_space spaceKey results
          | None => None
          end with
    | None => pexit ("Space " ++ quote ++ spaceKey ++ quote ++ " not found")
    | Some space => pret (sp_id space)
    end.

Definition createPage (input : CreatePageInput) : P St CreateOutput :=
  match ci_space input, ci_title input, ci_body input with
  | Some (String a sp), Some (String b ti), Some bodyValue =>
      let space := String a sp in
      let title := String b ti in
      spaceId <- getSpaceId space ;;
      let body :=
        mkCreateBody spaceId (or_else (ci_status input) "current") title bodyValue
          (if truthy_opt (ci_parentId input) then ci_parentId input else None) in
      response <- ask (PostPage body) ;;
      if negb (ok response)
      then pexit (or_else (error response) "Failed to create page")
      else
        match data response with
        | None => pthrow "TypeError"      (* response.data!.id *)
        | Some d =>
            pret (mkCreateOutput (cr_id d) (cr_title d) (cr_status d)
                    (if truthy_opt (cr_webui d)
                     then Some (getSiteUrl ++ "/wiki"
                                ++ match cr_webui d with Some u => u | None => EmptyString end)
                     else None))
        end
  | _, _, _ => pexit "Missing required fields: space, title, body"
  end.

End Effects.

End ConfluenceCreate.

(* ===================================================================== *)
(** ** confluence-update.ts *)
(* ===================================================================== *)

Module ConfluenceUpdate.
Import JsString JsValue Confluence PageApi.
Local Open Scope page_scope.
Local Open Scope string_scope.

(** [UpdateInput] *)
Record UpdateInput := mkUpdateInput {
  ui_title : option string;
  ui_body : option string
}.

(** What [updatePage] prints. *)
Record UpdateOutput := mkUpdateOutput {
  uo_id : string;
  uo_title : string;
  uo_version : option Z;
  uo_url : option string
}.

Section Effects.
Context {St : Type} `{PageRemote St}.
Variable site : string.     (* getConfig().site *)

Definition getSiteUrl : string := "https://" ++ site.

Definition updatePage (pageId : string) (updates : UpdateInput) : P St UpdateOutput :=
  match ui_title updates, ui_body updates with
  | None, None => pexit "At least one of title or body must be provided"
  | _, _ =>
      if match ui_title updates with
         | Some title => Nat.eqb (String.length (trim title)) 0
         | None => false
         end
      then pexit "Title cannot be empty"
      else
        currentResponse <- ask (GetPage pageId) ;;
        if negb (ok currentResponse)
        then pexit (or_else (error currentResponse) ("Failed to get page " ++ pageId))
        else
          match data currentResponse with
          | None => pthrow "TypeError"     (* currentResponse.data!.version *)
          | Some current =>
              match match p_version current with
                    | Some v => if Z.eqb v 0 then None else Some v
                    | None => None
                    end with
              | None => pexit ("Page " ++ pageId ++ " is missing version metadata")
              | Some currentVersion =>
                  let nextVersion := (currentVersion + 1)%Z in
                  match match ui_body updates with
                        | Some b => Some b
                        | None => p_body current
                        end with
                  | None =>
                      pexit "Unable to determine existing page body. Provide a body update."
                  | Some bodyValue =>
                      let body :=
                        mkUpdateBody pageId (p_status current)
                          (match ui_title updates with
                           | Some title => title
                           | None => p_title current
                           end)
                          (p_spaceId current) (p_parentId current)
                          bodyValue nextVersion in
                      response <- ask (PutPage pageId body) ;;
                      if negb (ok response)
                      then pexit (or_else (error response) "Failed to update page")
                      else
                        match data response with
                        | None => pthrow "TypeError"      (* response.data!.id *)
                        | Some d =>
                            pret (mkUpdateOutput (p_id d) (p_title d) (p_version d)
                                    (if truthy_opt (p_webui d)
                                     then Some (getSiteUrl ++ "/wiki"
                                                ++ match p_webui d with
                                                   | Some u => u
                                                   | None => EmptyString
                                                   end)
                                     else None))
                        end
                  end
              end
          end
  end.

End Effects.

End ConfluenceUpdate.

(* ===================================================================== *)
(** ** confluence-get.ts *)
(* ===================================================================== *)

Module ConfluenceGet.
Import JsString JsValue Confluence PageApi.
Local Open Scope page_scope.
Local Open Scope string_scope.

(** The [properties] part of what [getPageById] prints. *)
Record PropertiesOutput := mkPropertiesOutput {
  po_total : Z;
  po_hasMore : bool;
  po_properties : list ContentProperty
}.

(** The [space] part: the space when it could be fetched, else its id. *)
Inductive SpaceOutput :=
| SpaceFound (id key name : string)
| SpaceIdOnly (id : string).

(** What [getPageById] prints. *)
Record PageOutput := mkPageOutput {
  go_id : string;
  go_title : string;
  go_status : string;
  go_space : SpaceOutput;
  go_parentId : option string;
  go_version : option Z;
  go_lastModified : option string;
  go_url : option string;
  go_body : option string;
  go_properties : PropertiesOutput
}.

Section Effects.
Context {St : Type} `{Remote St} `{PageRemote St}.
Variable site : string.     (* getConfig().site *)

Definition getSiteUrl : string := "https://" ++ site.

Definition getSpaceByKey (spaceKey : string) : P St SpaceResponse :=
  response <- ask (GetSpaces spaceKey) ;;
  if negb (ok response)
  then pexit (or_else (error response) ("Failed to resolve space key " ++ spaceKey))
  else
    match match data response with
          | Some results => ConfluenceCreate.find_space spaceKey results
          | None => None
          end with
    | None => pexit ("Space " ++ quote ++ spaceKey ++ quote ++ " not found")
    | Some space => pret space
    end.

Definition tryGetSpaceById (spaceId : string) : P St (option SpaceResponse) :=
  response <- ask (GetSpace spaceId) ;;
  if negb (ok response) then pret None else pret (data response).

(** The loop of [getPageProperties] over the listed properties. *)
Fixpoint fetchDetails (pageId : string) (listed : list ContentProperty)
    (properties : list ContentProperty) : P St (list ContentProperty) :=
  match listed with
  | [] => pret properties
  | property :: rest =>
      detailResponse <- lift (request (GetProperty pageId (prop_id property))) ;;
      if negb (ok detailResponse)
      then pexit (or_else (error detailResponse)
                    ("Failed to fetch property " ++ prop_key property
                     ++ " for page " ++ pageId))
      else
        fetchDetails pageId rest
          (match data detailResponse with
           | Some d => (properties ++ [d])%list
           | None => properties
           end)
  end.

Definition getPageProperties (pageId : string) : P St PropertiesOutput :=
  listResponse <- ask (ListProperties pageId) ;;
  if negb (ok listResponse)
  then pexit (or_else (error listResponse)
                ("Failed to fetch properties for page " ++ pageId))
  else
    let listed := match data listResponse with
                | Some d => ls_results d
                | None => []
                end in
    properties <- fetchDetails pageId listed [] ;;
    pret (mkPropertiesOutput
            (match match data listResponse with
                   | Some d => ls_size d
                   | None => None
                   end with
             | Some size => size
             | None => Z.of_nat (length properties)
             end)
            (truthy_opt (match data listResponse with
                         | Some d => ls_next d
                         | None => None
                         end))
            properties).

Definition getPageById (pageId : string) : P St PageOutput :=
  response <- ask (GetPage pageId) ;;
  if negb (ok response)
  then pexit (or_else (error response) ("Failed to get page " ++ pageId))
  else
    match data response with
    | None => pthrow "TypeError"       (* response.data!.spaceId *)
    | Some page =>
        space <- (if truthy (p_spaceId page) then tryGetSpaceById (p_spaceId page)
                  else pret None) ;;
        properties <- getPageProperties (p_id page) ;;
        pret (mkPageOutput (p_id page) (p_title page) (p_status page)
                (match space with
                 | Some sp => SpaceFound (sp_id sp) (sp_key sp) (sp_name sp)
                 | None => SpaceIdOnly (p_spaceId page)
                 end)
                (p_parentId page) (p_version page) (p_createdAt page)
                (if truthy_opt (p_webui page)
                 then Some (getSiteUrl ++ "/wiki"
                            ++ match p_webui page with Some u => u | None => EmptyString end)
                 else None)
                (p_body page) properties)
    end.

Definition getPageByTitle (title spaceKey : string) : P St PageOutput :=
  space <- getSpaceByKey spaceKey ;;
  response <- ask (FindPages title (sp_id space)) ;;
  if negb (ok response)
  then pexit (or_else (error response) "Search failed")
  else
    match match data response with
          | Some results => hd_error results
          | None => None
          end with
    | None =>
        pexit ("Page " ++ quote ++ title ++ quote ++ " not found in space " ++ spaceKey)
    | Some page => getPageById (p_id page)
    end.

(** [/^\d+$/.test(s)] *)
Definition is_numeric (s : string) : bool := truthy s && all_chars is_digit s.

(** [main], with [process.argv[2]] and [process.argv[3]]; the script has
    already exited with its usage text when the first one is missing. *)
Definition main (pageIdOrTitle : string) (spaceKeyArg : option string)
  : P St PageOutput :=
  if is_numeric pageIdOrTitle then getPageById pageIdOrTitle
  else
    match spaceKeyArg with
    | Some (String a k) => getPageByTitle pageIdOrTitle (String a k)
    | _ => pexit "Space key is required when searching by title"
    end.

End Effects.

End ConfluenceGet.

(* ===================================================================== *)
(** ** confluence-properties.ts: listing and removing properties *)
(* ===================================================================== *)

Module PropertyRemoval.
Import JsString JsValue Confluence ConfluenceProperties PageApi.
Local Open Scope page_scope.
Local Open Scope string_scope.

(** What [listProperties] prints. *)
Record ListOutput := mkListOutput {
  lo_total : option Z;
  lo_hasMore : bool;
  lo_properties : list ContentProperty
}.

Section Effects.
Context {St : Type} `{Remote St} `{PageRemote St}.

Definition listProperties (pageIdValue : string) : P St ListOutput :=
  response <- ask (ListProperties pageIdValue) ;;
  if negb (ok response)
  then pexit (or_else (error response) "Failed to fetch properties")
  else
    pret (mkListOutput
            (match data response with Some d => ls_size d | None => None end)
            (truthy_opt (match data response with
                         | Some d => ls_next d
                         | None => None
                         end))
            (match data response with Some d => ls_results d | None => [] end)).

Definition deleteProperty (pageIdValue key : string) : P St bool :=
  existing <- lift (fetchPropertyDetails pageIdValue key) ;;
  match existing with
  | None => pret false
  | Some existing =>
      response <- ask (DeleteProperty pageIdValue (prop_id existing)) ;;
      if negb (ok response)
      then pexit (or_else (error response) ("Failed to delete property " ++ key))
      else pret true
  end.

(** The loop of [removeEmoji] over the keys. *)
Fixpoint removeKeys (pageIdValue : string) (keys deleted missing : list string)
  : P St (list string * list string) :=
  match keys with
  | [] => pret (deleted, missing)
  | key :: rest =>
      removed <- deleteProperty pageIdValue key ;;
      if removed then removeKeys pageIdValue rest (deleted ++ [key])%list missing
      else removeKeys pageIdValue rest deleted (missing ++ [key])%list
  end.

(** [removeEmoji]; the result is the value passed to [output]:
    [pageId], [deleted] and [missing]. *)
Definition removeEmoji (pageIdValue : string)
  : P St (string * list string * list string) :=
  r <- removeKeys pageIdValue ["emoji-title-published"; "emoji-title-draft"] [] [] ;;
  pret (pageIdValue, fst r, snd r).

(** The [delete] action of [main]; the result is the value passed to
    [output]: [pageId] and [deleted]. *)
Definition main_delete (pageIdValue : string) (arg : option string)
  : P St (string * list string) :=
  match arg with
  | Some (String a k) =>
      deleted <- deleteProperty pageIdValue (String a k) ;;
      if negb deleted
      then pexit ("Property " ++ quote ++ String a k ++ quote
                  ++ " not found on page " ++ pageIdValue)
      else pret (pageIdValue, [String a k])
  | _ => pexit "Property key is required for delete"
  end.

End Effects.

End PropertyRemoval.

(* ===================================================================== *)
(** ** adr-report.ts: the short title and the rows of the report *)
(* ===================================================================== *)

Module ShortTitle.
Import JsString.

(** The patterns of [extractShortTitle] are anchored at the start of the
    title and made of characters, optional characters and quantified
    classes; a class is given by its members. *)
Inductive piece :=
| PChr (a : ascii)                (* a *)
| POpt (a : ascii)                (* a? *)
| POne (p : ascii -> bool)        (* [..] *)
| PStar (p : ascii -> bool)       (* [..]* *)
| PPlus (p : ascii -> bool).      (* [..]+ *)

(** [c*] then the continuation [k rest]: longest first. *)
Fixpoint star {R} (p : ascii -> bool) (k : string -> option R) (s : string)
  : option R :=
  match s with
  | String a s' =>
      if p a then
        match star p k s' with
        | Some r => Some r
        | None => k s
        end
      else k s
  | EmptyString => k s
  end.

(** Match the pieces at the start of [s], with backtracking: the rest of
    the input after the match. *)
Fixpoint run (ps : list piece) (s : string) : option string :=
  match ps with
  | [] => Some s
  | PChr a :: ps' =>
      match s with
      | String b s' => if Ascii.eqb a b then run ps' s' else None
      | EmptyString => None
      end
  | POpt a :: ps' =>
      match s with
      | String b s' =>
          if Ascii.eqb a b then
            match run ps' s' with
            | Some r => Some r
            | None => run ps' s
            end
          else run ps' s
      | EmptyString => run ps' s
      end
  | POne p :: ps' =>
      match s with
      | String b s' => if p b then run ps' s' else None
      | EmptyString => None
      end
  | PStar p :: ps' => star p (run ps') s
  | PPlus p :: ps' =>
      match s with
      | String b s' => if p b then star p (run ps') s' else None
      | EmptyString => None
      end
  end.

(** [s.replace(/^.../, "")]: the match at the start, if any, is removed. *)
Definition strip (ps : list piece) (s : string) : string :=
  match run ps s with
  | Some rest => rest
  | None => s
  end.

(** [\w] *)
Definition is_word (a : ascii) : bool :=
  is_upper a || is_lower a || is_digit a || Ascii.eqb a "_".

(** [[^\w[]] *)
Definition not_word_or_bracket (a : ascii) : bool :=
  negb (is_word a || Ascii.eqb a "[").

(** [[:/-]] *)
Definition is_separator (a : ascii) : bool :=
  Ascii.eqb a ":" || Ascii.eqb a "/" || Ascii.eqb a "-".

(** [\[?ADR-\d+\]?] *)
Definition adr_tag : list piece :=
  [POpt "["; PChr "A"; PChr "D"; PChr "R"; PChr "-"; PPlus is_digit; POpt "]"].

(** [/^[^\w[]*/] *)
Definition leading_re : list piece := [PStar not_word_or_bracket].

(** [/^\[?ADR-\d+\]?\s*[:/-]\s*/] *)
Definition tag_separator_re : list piece :=
  adr_tag ++ [PStar is_space; POne is_separator; PStar is_space].

(** [/^\[?ADR-\d+\]?\s+/] *)
Definition tag_space_re : list piece := adr_tag ++ [PPlus is_space].

Definition extractShortTitle (title : string) : string :=
  trim (strip tag_space_re (strip tag_separator_re (strip leading_re title))).

End ShortTitle.

Module ReportRows.
Import JsString JsValue ReportHelpers ShortTitle.
Local Open Scope string_scope.

(** The [ConfluencePage] of the report: [rp_body] is
    [body?.storage?.value], [rp_when] is [version.when], [rp_webui] is
    [_links.webui]. *)
Record ReportPage := mkReportPage {
  rp_id : string;
  rp_title : string;
  rp_body : option string;
  rp_when : option string;
  rp_webui : string
}.

(** One element of [adrs]; [adr_number] is [None] for NaN. *)
Record Adr := mkAdr {
  adr_number : option Z;
  adr_id : string;
  adr_fullTitle : string;
  adr_shortTitle : string;
  adr_status : string;
  adr_url : string;
  adr_pageId : string;
  adr_lastModified : option string
}.

(** [String(n)] for the result of [extractAdrNumber] *)
Definition number_string (n : option Z) : string :=
  match n with
  | Some z => NilZero.string_of_int (Z.to_int z)
  | None => "NaN"
  end.

(** [s.padStart(3, "0")] *)
Definition padStart3 (s : string) : string :=
  match String.length s with
  | 0 => "000"
  | 1 => "00" ++ s
  | 2 => "0" ++ s
  | _ => s
  end.

Section Rows.
Variable siteUrl : string.      (* getSiteUrl() *)

(** The function mapped over the filtered pages. *)
Definition toAdr (p : ReportPage) : Adr :=
  mkAdr (extractAdrNumber (rp_title p))
    ("ADR-" ++ padStart3 (number_string (extractAdrNumber (rp_title p))))
    (rp_title p)
    (extractShortTitle (rp_title p))
    (AdrReport.extractStatus
       (match rp_body p with
        | Some (String a b) => String a b
        | _ => EmptyString
        end))
    (siteUrl ++ "/wiki" ++ rp_webui p)
    (rp_id p)
    (rp_when p).

(** [a.number - b.number > 0]; a difference that is NaN counts as zero. *)
Definition comes_after (a b : Adr) : bool :=
  match adr_number a, adr_number b with
  | Some x, Some y => (y <? x)%Z
  | _, _ => false
  end.

(** [Array.prototype.sort] with the comparator [a.number - b.number]: the
    sort is stable, so an element goes before the first element that it
    does not come after. *)
Fixpoint insert (x : Adr) (l : list Adr) : list Adr :=
  match l with
  | [] => [x]
  | y :: l' => if comes_after x y then y :: insert x l' else x :: l
  end.

Fixpoint sort (l : list Adr) : list Adr :=
  match l with
  | [] => []
  | x :: l' => insert x (sort l')
  end.

(** [adrs] of [generateReport] *)
Definition adrs (allPages : list ReportPage) : list Adr :=
  sort (map toAdr (filter (fun p => AdrReport.isAdrPage (rp_title p)) allPages)).

End Rows.

(** A number as [Math.max] returns it. *)
Inductive jsnum :=
| Fin (z : Z)
| NegInfinity
| NaN.

(** [Math.max(...numbers)] *)
Definition Math_max (numbers : list (option Z)) : jsnum :=
  fold_left (fun acc n =>
               match acc, n with
               | NaN, _ => NaN
               | _, None => NaN
               | NegInfinity, Some z => Fin z
               | Fin a, Some z => Fin (Z.max a z)
               end) numbers NegInfinity.

(** [maxNumber + 1], the number printed as the next available one. *)
Definition nextNumber (rows : list Adr) : jsnum :=
  match Math_max (map adr_number rows) with
  | Fin z => Fin (z + 1)
  | NegInfinity => NegInfinity
  | NaN => NaN
  end.

End ReportRows.

Module ReportSummary.
Import JsString JsValue ReportRows.
Local Open Scope string_scope.

(** The object [statusCounts], as its own properties. A value is a
    number or, after a clash with an inherited member, a string. *)
Definition Counts : Type := list (string * jsval).

Fixpoint own (acc : Counts) (k : string) : option jsval :=
  match acc with
  | [] => None
  | (k', v) :: acc' => if String.eqb k k' then Some v else own acc' k
  end.

(** [acc[s]]: an own property, else a member inherited from
    [Object.prototype], else [undefined]. *)
Definition get (acc : Counts) (s : string) : jsval :=
  match own acc s with
  | Some v => v
  | None =>
      match Object_prototype s with
      | Some v => v
      | None => JUndefined
      end
  end.

(** [(v || 0) + 1]: an addition of numbers, or a concatenation when the
    left operand is a string or turns into one. *)
Definition plus_one (v : jsval) : jsval :=
  match (if js_truthy v then v else JNum 0) with
  | JNum n => JNum (n + 1)
  | JBool b => JNum (if b then 2 else 1)
  | JNull => JNum 1
  | JUndefined => JUndefined        (* NaN; a truthy operand is never undefined *)
  | JStr s => JStr (s ++ "1")
  | JFunction name => JStr (js_String (JFunction name) ++ "1")
  | JObject => JStr (js_String JObject ++ "1")
  end.

(** An own property is overwritten in place or added at the end. *)
Fixpoint put (acc : Counts) (k : string) (v : jsval) : Counts :=
  match acc with
  | [] => [(k, v)]
  | (k', v') :: acc' =>
      if String.eqb k k' then (k', v) :: acc' else (k', v') :: put acc' k v
  end.

(** [acc[s] = v] for a primitive [v]: the setter of [__proto__] ignores a
    value that is neither an object nor null. *)
Definition set (acc : Counts) (s : string) (v : jsval) : Counts :=
  if String.eqb s "__proto__" then acc else put acc s v.

(** [adr.status || "Unknown"] *)
Definition status_key (adr : Adr) : string :=
  if truthy (adr_status adr) then adr_status adr else "Unknown".

(** The [reduce] that builds [statusCounts]. *)
Definition statusCounts (rows : list Adr) : Counts :=
  fold_left (fun acc adr =>
               let s := status_key adr in
               set acc s (plus_one (get acc s)))
    rows [].

End ReportSummary.

(** Vocabulary for the statements about the rows. *)
Module RowShapes.
Import ReportRows.




(** A row with the given status, for the examples. *)
Definition row_with (status : string) : Adr :=
  mkAdr (Some 1%Z) "ADR-001" "ADR-001: Title" "Title" status
    "https://acme.atlassian.net/wiki/x" "1" None.

(** How many rows have the status [s]. *)
Definition occurrences (s : string) (rows : list Adr) : nat :=
  count_occ string_dec (map ReportSummary.status_key rows) s.

End RowShapes.

(** Vocabulary for the statements about the page scripts, and a wiki to
    run them on. *)
Module PageShapes.
Import JsString JsValue Confluence PageApi.

(** The session after the requests [cs] were sent and left the store in [st]. *)
Definition psent {St} (s : Session St) (st : St) (cs : list Sent) : Session St :=
  mkSession st (trace s ++ cs).

(** The world in which a computation on properties starts within a session. *)
Definition inner {St} (s : Session St) : World St := mkWorld (store s) [] [].

(** A run that has not stalled: the scripts on pages have no unbounded loop. *)
Definition ended {A} (r : Res A) : Prop :=
  match r with
  | Stalled => False
  | _ => True
  end.

(** [updates.title ?? current.title] and the like *)
Definition or_current (update : option string) (current : string) : string :=
  match update with
  | Some u => u
  | None => current
  end.

(** The first space of the response whose key is [spaceKey] up to case. *)
Definition chosen_space (spaceKey : string) (response : ApiResponse (list SpaceResponse))
  : option SpaceResponse :=
  match data response with
  | Some results => ConfluenceCreate.find_space spaceKey results
  | None => None
  end.

(** The detail requests for the listed properties, in order. *)
Definition detail_calls (pageId : string) (listed : list ContentProperty) : list Sent :=
  map (fun p => OnProperty (GetProperty pageId (prop_id p))) listed.

Definition is_delete (c : Sent) : bool :=
  match c with
  | OnPage (DeleteProperty _ _) => true
  | _ => false
  end.

(** A test double of the wiki: properties as in the reference store,
    pages and spaces as lists; [down] makes chosen page requests fail. *)
Record Wiki := mkWiki {
  w_props : RefStore.Store;
  w_pages : list PageV2;
  w_spaces : list SpaceResponse;
  w_down : PageCall -> bool
}.

Definition with_props (st : Wiki) (ps : RefStore.Store) : Wiki :=
  mkWiki ps (w_pages st) (w_spaces st) (w_down st).

Definition serve_wiki_property (c : Call) (st : Wiki) : ApiResponse (reply c) * Wiki :=
  let '(r, ps) := RefStore.serve_ref c (w_props st) in (r, with_props st ps).

Definition find_page (st : Wiki) (pageId : string) : option PageV2 :=
  find (fun p => String.eqb (p_id p) pageId) (w_pages st).

Definition serve_wiki_page (c : PageCall) (st : Wiki)
  : ApiResponse (page_reply c) * Wiki :=
  if w_down st c then (failure "API error (500): rejected", st)
  else
    match c return ApiResponse (page_reply c) * Wiki with
    | GetSpaces keys =>
        (success (firstn 1 (filter (fun sp => String.eqb (toLowerCase (sp_key sp))
                                                 (toLowerCase keys)) (w_spaces st))), st)
    | GetSpace spaceId =>
        match find (fun sp => String.eqb (sp_id sp) spaceId) (w_spaces st) with
        | Some sp => (success sp, st)
        | None => (failure "API error (404): not found", st)
        end
    | GetPage pageId =>
        match find_page st pageId with
        | Some p => (success p, st)
        | None => (failure "API error (404): not found", st)
        end
    | FindPages title spaceId =>
        (success (firstn 1 (filter (fun p => String.eqb (p_title p) title
                                             && String.eqb (p_spaceId p) spaceId)
                              (w_pages st))), st)
    | ListProperties pageId =>
        let found := map snd (filter (fun e => String.eqb (fst e) pageId)
                                (RefStore.props (w_props st))) in
        (success (mkListing found (Some (Z.of_nat (length found))) None), st)
    | PostPage body =>
        let p := mkPageV2 "900" (cb_title body) (cb_status body) (cb_spaceId body)
                   (cb_parentId body) (Some 1%Z) None (Some (cb_value body))
                   (Some "/spaces/new") in
        (success (mkCreated "900" (cb_title body) (Some (cb_status body))
                    (Some "/spaces/new")),
         mkWiki (w_props st) (w_pages st ++ [p]) (w_spaces st) (w_down st))
    | PutPage pageId body =>
        match find_page st pageId with
        | Some p =>
            if match p_version p with
               | Some v => Z.eqb (ub_version body) (v + 1)
               | None => false
               end
            then
              let p' := mkPageV2 pageId (ub_title body) (ub_status body)
                          (ub_spaceId body) (ub_parentId body) (Some (ub_version body))
                          (p_createdAt p) (Some (ub_value body)) (p_webui p) in
              (success p',
               mkWiki (w_props st)
                 (map (fun q => if String.eqb (p_id q) pageId then p' else q) (w_pages st))
                 (w_spaces st) (w_down st))
            else (failure "API error (409): version conflict", st)
        | None => (failure "API error (404): not found", st)
        end
    | DeleteProperty pageId propId =>
        (no_content,
         with_props st
           (RefStore.set_props (w_props st)
              (filter (fun e => negb (String.eqb (fst e) pageId
                                      && String.eqb (prop_id (snd e)) propId))
                 (RefStore.props (w_props st)))))
    end.

#[export] Instance Remote_Wiki : Remote Wiki := {| serve := serve_wiki_property |}.
#[export] Instance PageRemote_Wiki : PageRemote Wiki := {| serve_page := serve_wiki_page |}.

Definition up (c : PageCall) : bool := false.

Definition pageKafka : PageV2 :=
  mkPageV2 "201" "ADR-007: Use Kafka" "current" "S1" (Some "31859277900")
    (Some 4%Z) (Some "2024-05-01T10:00:00Z") (Some "<p>Body</p>")
    (Some "/spaces/CE/pages/201").

(** A page without version metadata. *)
Definition pageBare : PageV2 :=
  mkPageV2 "202" "Notes" "current" "S1" None None None (Some "<p>Notes</p>") None.

Definition wiki0 : Wiki :=
  mkWiki (RefStore.mkStore []
            [("201", mkProp "p1" "emoji-title-published" (JStr "2705") (Some 2%Z));
             ("201", mkProp "p2" "owner" (JStr "team-a") (Some 1%Z))]
            Fixtures.accepts_all)
    [pageKafka; pageBare]
    [mkSpace "S1" "CE" "Engineering"; mkSpace "S2" "DOC" "Documentation"]
    up.

Definition session0 : Session Wiki := mkSession wiki0 [].

End PageShapes.

(* ===================================================================== *)
(** ** Facts about strings and the backtracking matcher *)
(* ===================================================================== *)

Module StringFacts.
Import JsString.
Local Open Scope string_scope.

Lemma append_nil_r (s : string) : s ++ "" = s.
Proof. induction s; simpl; congruence. Qed.

Lemma append_assoc (a b c : string) : (a ++ b) ++ c = a ++ (b ++ c).
Proof. induction a; simpl; congruence. Qed.

Lemma all_chars_app p (u v : string) :
  all_chars p (u ++ v) = all_chars p u && all_chars p v.
Proof.
  induction u as [|a u IH]; simpl; [reflexivity|].
  rewrite IH. apply andb_assoc.
Qed.

Lemma lower_char_not_upper (a : ascii) : is_upper (lower_char a) = false.
Proof.
  destruct a as [[] [] [] [] [] [] [] []]; reflexivity.
Qed.

Lemma toLowerCase_no_upper (s : string) :
  all_chars (fun a => negb (is_upper a)) (toLowerCase s) = true.
Proof.
  induction s as [|a s IH]; simpl; [reflexivity|].
  rewrite lower_char_not_upper, IH. reflexivity.
Qed.

Lemma trimStart_all p (s : string) :
  all_chars p s = true -> all_chars p (trimStart s) = true.
Proof.
  induction s as [|a s IH]; simpl; [reflexivity|].
  intros H. apply andb_prop in H as [Ha Hs].
  destruct (is_space a); [auto|]. simpl. now rewrite Ha, Hs.
Qed.

Lemma trimEnd_all p (s : string) :
  all_chars p s = true -> all_chars p (trimEnd s) = true.
Proof.
  induction s as [|a s IH]; simpl; [reflexivity|].
  intros H. apply andb_prop in H as [Ha Hs]. specialize (IH Hs).
  destruct (trimEnd s).
  - destruct (is_space a); simpl; [reflexivity|now rewrite Ha].
  - simpl in *. now rewrite Ha, IH.
Qed.

Lemma trim_all p (s : string) :
  all_chars p s = true -> all_chars p (trim s) = true.
Proof. intros H. apply trimEnd_all, trimStart_all, H. Qed.

(** A normalised status never contains an upper-case ASCII letter. *)
Lemma normalised_no_upper (s : string) :
  all_chars (fun a => negb (is_upper a)) (trim (toLowerCase s)) = true.
Proof. apply trim_all, toLowerCase_no_upper. Qed.

Lemma eq_ci_refl (s : string) : eq_ci s s = true.
Proof.
  induction s as [|a s IH]; simpl; [reflexivity|].
  now rewrite Ascii.eqb_refl, IH.
Qed.

Lemma eq_ci_length (u v : string) :
  eq_ci u v = true -> String.length u = String.length v.
Proof.
  revert v; induction u as [|a u IH]; intros [|b v]; simpl; try discriminate; auto.
  intros H. apply andb_prop in H as [_ H]. f_equal. auto.
Qed.

End StringFacts.

Module RegexFacts.
Import JsString Regex Literal StringFacts.
Local Open Scope string_scope.

Lemma starts_app ic (l m s : string) :
  String.length l = String.length m ->
  starts ic l (m ++ s) = starts ic l m.
Proof.
  revert m; induction l as [|a l IH]; intros [|b m]; simpl; try discriminate; auto.
  intros [= H]. now rewrite IH.
Qed.

Lemma starts_ci_eq (l m : string) :
  String.length l = String.length m -> starts true l m = eq_ci l m.
Proof.
  revert m; induction l as [|a l IH]; intros [|b m]; simpl; try discriminate; auto.
  intros [= H]. now rewrite IH.
Qed.

Lemma skip_app (m s : string) : skip (String.length m) (m ++ s) = s.
Proof. induction m; simpl; auto. Qed.

Lemma exec_lit ic (l : string) (r : list node) (s : string) :
  exec_nodes ic (lit l ++ r) s =
  if starts ic l s then exec_nodes ic r (skip (String.length l) s) else None.
Proof.
  revert s; induction l as [|a l IH]; intros s.
  - simpl. destruct s; reflexivity.
  - destruct s as [|b s]; [reflexivity|].
    change (lit (String a l) ++ r)%list with (Chr a :: (lit l ++ r))%list.
    simpl. destruct (chr_eq ic a b); simpl; [apply IH|reflexivity].
Qed.

(** A literal that matches up to case is consumed. *)
Lemma exec_lit_ci (l m : string) (r : list node) (s : string) :
  eq_ci l m = true ->
  exec_nodes true (lit l ++ r) (m ++ s) = exec_nodes true r s.
Proof.
  intros H. pose proof (eq_ci_length _ _ H) as L.
  rewrite exec_lit, starts_app, starts_ci_eq, H, L, skip_app by assumption.
  reflexivity.
Qed.

Lemma rep_greedy_sound {R} c (k : string -> string -> option R) s r :
  rep_greedy c k s = Some r ->
  exists u v, s = u ++ v /\ all_chars (in_cls c) u = true /\ k u v = Some r.
Proof.
  revert k; induction s as [|a s IH]; intros k; simpl.
  - intros H. now exists "", "".
  - destruct (in_cls c a) eqn:E.
    + destruct (rep_greedy c (fun u v => k (String a u) v) s) eqn:E2.
      * intros [= <-]. apply IH in E2 as (u & v & -> & Hu & Hk).
        exists (String a u), v. simpl. now rewrite E, Hu.
      * intros H. now exists "", (String a s).
    + intros H. now exists "", (String a s).
Qed.

Lemma rep_lazy_sound {R} c (k : string -> string -> option R) s r :
  rep_lazy c k s = Some r ->
  exists u v, s = u ++ v /\ all_chars (in_cls c) u = true /\ k u v = Some r.
Proof.
  revert k; induction s as [|a s IH]; intros k; simpl.
  - destruct (k "" "") eqn:E; [|discriminate].
    intros [= <-]. now exists "", "".
  - destruct (k "" (String a s)) eqn:E.
    + intros [= <-]. now exists "", (String a s).
    + destruct (in_cls c a) eqn:Ea; [|discriminate].
      intros H. apply IH in H as (u & v & -> & Hu & Hk).
      exists (String a u), v. simpl. now rewrite Ea, Hu.
Qed.

Lemma rep_sound {R} g c (k : string -> string -> option R) s r :
  rep g c k s = Some r ->
  exists u v, s = u ++ v /\ all_chars (in_cls c) u = true /\ k u v = Some r.
Proof. destruct g; [apply rep_greedy_sound | apply rep_lazy_sound]. Qed.

(** Maximal munch: a greedy repetition that can take all of [u] and must
    stop there does so, when the continuation accepts. *)
Lemma rep_greedy_max {R} c (k : string -> string -> option R) u v r :
  all_chars (in_cls c) u = true ->
  stops (in_cls c) v = true ->
  k u v = Some r ->
  rep_greedy c k (u ++ v) = Some r.
Proof.
  revert k; induction u as [|a u IH]; intros k Hu Hv Hk.
  - destruct v as [|b v]; simpl in *; [assumption|].
    apply negb_true_iff in Hv. now rewrite Hv.
  - simpl in *. apply andb_prop in Hu as [Ha Hu]. rewrite Ha.
    now rewrite (IH (fun u v => k (String a u) v) Hu Hv Hk).
Qed.

(** A lazy repetition stops at the first split the continuation accepts. *)
Lemma rep_lazy_first {R} c (k : string -> string -> option R) u v r :
  all_chars (in_cls c) u = true ->
  (forall u1 u2, u = u1 ++ u2 -> u2 <> "" -> k u1 (u2 ++ v) = None) ->
  k u v = Some r ->
  rep_lazy c k (u ++ v) = Some r.
Proof.
  revert k; induction u as [|a u IH]; intros k Hu Hn Hk.
  - destruct v; simpl in *; now rewrite Hk.
  - simpl in Hu. apply andb_prop in Hu as [Ha Hu].
    pose proof (Hn "" (String a u) eq_refl ltac:(discriminate)) as E.
    simpl in E |- *. rewrite E, Ha. apply IH; auto.
    intros u1 u2 -> Hne. apply (Hn (String a u1) u2); auto.
Qed.

(** The leftmost match: positions inside [pre] at which the pattern fails
    are passed over. *)
Lemma re_match_skip (r : regex) (pre s : string) :
  (forall p1 p2, pre = p1 ++ p2 -> p2 <> "" -> exec_at r (p2 ++ s) = None) ->
  re_match r (pre ++ s) = re_match r s.
Proof.
  induction pre as [|a pre IH]; intros H; [reflexivity|].
  change (String a pre ++ s) with (String a (pre ++ s)).
  simpl re_match.
  pose proof (H "" (String a pre) eq_refl ltac:(discriminate)) as E.
  simpl in E. rewrite E. apply IH.
  intros p1 p2 -> Hne. apply (H (String a p1) p2); auto.
Qed.

Lemma re_match_here (r : regex) (s : string) caps rest :
  exec_at r s = Some (caps, rest) -> re_match r s = Some caps.
Proof. intros H. destruct s; simpl; now rewrite H. Qed.


(** A successful [test] names a position at which the pattern matches. *)
Lemma test_sound (r : regex) (s : string) :
  test r s = true -> exists pre s', s = pre ++ s' /\ exec_at r s' <> None.
Proof.
  unfold test. induction s as [|a s IH]; simpl.
  - destruct (exec_at r "") as [[? ?]|] eqn:E; [|discriminate].
    intros _. exists "", "". split; [reflexivity|congruence].
  - destruct (exec_at r (String a s)) as [[? ?]|] eqn:E.
    + intros _. exists "", (String a s). split; [reflexivity|congruence].
    + intros H. destruct (IH H) as (pre & s' & -> & Hs).
      now exists (String a pre), s'.
Qed.

Lemma occurs_before_false ic l pre rest :
  occurs_before ic l pre rest = false ->
  forall p1 p2, pre = p1 ++ p2 -> p2 <> "" -> starts ic l (p2 ++ rest) = false.
Proof.
  induction pre as [|a pre IH]; intros H p1 p2 E Hne.
  - destruct p1, p2; simpl in E; try discriminate. congruence.
  - simpl in H. apply orb_false_iff in H as [H1 H2].
    destruct p1 as [|b p1]; simpl in E.
    + subst p2. exact H1.
    + injection E as -> ->. eapply IH; eauto.
Qed.

End RegexFacts.

Module ExtractFacts.
Import JsString Regex Literal StringFacts RegexFacts Markup AdrSync.
Local Open Scope string_scope.
Arguments lit : simpl never.

Lemma exec_star (ic : bool) c (r : list node) (u v : string) x :
  all_chars (in_cls c) u = true ->
  stops (in_cls c) v = true ->
  exec_nodes ic r v = Some x ->
  exec_nodes ic (Rep c false true false :: r) (u ++ v) = Some x.
Proof.
  intros Hu Hv Hx. simpl. unfold rep.
  apply rep_greedy_max; auto. rewrite Hx. now destruct x.
Qed.

Lemma exec_plus_cap (ic : bool) c (r : list node) (text v : string) caps rest :
  all_chars (in_cls c) text = true ->
  truthy text = true ->
  stops (in_cls c) v = true ->
  exec_nodes ic r v = Some (caps, rest) ->
  exec_nodes ic (Rep c true true true :: r) (text ++ v) = Some (text :: caps, rest)%list.
Proof.
  intros Hu Ht Hv Hx. destruct text as [|a text]; [discriminate|].
  simpl in Hu. apply andb_prop in Hu as [Ha Hu].
  simpl. rewrite Ha. unfold rep.
  apply rep_greedy_max; auto. now rewrite Hx.
Qed.

Lemma exec_lazy_cap (ic : bool) c (r : list node) (u v : string) caps rest :
  all_chars (in_cls c) u = true ->
  (forall u1 u2, u = u1 ++ u2 -> u2 <> "" -> exec_nodes ic r (u2 ++ v) = None) ->
  exec_nodes ic r v = Some (caps, rest) ->
  exec_nodes ic (Rep c false false true :: r) (u ++ v) = Some (u :: caps, rest)%list.
Proof.
  intros Hu Hn Hx. simpl. unfold rep.
  apply rep_lazy_first; auto.
  - intros u1 u2 E Hne. now rewrite (Hn u1 u2 E Hne).
  - now rewrite Hx.
Qed.

Lemma eq_ci_lt (l m : string) :
  eq_ci (String "<" l) m = true -> exists m', m = String "<" m'.
Proof.
  destruct m as [|b m]; simpl; [discriminate|].
  intros H. apply andb_prop in H as [H _]. exists m. f_equal.
  destruct b as [[] [] [] [] [] [] [] []]; simpl in H; try discriminate; reflexivity.
Qed.

Lemma eq_ci_slash (l m : string) :
  eq_ci (String "/" l) m = true -> exists m', m = String "/" m'.
Proof.
  destruct m as [|b m]; simpl; [discriminate|].
  intros H. apply andb_prop in H as [H _]. exists m. f_equal.
  destruct b as [[] [] [] [] [] [] [] []]; simpl in H; try discriminate; reflexivity.
Qed.

Lemma status_cell_eq :
  status_cell =
  (lit status_label ++ Rep CSpace false true false
     :: lit "<td" ++ Rep (CNot ">") false true false :: lit ">")%list.
Proof. reflexivity. Qed.

(** The common prefix of the three patterns consumes a well-formed row. *)
Lemma exec_status_cell (r : Row) (k : list node) (rest : string) x :
  row_ok r = true ->
  exec_nodes true k rest = Some x ->
  exec_nodes true (status_cell ++ k) (row_text r rest) = Some x.
Proof.
  unfold row_ok, row_text. intros H Hk.
  repeat rewrite andb_true_iff in H. destruct H as (((Hl & Hg) & Ht) & Ha).
  destruct (eq_ci_lt _ _ Ht) as [td' Etd].
  rewrite status_cell_eq.
  repeat rewrite <- app_assoc. rewrite exec_lit_ci by assumption.
  rewrite <- app_comm_cons.
  apply exec_star; [assumption| rewrite Etd; reflexivity |].
  repeat rewrite <- app_assoc. rewrite exec_lit_ci by assumption.
  rewrite <- app_comm_cons.
  apply exec_star; [assumption| reflexivity |].
  rewrite (exec_lit_ci ">" ">") by reflexivity. exact Hk.
Qed.

Lemma exec_primary (r : Row) (ws p attrs text close post : string) :
  row_ok r = true ->
  plain_paragraph ws p attrs text close = true ->
  exec_at primary_re (row_text r (ws ++ p ++ attrs ++ ">" ++ text ++ close ++ post))
  = Some ([text], post).
Proof.
  unfold plain_paragraph. intros Hr H.
  repeat rewrite andb_true_iff in H.
  destruct H as (((((Hws & Hp) & Ha) & Ht) & Hne) & Hc).
  destruct (eq_ci_lt _ _ Hp) as [p' Ep].
  destruct (eq_ci_lt _ _ Hc) as [c' Ec].
  unfold exec_at. simpl ignoreCase.
  change (nodes primary_re) with
    (status_cell ++ Rep CSpace false true false
       :: lit "<p" ++ Rep (CNot ">") false true false
       :: lit ">" ++ Rep (CNot "<") true true true :: lit "</p>" ++ [])%list.
  apply exec_status_cell; [assumption|].
  apply exec_star; [assumption| rewrite Ep; reflexivity |].
  rewrite exec_lit_ci by assumption.
  apply exec_star; [assumption| reflexivity |].
  rewrite (exec_lit_ci ">" ">") by reflexivity.
  apply exec_plus_cap; [assumption | assumption | rewrite Ec; reflexivity |].
  rewrite exec_lit_ci by assumption. reflexivity.
Qed.

Lemma exec_empty (r : Row) (ws p ws' close post : string) :
  row_ok r = true ->
  empty_paragraph ws p ws' close = true ->
  exec_at empty_re (row_text r (ws ++ p ++ ws' ++ close ++ post)) = Some ([], post).
Proof.
  unfold empty_paragraph. intros Hr H.
  repeat rewrite andb_true_iff in H. destruct H as (((Hws & Hp) & Hws') & Hc).
  destruct (eq_ci_lt _ _ Hp) as [p' Ep].
  destruct (eq_ci_slash _ _ Hc) as [c' Ec].
  unfold exec_at. simpl ignoreCase.
  change (nodes empty_re) with
    (status_cell ++ Rep CSpace false true false
       :: lit "<p" ++ Rep CSpace false true false :: lit "/>" ++ [])%list.
  apply exec_status_cell; [assumption|].
  apply exec_star; [assumption| rewrite Ep; reflexivity |].
  rewrite exec_lit_ci by assumption.
  apply exec_star; [assumption| rewrite Ec; reflexivity |].
  rewrite exec_lit_ci by assumption. reflexivity.
Qed.

Lemma exec_fallback (r : Row) (cell close post : string) :
  row_ok r = true ->
  whole_cell cell close post = true ->
  exec_at fallback_re (row_text r (cell ++ close ++ post)) = Some ([cell], post).
Proof.
  unfold whole_cell. intros Hr H.
  apply andb_prop in H as [Hc Ho]. apply negb_true_iff in Ho.
  unfold exec_at. simpl ignoreCase.
  change (nodes fallback_re) with
    (status_cell ++ Rep CAny false false true :: lit "</td>" ++ [])%list.
  apply exec_status_cell; [assumption|].
  apply exec_lazy_cap.
  - clear. induction cell; simpl; auto.
  - intros u1 u2 E Hne. rewrite exec_lit.
    now rewrite (occurs_before_false _ _ _ _ Ho u1 u2 E Hne).
  - rewrite exec_lit_ci by assumption. reflexivity.
Qed.

(** No pattern matches before the first occurrence of the Status label. *)
Lemma before_label (re : regex) (k : list node) (pre tail : string) :
  nodes re = (lit status_label ++ k)%list ->
  ignoreCase re = true ->
  occurs_before true status_label pre tail = false ->
  re_match re (pre ++ tail) = re_match re tail.
Proof.
  intros Hn Hi Ho. apply re_match_skip. intros p1 p2 E Hne.
  unfold exec_at. rewrite Hn, Hi, exec_lit.
  now rewrite (occurs_before_false _ _ _ _ Ho p1 p2 E Hne).
Qed.

Lemma re_match_sound (r : regex) (s : string) caps :
  re_match r s = Some caps ->
  exists pre s' rest, s = pre ++ s' /\ exec_at r s' = Some (caps, rest).
Proof.
  induction s as [|a s IH]; simpl.
  - destruct (exec_at r "") as [[c rest]|] eqn:E; [|discriminate].
    intros [= <-]. now exists "", "", rest.
  - destruct (exec_at r (String a s)) as [[c rest]|] eqn:E.
    + intros [= <-]. now exists "", (String a s), rest.
    + intros H. destruct (IH H) as (pre & s' & rest & -> & Hs).
      now exists (String a pre), s', rest.
Qed.


(** Every capture consists of characters of its class, and a [+] group is
    not empty. *)
Lemma exec_captures ic (r : list node) (s : string) caps rest :
  exec_nodes ic r s = Some (caps, rest) ->
  Forall2 cap_ok caps (captures_of r).
Proof.
  revert s caps rest; induction r as [|n r IH]; intros s caps rest.
  - simpl. intros [= <- _]. constructor.
  - destruct n as [a | c min1 g cap].
    + simpl. destruct s as [|b s]; [discriminate|].
      destruct (chr_eq ic a b); [apply IH | discriminate].
    + assert (K : forall u v (pre : string),
                 all_chars (in_cls c) (pre ++ u) = true ->
                 (min1 = true -> pre ++ u <> "") ->
                 match exec_nodes ic r v with
                 | Some (caps0, rest0) =>
                     Some (if cap then ((pre ++ u)%string :: caps0)%list
                           else caps0, rest0)
                 | None => None
                 end = Some (caps, rest) ->
                 Forall2 cap_ok caps (captures_of (Rep c min1 g cap :: r))).
      { intros u v pre Hu Hne Hk.
        destruct (exec_nodes ic r v) as [[caps0 rest0]|] eqn:E; [|discriminate].
        injection Hk as <- <-. apply IH in E.
        destruct cap; simpl; [constructor; [split|]|]; auto. }
      simpl. destruct min1.
      * destruct s as [|a s]; [discriminate|].
        destruct (in_cls c a) eqn:Ea; [|discriminate].
        intros H. apply rep_sound in H as (u & v & -> & Hu & Hk).
        apply (K u v (String a "")); auto.
        -- simpl. now rewrite Ea, Hu.
        -- discriminate.
      * intros H. apply rep_sound in H as (u & v & -> & Hu & Hk).
        apply (K u v ""); auto. discriminate.
Qed.

Lemma rep_greedy_det {R} c (k : string -> string -> option R) (g w : string) :
  all_chars (in_cls c) g = true ->
  stops (in_cls c) w = true ->
  (forall u v, g = u ++ v -> v <> "" -> k u (v ++ w) = None) ->
  rep_greedy c k (g ++ w) = k g w.
Proof.
  revert k; induction g as [|a g IH]; intros k Hg Hw Hk.
  - destruct w as [|b w]; simpl in *; [reflexivity|].
    apply negb_true_iff in Hw. now rewrite Hw.
  - simpl in Hg. apply andb_prop in Hg as [Ha Hg].
    simpl. rewrite Ha.
    rewrite (IH (fun u v => k (String a u) v)); auto.
    + destruct (k (String a g) w) eqn:E; [reflexivity|].
      exact (Hk "" (String a g) eq_refl ltac:(discriminate)).
    + intros u v -> Hne. apply (Hk (String a u) v); auto.
Qed.

(** A greedy [c*] before a literal whose first character matches nothing in
    [c] has one way to match: it takes all of [g]. *)
Lemma exec_star_lit ic c x (l : string) (r : list node) (g w : string) :
  all_chars (in_cls c) g = true ->
  stops (in_cls c) w = true ->
  (forall b, in_cls c b = true -> chr_eq ic x b = false) ->
  exec_nodes ic (Rep c false true false :: lit (String x l) ++ r) (g ++ w)
  = exec_nodes ic (lit (String x l) ++ r) w.
Proof.
  intros Hg Hw Hx. cbn [exec_nodes]. unfold rep.
  rewrite rep_greedy_det; auto.
  - now destruct (exec_nodes ic (lit (String x l) ++ r) w) as [[? ?]|].
  - intros u v -> Hne. rewrite all_chars_app in Hg.
    apply andb_prop in Hg as [_ Hv].
    destruct v as [|b v]; [congruence|].
    simpl in Hv. apply andb_prop in Hv as [Hb _].
    rewrite exec_lit. simpl. now rewrite (Hx b Hb).
Qed.

Lemma clash_space_lt (b : ascii) : in_cls CSpace b = true -> chr_eq true "<" b = false.
Proof.
  destruct b as [[] [] [] [] [] [] [] []]; intros H; try discriminate H; reflexivity.
Qed.

Lemma clash_space_slash (b : ascii) : in_cls CSpace b = true -> chr_eq true "/" b = false.
Proof.
  destruct b as [[] [] [] [] [] [] [] []]; intros H; try discriminate H; reflexivity.
Qed.

Lemma clash_gt (b : ascii) : in_cls (CNot ">") b = true -> chr_eq true ">" b = false.
Proof.
  destruct b as [[] [] [] [] [] [] [] []]; intros H; try discriminate H; reflexivity.
Qed.

Lemma space_not_gt (s : string) :
  all_chars is_space s = true -> all_chars (in_cls (CNot ">")) s = true.
Proof.
  induction s as [|a s IH]; simpl; [reflexivity|].
  intros H. apply andb_prop in H as [Ha Hs]. rewrite (IH Hs), andb_true_r.
  destruct a as [[] [] [] [] [] [] [] []]; try discriminate Ha; reflexivity.
Qed.

Lemma eq_ci_gt (l m : string) :
  eq_ci (String ">" l) m = true -> exists m', m = String ">" m'.
Proof.
  destruct m as [|b m]; simpl; [discriminate|].
  intros H. apply andb_prop in H as [H _]. exists m. f_equal.
  destruct b as [[] [] [] [] [] [] [] []]; simpl in H; try discriminate; reflexivity.
Qed.

(** The common prefix has one way to consume a well-formed row. *)
Lemma exec_status_cell_eq (r : Row) (k : list node) (rest : string) :
  row_ok r = true ->
  exec_nodes true (status_cell ++ k) (row_text r rest) = exec_nodes true k rest.
Proof.
  unfold row_ok, row_text. intros H.
  repeat rewrite andb_true_iff in H. destruct H as (((Hl & Hg) & Ht) & Ha).
  destruct (eq_ci_lt _ _ Ht) as [td' Etd].
  rewrite status_cell_eq.
  repeat (rewrite <- app_assoc || rewrite <- app_comm_cons).
  rewrite exec_lit_ci by assumption.
  rewrite (exec_star_lit true CSpace "<" "td");
    [| assumption | rewrite Etd; reflexivity | exact clash_space_lt].
  rewrite exec_lit_ci by assumption.
  rewrite (exec_star_lit true (CNot ">") ">" "");
    [| assumption | reflexivity | exact clash_gt].
  now rewrite (exec_lit_ci ">" ">") by reflexivity.
Qed.

(** The primary pattern does not match a row whose value cell opens with a
    self-closing paragraph followed by a tag (or by nothing). *)
Lemma primary_fails_on_empty (r : Row) (ws p ws' close post : string) :
  row_ok r = true ->
  empty_paragraph ws p ws' close = true ->
  stops (in_cls (CNot "<")) post = true ->
  exec_at primary_re (row_text r (ws ++ p ++ ws' ++ close ++ post)) = None.
Proof.
  unfold empty_paragraph. intros Hr H Hpost.
  repeat rewrite andb_true_iff in H. destruct H as (((Hws & Hp) & Hws') & Hc).
  destruct (eq_ci_lt _ _ Hp) as [p' Ep].
  destruct (eq_ci_slash _ _ Hc) as [c' Ec]. subst close.
  change (eq_ci ">" c' = true) in Hc.
  destruct (eq_ci_gt _ _ Hc) as [c'' Ec']. subst c'.
  destruct c''; [|discriminate Hc].
  unfold exec_at. simpl ignoreCase.
  change (nodes primary_re) with
    (status_cell ++ Rep CSpace false true false
       :: lit "<p" ++ Rep (CNot ">") false true false
       :: lit ">" ++ Rep (CNot "<") true true true :: lit "</p>" ++ [])%list.
  rewrite exec_status_cell_eq by assumption.
  rewrite (exec_star_lit true CSpace "<" "p");
    [| assumption | rewrite Ep; reflexivity | exact clash_space_lt].
  rewrite exec_lit_ci by assumption.
  change (ws' ++ "/>" ++ post) with (ws' ++ "/" ++ ">" ++ post).
  rewrite <- append_assoc.
  rewrite (exec_star_lit true (CNot ">") ">" "");
    [| rewrite all_chars_app, (space_not_gt _ Hws'); reflexivity
     | reflexivity | exact clash_gt].
  rewrite (exec_lit_ci ">" ">") by reflexivity.
  destruct post as [|b post]; [reflexivity|].
  unfold stops in Hpost. apply negb_true_iff in Hpost.
  cbn [exec_nodes]. now rewrite Hpost.
Qed.

(** Neither the primary nor the empty-value pattern matches a row whose
    value cell opens with a paragraph that starts with a tag. *)
Lemma strict_patterns_fail_on_tagged (r : Row) (ws p sp attrs inner rest : string) :
  row_ok r = true ->
  tagged_paragraph ws p sp attrs inner = true ->
  stops (in_cls (CNot "<")) rest = true ->
  exec_at primary_re (row_text r (ws ++ p ++ sp ++ attrs ++ ">" ++ inner ++ rest)) = None
  /\ exec_at empty_re (row_text r (ws ++ p ++ sp ++ attrs ++ ">" ++ inner ++ rest)) = None.
Proof.
  unfold tagged_paragraph. intros Hr H Hrest.
  repeat rewrite andb_true_iff in H.
  destruct H as (((((Hws & Hp) & Hsp) & Ha) & Hs) & Hi).
  destruct (eq_ci_lt _ _ Hp) as [p' Ep].
  unfold exec_at. simpl ignoreCase. split.
  - change (nodes primary_re) with
      (status_cell ++ Rep CSpace false true false
         :: lit "<p" ++ Rep (CNot ">") false true false
         :: lit ">" ++ Rep (CNot "<") true true true :: lit "</p>" ++ [])%list.
    rewrite exec_status_cell_eq by assumption.
    rewrite (exec_star_lit true CSpace "<" "p");
      [| assumption | rewrite Ep; reflexivity | exact clash_space_lt].
    rewrite exec_lit_ci by assumption.
    rewrite <- (append_assoc sp attrs).
    rewrite (exec_star_lit true (CNot ">") ">" "");
      [| rewrite all_chars_app, (space_not_gt _ Hsp), Ha; reflexivity
       | reflexivity | exact clash_gt].
    rewrite (exec_lit_ci ">" ">") by reflexivity.
    destruct inner as [|b inner].
    + destruct rest as [|b rest]; [reflexivity|].
      unfold stops in Hrest. apply negb_true_iff in Hrest.
      cbn [exec_nodes append]. now rewrite Hrest.
    + unfold stops in Hi. apply negb_true_iff in Hi.
      cbn [exec_nodes append]. now rewrite Hi.
  - change (nodes empty_re) with
      (status_cell ++ Rep CSpace false true false
         :: lit "<p" ++ Rep CSpace false true false :: lit "/>" ++ [])%list.
    rewrite exec_status_cell_eq by assumption.
    rewrite (exec_star_lit true CSpace "<" "p");
      [| assumption | rewrite Ep; reflexivity | exact clash_space_lt].
    rewrite exec_lit_ci by assumption.
    rewrite (exec_star_lit true CSpace "/" ">");
      [| assumption | | exact clash_space_slash].
    + rewrite exec_lit. destruct attrs as [|b attrs]; [reflexivity|].
      simpl in Hs. apply negb_true_iff, orb_false_iff in Hs as [_ Hb].
      cbn [append starts]. unfold chr_eq.
      destruct b as [[] [] [] [] [] [] [] []]; try discriminate Hb; reflexivity.
    + destruct attrs as [|b attrs]; [reflexivity|].
      simpl in Hs. apply negb_true_iff, orb_false_iff in Hs as [Hb _].
      simpl. now rewrite Hb.
Qed.

(** Without the Status label no pattern matches. *)
Lemma no_label_no_match (re : regex) (k : list node) (s : string) :
  nodes re = (lit status_label ++ k)%list ->
  ignoreCase re = true ->
  occurs true status_label s = false ->
  re_match re s = None.
Proof.
  intros Hn Hi. unfold occurs. induction s as [|a s IH]; intros Ho.
  - simpl. unfold exec_at. now rewrite Hn, Hi, exec_lit.
  - cbn [occurs_before] in Ho. apply orb_false_iff in Ho as [H1 H2].
    rewrite append_nil_r in H1.
    cbn [re_match]. unfold exec_at at 1. rewrite Hn, Hi, exec_lit, H1.
    apply IH, H2.
Qed.

(** With the Status label at the start of [tail] only, a pattern matches
    there or nowhere. *)
Lemma match_at_label (re : regex) (k : list node) (pre tail : string) :
  nodes re = (lit status_label ++ k)%list ->
  ignoreCase re = true ->
  label_only_at pre tail = true ->
  re_match re (pre ++ tail)
  = match exec_at re tail with
    | Some (caps, _) => Some caps
    | None => None
    end.
Proof.
  unfold label_only_at. intros Hn Hi H.
  apply andb_prop in H as [Hb Ha]. apply negb_true_iff in Hb, Ha.
  rewrite (before_label re k pre tail Hn Hi Hb).
  destruct tail as [|a t].
  - simpl. now destruct (exec_at re "") as [[? ?]|].
  - simpl re_match. destruct (exec_at re (String a t)) as [[? ?]|]; [reflexivity|].
    simpl in Ha. exact (no_label_no_match re k t Hn Hi Ha).
Qed.

(** What the primary pattern captures is never empty and contains no [<]:
    the match does not cross an embedded tag. *)
Lemma primary_capture_plain (body : string) caps :
  re_match primary_re body = Some caps ->
  exists text, caps = [text]
               /\ all_chars (in_cls (CNot "<")) text = true
               /\ truthy text = true.
Proof.
  intros H. apply re_match_sound in H as (pre & s' & rest & _ & H).
  apply exec_captures in H.
  change (captures_of (nodes primary_re)) with [(CNot "<", true)] in H.
  inversion H as [|text d caps' ds [Hc Hne] Hrest]; subst.
  inversion Hrest; subst. exists text. repeat split; auto.
  simpl in Hne. destruct text; [now specialize (Hne eq_refl)|reflexivity].
Qed.

End ExtractFacts.

Module ExtractTheorems.
Import JsString Regex Literal StringFacts RegexFacts Markup ExtractFacts AdrSync Fixtures.
Local Open Scope string_scope.

Lemma exec_rest_le ic (r : list node) (s : string) caps rest :
  exec_nodes ic r s = Some (caps, rest) -> String.length rest <= String.length s.
Proof.
  revert s caps rest; induction r as [|n r IH]; intros s caps rest.
  - simpl. intros [= _ <-]. lia.
  - assert (A : forall u v : string, String.length (u ++ v) = String.length u + String.length v).
    { intros u v. induction u; simpl; auto. }
    destruct n as [a | c min1 g cap]; simpl.
    + destruct s as [|b s]; [discriminate|].
      destruct (chr_eq ic a b); [|discriminate].
      intros H. apply IH in H. simpl. lia.
    + destruct min1.
      * destruct s as [|a s]; [discriminate|].
        destruct (in_cls c a); [|discriminate].
        intros H. apply rep_sound in H as (u & v & -> & _ & Hk).
        destruct (exec_nodes ic r v) as [[c0 r0]|] eqn:E; [|discriminate].
        injection Hk as _ <-. apply IH in E. simpl. rewrite A. lia.
      * intros H. apply rep_sound in H as (u & v & -> & _ & Hk).
        destruct (exec_nodes ic r v) as [[c0 r0]|] eqn:E; [|discriminate].
        injection Hk as _ <-. apply IH in E. rewrite A. lia.
Qed.

(** The counter of [remove_all_from] never runs out: any two counters
    above the length of the input give the same result. *)
Lemma remove_all_from_enough (r : regex) (n m : nat) (s : string) :
  String.length s < n -> String.length s < m ->
  remove_all_from n r s = remove_all_from m r s.
Proof.
  revert m s; induction n as [|n IH]; intros m s Hn Hm; [lia|].
  destruct m as [|m]; [lia|]. simpl.
  destruct (exec_at r s) as [[caps rest]|] eqn:E.
  - destruct (Nat.ltb_spec (String.length rest) (String.length s)).
    + apply IH; lia.
    + destruct s as [|a s]; [reflexivity|]. f_equal. simpl in *. apply IH; lia.
  - destruct s as [|a s]; [reflexivity|]. f_equal. simpl in *. apply IH; lia.
Qed.

(** Text without [<] holds no tag: stripping leaves it as it is. *)
Lemma remove_tags_plain (s : string) :
  all_chars (in_cls (CNot "<")) s = true -> remove_all tag_re s = s.
Proof.
  unfold remove_all. generalize (S (String.length s)) as n.
  induction s as [|a s IH]; intros n H.
  - destruct n; reflexivity.
  - simpl in H. apply andb_prop in H as [Ha Hs].
    destruct n as [|n]; [reflexivity|].
    assert (E : exec_at tag_re (String a s) = None).
    { unfold exec_at.
      change (nodes tag_re) with
        (lit "<" ++ Rep (CNot ">") false true false :: lit ">")%list.
      rewrite exec_lit. cbn [starts chr_eq ignoreCase tag_re].
      simpl in Ha. apply negb_true_iff in Ha.
      now rewrite Ascii.eqb_sym, Ha. }
    cbn [remove_all_from]. rewrite E. f_equal. apply IH, Hs.
Qed.

(** C4. The status extractor tries its three patterns in strict order and
    the first match wins. (1) When the primary pattern matches, the result
    is the trimmed capture, which is never empty and holds no [<]: the
    match does not cross an embedded tag. (2) When the primary pattern
    fails and the empty-value pattern matches, the sync path returns
    absent and the report path "Unknown", whatever the fallback would
    give. (3) When only the fallback matches, the result is the captured
    cell with every tag removed, trimmed, accepted only if non-empty.
    (4) When nothing matches, as when the body holds no Status label, the
    result is absent / "Unknown".
    On markup: (5) a plain first paragraph of the value cell after the
    first Status label yields its trimmed inner text; with one Status label
    in the body, (6) a value cell that opens with a self-closing paragraph
    yields absent / "Unknown" and (7) a value cell whose paragraph starts
    with a tag yields the whole content of the cell, tags stripped and
    trimmed, if that is not empty. *)
Theorem extractStatus_tiers :
  (forall body caps,
      re_match primary_re body = Some caps ->
      exists text,
        caps = [text]
        /\ all_chars (in_cls (CNot "<")) text = true
        /\ truthy text = true
        /\ AdrSync.extractStatus body = Some (trim text)
        /\ AdrReport.extractStatus body = trim text)
  /\ (forall body,
      re_match primary_re body = None ->
      re_match empty_re body <> None ->
      AdrSync.extractStatus body = None
      /\ AdrReport.extractStatus body = "Unknown")
  /\ (forall body caps,
      re_match primary_re body = None ->
      re_match empty_re body = None ->
      re_match fallback_re body = Some caps ->
      let text := trim (remove_all tag_re (group1 caps)) in
      AdrSync.extractStatus body = (if truthy text then Some text else None)
      /\ AdrReport.extractStatus body = (if truthy text then text else "Unknown"))
  /\ (forall body,
      (re_match primary_re body = None
       /\ re_match empty_re body = None
       /\ re_match fallback_re body = None)
      \/ occurs true status_label body = false ->
      AdrSync.extractStatus body = None
      /\ AdrReport.extractStatus body = "Unknown")
  /\ (forall pre r ws p attrs text close post,
      let tail := row_text r (ws ++ p ++ attrs ++ ">" ++ text ++ close ++ post) in
      row_ok r = true ->
      plain_paragraph ws p attrs text close = true ->
      occurs_before true status_label pre tail = false ->
      AdrSync.extractStatus (pre ++ tail) = Some (trim text)
      /\ AdrReport.extractStatus (pre ++ tail) = trim text)
  /\ (forall pre r ws p ws' close post,
      let tail := row_text r (ws ++ p ++ ws' ++ close ++ post) in
      row_ok r = true ->
      empty_paragraph ws p ws' close = true ->
      stops (in_cls (CNot "<")) post = true ->
      label_only_at pre tail = true ->
      AdrSync.extractStatus (pre ++ tail) = None
      /\ AdrReport.extractStatus (pre ++ tail) = "Unknown")
  /\ (forall pre r ws p sp attrs inner close post,
      let cell := ws ++ p ++ sp ++ attrs ++ ">" ++ inner in
      let tail := row_text r (cell ++ close ++ post) in
      let text := trim (remove_all tag_re cell) in
      row_ok r = true ->
      tagged_paragraph ws p sp attrs inner = true ->
      whole_cell cell close post = true ->
      label_only_at pre tail = true ->
      AdrSync.extractStatus (pre ++ tail) = (if truthy text then Some text else None)
      /\ AdrReport.extractStatus (pre ++ tail)
         = (if truthy text then text else "Unknown")).
Proof.
  assert (T1 : forall body caps,
             re_match primary_re body = Some caps ->
             exists text,
               caps = [text]
               /\ all_chars (in_cls (CNot "<")) text = true
               /\ truthy text = true
               /\ AdrSync.extractStatus body = Some (trim text)
               /\ AdrReport.extractStatus body = trim text).
  { intros body caps H.
    destruct (primary_capture_plain body caps H) as (text & -> & Hc & Hne).
    exists text. unfold AdrSync.extractStatus, AdrReport.extractStatus.
    unfold AdrReport.primary_re. rewrite H. auto. }
  assert (T2 : forall body,
             re_match primary_re body = None ->
             re_match empty_re body <> None ->
             AdrSync.extractStatus body = None
             /\ AdrReport.extractStatus body = "Unknown").
  { intros body H1 H2. unfold AdrSync.extractStatus, AdrReport.extractStatus.
    unfold AdrReport.primary_re, AdrReport.empty_re. rewrite H1.
    destruct (re_match empty_re body); [auto|congruence]. }
  assert (T3 : forall body caps,
             re_match primary_re body = None ->
             re_match empty_re body = None ->
             re_match fallback_re body = Some caps ->
             let text := trim (remove_all tag_re (group1 caps)) in
             AdrSync.extractStatus body = (if truthy text then Some text else None)
             /\ AdrReport.extractStatus body
                = (if truthy text then text else "Unknown")).
  { intros body caps H1 H2 H3. unfold AdrSync.extractStatus, AdrReport.extractStatus.
    unfold AdrReport.primary_re, AdrReport.empty_re, AdrReport.fallback_re,
      AdrReport.tag_re.
    rewrite H1, H2, H3. auto. }
  split; [exact T1|]. split; [exact T2|]. split; [exact T3|].
  split; [|split; [|split]].
  - intros body H.
    assert (N : re_match primary_re body = None
                /\ re_match empty_re body = None
                /\ re_match fallback_re body = None).
    { destruct H as [H | H]; [exact H|].
      repeat split; eapply no_label_no_match; eauto; reflexivity. }
    destruct N as (H1 & H2 & H3).
    unfold AdrSync.extractStatus, AdrReport.extractStatus.
    unfold AdrReport.primary_re, AdrReport.empty_re, AdrReport.fallback_re.
    rewrite H1, H2, H3. auto.
  - intros pre r ws p attrs text close post tail Hr Hp Ho.
    assert (M : re_match primary_re (pre ++ tail) = Some [text]).
    { rewrite (before_label primary_re _ pre tail eq_refl eq_refl Ho).
      eapply re_match_here. apply exec_primary; assumption. }
    destruct (T1 _ _ M) as (text' & [= <-] & _ & _ & Hs & Hrep). auto.
  - intros pre r ws p ws' close post tail Hr He Hpost Hl.
    apply T2.
    + rewrite (match_at_label primary_re _ pre tail eq_refl eq_refl Hl).
      unfold tail. now rewrite primary_fails_on_empty.
    + rewrite (match_at_label empty_re _ pre tail eq_refl eq_refl Hl).
      unfold tail. rewrite (exec_empty r ws p ws' close post Hr He). discriminate.
  - intros pre r ws p sp attrs inner close post cell tail text Hr Ht Hc Hl.
    assert (Hrest : stops (in_cls (CNot "<")) (close ++ post) = true).
    { unfold whole_cell in Hc. apply andb_prop in Hc as [Hc _].
      destruct (eq_ci_lt _ _ Hc) as [c' ->]. reflexivity. }
    assert (E : cell ++ close ++ post
                = ws ++ p ++ sp ++ attrs ++ ">" ++ inner ++ close ++ post).
    { unfold cell. now rewrite !append_assoc. }
    destruct (strict_patterns_fail_on_tagged r ws p sp attrs inner (close ++ post)
                Hr Ht Hrest) as [F1 F2].
    rewrite <- E in F1, F2.
    apply (T3 (pre ++ tail) [cell]).
    + rewrite (match_at_label primary_re _ pre tail eq_refl eq_refl Hl).
      unfold tail. now rewrite F1.
    + rewrite (match_at_label empty_re _ pre tail eq_refl eq_refl Hl).
      unfold tail. now rewrite F2.
    + rewrite (match_at_label fallback_re _ pre tail eq_refl eq_refl Hl).
      unfold tail. now rewrite (exec_fallback r cell close post Hr Hc).
Qed.

Lemma extractStatus_tiers_witness :
  (AdrSync.extractStatus (card "<p>  Draft </p></td>") = Some "Draft"
   /\ AdrReport.extractStatus (card "<p>  Draft </p></td>") = "Draft")
  /\ (AdrSync.extractStatus (card "<p /></td>") = None
      /\ AdrReport.extractStatus (card "<p /></td>") = "Unknown")
  /\ (AdrSync.extractStatus (card "<p><strong>Accep</strong>ted</p> </td>")
        = Some "Accepted"
      /\ AdrReport.extractStatus (card "<p><strong>Accep</strong>ted</p> </td>")
        = "Accepted")
  /\ (AdrSync.extractStatus "<p>Status: Draft</p>" = None
      /\ AdrReport.extractStatus "<p>Status: Draft</p>" = "Unknown").
Proof.
  destruct extractStatus_tiers as (_ & _ & _ & H4 & H5 & H6 & H7).
  split; [|split; [|split]].
  - apply (H5 card_head styled_row "" "<p" "" "  Draft " "</p>"
             ("</td>" ++ card_tail)); reflexivity.
  - apply (H6 card_head styled_row "" "<p" " " "/>" ("</td>" ++ card_tail));
      reflexivity.
  - apply (H7 card_head styled_row "" "<p" "" "" "<strong>Accep</strong>ted</p> "
             "</td>" card_tail); reflexivity.
  - apply H4. right. reflexivity.
Defined.

(** Falling through would have given a status: the fallback pattern alone
    reads "Draft x" from a cell that opens with a self-closing paragraph,
    and the extractor returns absent / "Unknown" for it. *)
Example no_fall_through :
  re_match fallback_re (card "<p /><p>Draft <b>x</b></p></td>")
  = Some ["<p /><p>Draft <b>x</b></p>"]
  /\ trim (remove_all tag_re "<p /><p>Draft <b>x</b></p>") = "Draft x"
  /\ AdrSync.extractStatus (card "<p /><p>Draft <b>x</b></p></td>") = None
  /\ AdrReport.extractStatus (card "<p /><p>Draft <b>x</b></p></td>") = "Unknown".
Proof. repeat split. Qed.

(** The primary pattern wins over the empty-value pattern whenever both
    match, also when its match lies in a later row. *)
Example primary_wins :
  re_match empty_re (card ("<p /></td></tr><tr><td><p><strong><span>"
                           ++ row_text styled_row "<p>Accepted</p></td>")) <> None
  /\ AdrSync.extractStatus (card ("<p /></td></tr><tr><td><p><strong><span>"
                                  ++ row_text styled_row "<p>Accepted</p></td>"))
     = Some "Accepted".
Proof. split; [discriminate | reflexivity]. Qed.

End ExtractTheorems.

Module MapperFacts.
Import JsString Regex Literal JsValue StringFacts RegexFacts AdrSync Titles.
Local Open Scope string_scope.
Arguments lit : simpl never.

Lemma table_values_truthy (k v : string) :
  own_property STATUS_EMOJI_MAP k = Some v -> truthy v = true.
Proof.
  unfold STATUS_EMOJI_MAP. simpl.
  repeat (destruct (String.eqb k _); [intros [= <-]; reflexivity|]).
  discriminate.
Qed.

Lemma camel_case_unreachable (k : string) :
  all_chars (fun a => negb (is_upper a)) k = true ->
  existsb (String.eqb k)
    ["hasOwnProperty"; "isPrototypeOf"; "propertyIsEnumerable";
     "toLocaleString"; "toString"; "valueOf";
     "__defineGetter__"; "__defineSetter__";
     "__lookupGetter__"; "__lookupSetter__"] = false.
Proof.
  intros H. destruct (existsb _ _) eqn:E; [|reflexivity].
  apply existsb_exists in E as (x & Hin & Hx).
  apply String.eqb_eq in Hx. subst x.
  simpl in Hin.
  repeat (destruct Hin as [<- | Hin]; [discriminate H|]).
  destruct Hin.
Qed.

(** What the mapper returns, by the normalised status: the table entry,
    else one of the two inherited members with a lower-case name, else
    nothing. *)
Lemma getEmojiCodePoint_spec (status : string) :
  let k := trim (toLowerCase status) in
  getEmojiCodePoint status =
  match own_property STATUS_EMOJI_MAP k with
  | Some v => Some (JStr v)
  | None =>
      if String.eqb k "constructor" then Some (JFunction "Object")
      else if String.eqb k "__proto__" then Some JObject
      else None
  end.
Proof.
  intros k. unfold getEmojiCodePoint, get_property. fold k.
  destruct (own_property STATUS_EMOJI_MAP k) as [v|] eqn:E.
  - simpl. now rewrite (table_values_truthy _ _ E).
  - unfold Object_prototype.
    destruct (String.eqb k "constructor"); [reflexivity|].
    destruct (String.eqb k "__proto__"); [reflexivity|].
    rewrite camel_case_unreachable by apply normalised_no_upper.
    reflexivity.
Qed.

(** Every listed synonym maps to its code, whatever the case and the
    surrounding white space of the status. *)
Lemma getEmojiCodePoint_table (status key code : string) :
  In (key, code) STATUS_EMOJI_MAP ->
  trim (toLowerCase status) = key ->
  getEmojiCodePoint status = Some (JStr code).
Proof.
  intros Hin Hk. rewrite getEmojiCodePoint_spec, Hk.
  simpl in Hin.
  repeat (destruct Hin as [[= <- <-] | Hin]; [reflexivity|]).
  destruct Hin.
Qed.

(** A status outside the table, other than the two inherited names, has
    no indicator. *)
Lemma getEmojiCodePoint_none (status : string) :
  let k := trim (toLowerCase status) in
  own_property STATUS_EMOJI_MAP k = None ->
  k <> "constructor" -> k <> "__proto__" ->
  getEmojiCodePoint status = None.
Proof.
  intros k Ho Hc Hp. rewrite getEmojiCodePoint_spec. fold k. rewrite Ho.
  apply String.eqb_neq in Hc, Hp. now rewrite Hc, Hp.
Qed.

(** The indicator of a table entry has a symbol. *)
Lemma table_codes_render (k v : string) :
  own_property STATUS_EMOJI_MAP k = Some v ->
  exists emoji, codePointToEmoji (JStr v) = Normal emoji.
Proof.
  unfold STATUS_EMOJI_MAP. simpl.
  repeat (destruct (String.eqb k _); [intros [= <-]; eexists; reflexivity|]).
  discriminate.
Qed.

(** The one status whose indicator has no symbol is [__proto__]. *)
Lemma renders_false (page : Confluence.ConfluencePage) :
  Protocol.renders page = false ->
  exists status,
    extractStatus (Protocol.body_of page) = Some status
    /\ trim (toLowerCase status) = "__proto__".
Proof.
  unfold Protocol.renders.
  destruct (extractStatus (Protocol.body_of page)) as [[|a s]|] eqn:E;
    try discriminate.
  rewrite getEmojiCodePoint_spec.
  destruct (own_property STATUS_EMOJI_MAP (trim (toLowerCase (String a s))))
    as [v|] eqn:Ho.
  - destruct (table_codes_render _ _ Ho) as [emoji ->]. discriminate.
  - destruct (String.eqb _ "constructor"); [discriminate|].
    destruct (String.eqb _ "__proto__") eqn:Ep; [|discriminate].
    intros _. exists (String a s). split; [reflexivity|].
    now apply String.eqb_eq.
Qed.

(** C5. The mapper does not return "no indicator" for every string
    outside its table: the status [constructor] is not a key of
    [STATUS_EMOJI_MAP], yet the lookup reaches the member of that name
    inherited from [Object.prototype] and [getEmojiCodePoint] returns it;
    the status [__proto__] likewise yields an object, for which
    [codePointToEmoji] then throws. The listed synonyms and the empty
    string behave as the claim says. *)
Theorem getEmojiCodePoint_inherited_member :
  own_property STATUS_EMOJI_MAP "constructor" = None
  /\ getEmojiCodePoint "constructor" = Some (JFunction "Object")
  /\ own_property STATUS_EMOJI_MAP "__proto__" = None
  /\ getEmojiCodePoint "__proto__" = Some JObject
  /\ codePointToEmoji JObject = Abrupt "RangeError"
  /\ getEmojiCodePoint "" = None
  /\ getEmojiCodePoint "Onboarding" = None
  /\ map getEmojiCodePoint
       [" Accepted"; "APPROVED"; "Proposal "; "proposed"; "Pending Approval";
        "Draft"; "planning"; "WithDrawn"; "  rejected  "; "postponed"]
     = map (fun c => Some (JStr c))
         ["2705"; "2705"; "23f3"; "23f3"; "23f3";
          "1f5d2"; "1f5d2"; "1f6ab"; "1f6ab"; "270b"].
Proof. repeat split. Qed.







End MapperFacts.

Module ReconcilerFacts.
Import JsString JsValue Confluence AdrSync Protocol.

Section Monad.
Context {St : Type} `{Remote St}.

Lemma bind_request {B} (c : Call) (k : ApiResponse (reply c) -> M St B)
      (w : World St) resp st :
  serve c (remote w) = (resp, st) ->
  bind (request c) k w = k resp (sent w st [c]).
Proof. intros E. unfold bind, request, sent. now rewrite E. Qed.

Lemma bind_log {B} (l : Line) (k : unit -> M St B) (w : World St) :
  bind (log l) k w = k tt (logged w [l]).
Proof. reflexivity. Qed.

Lemma sent_sent (w : World St) st1 st2 cs1 cs2 :
  sent (sent w st1 cs1) st2 cs2 = sent w st2 (cs1 ++ cs2).
Proof. unfold sent. cbn [calls console]. now rewrite app_assoc. Qed.

Lemma logged_logged (w : World St) ls1 ls2 :
  logged (logged w ls1) ls2 = logged w (ls1 ++ ls2).
Proof. unfold logged. cbn [remote calls console]. now rewrite app_assoc. Qed.

Lemma sent_nil (w : World St) : sent w (remote w) [] = w.
Proof. destruct w. unfold sent. cbn. now rewrite app_nil_r. Qed.

Lemma logged_nil (w : World St) : logged w [] = w.
Proof. destruct w. unfold logged. cbn. now rewrite app_nil_r. Qed.
End Monad.

Section WithRemote.
Context {St : Type} `{Remote St}.
Variables (pageId key : string) (value : jsval) (w : World St).
Variables (listResp : ApiResponse PropertyListResponse) (st1 : St).
Hypothesis Hlist : serve (GetProperties pageId key) (remote w) = (listResp, st1).

Lemma upsert_list_failed :
  ok listResp = false ->
  upsertProperty pageId key value w
  = (Done false, sent w st1 [GetProperties pageId key]).
Proof.
  intros Hok. unfold upsertProperty.
  rewrite (bind_request (GetProperties pageId key) _ _ _ _ Hlist); cbn [reply]; rewrite Hok. reflexivity.
Qed.

Lemma upsert_create (createResp : ApiResponse ContentProperty) st2 :
  ok listResp = true ->
  first_result listResp = None ->
  serve (PostProperty pageId key value) st1 = (createResp, st2) ->
  upsertProperty pageId key value w
  = (Done (ok createResp),
     sent w st2 [GetProperties pageId key; PostProperty pageId key value]).
Proof.
  intros Hok Hnone Hpost. unfold upsertProperty.
  unfold first_result in Hnone.
  rewrite (bind_request (GetProperties pageId key) _ _ _ _ Hlist); cbn [reply]; rewrite Hok. cbn [negb]. rewrite Hnone. cbn [reply].
  rewrite (bind_request (PostProperty pageId key value) _
             (sent w st1 [GetProperties pageId key]) _ _ Hpost). cbn [reply]. unfold ret. now rewrite sent_sent.
Qed.

Lemma upsert_same existing :
  ok listResp = true ->
  first_result listResp = Some existing ->
  strict_eq_str (js_String (prop_value existing)) value = true ->
  upsertProperty pageId key value w
  = (Done true, sent w st1 [GetProperties pageId key]).
Proof.
  intros Hok Hsome Heq. unfold upsertProperty.
  unfold first_result in Hsome.
  rewrite (bind_request (GetProperties pageId key) _ _ _ _ Hlist); cbn [reply]; rewrite Hok. cbn [negb]. rewrite Hsome, Heq. cbn [reply].
  reflexivity.
Qed.

Lemma upsert_no_version existing (detailResp : ApiResponse ContentProperty) st2 :
  ok listResp = true ->
  first_result listResp = Some existing ->
  strict_eq_str (js_String (prop_value existing)) value = false ->
  serve (GetProperty pageId (prop_id existing)) st1 = (detailResp, st2) ->
  ok detailResp = false
  \/ version_number detailResp = None
  \/ version_number detailResp = Some 0%Z ->
  upsertProperty pageId key value w
  = (Done false,
     sent w st2 [GetProperties pageId key; GetProperty pageId (prop_id existing)]).
Proof.
  intros Hok Hsome Hneq Hdet Hv. unfold upsertProperty.
  unfold first_result in Hsome. unfold version_number in Hv.
  rewrite (bind_request (GetProperties pageId key) _ _ _ _ Hlist); cbn [reply]; rewrite Hok. cbn [negb]. rewrite Hsome, Hneq. cbn [reply].
  rewrite (bind_request (GetProperty pageId (prop_id existing)) _
             (sent w st1 [GetProperties pageId key]) _ _ Hdet). cbn [reply]. rewrite sent_sent.
  destruct (ok detailResp); [|reflexivity]. cbn [negb].
  destruct Hv as [Hv | [Hv | Hv]]; [discriminate | |]; now rewrite Hv.
Qed.

Lemma upsert_update existing (detailResp : ApiResponse ContentProperty) st2 v
      (updateResp : ApiResponse ContentProperty) st3 :
  ok listResp = true ->
  first_result listResp = Some existing ->
  strict_eq_str (js_String (prop_value existing)) value = false ->
  serve (GetProperty pageId (prop_id existing)) st1 = (detailResp, st2) ->
  ok detailResp = true ->
  version_number detailResp = Some v ->
  v <> 0%Z ->
  serve (PutProperty pageId (prop_id existing) key value (v + 1)) st2
  = (updateResp, st3) ->
  upsertProperty pageId key value w
  = (Done (ok updateResp),
     sent w st3 [GetProperties pageId key;
                 GetProperty pageId (prop_id existing);
                 PutProperty pageId (prop_id existing) key value (v + 1)]).
Proof.
  intros Hok Hsome Hneq Hdet Hdok Hv Hv0 Hput. unfold upsertProperty.
  unfold first_result in Hsome. unfold version_number in Hv.
  rewrite (bind_request (GetProperties pageId key) _ _ _ _ Hlist); cbn [reply]; rewrite Hok. cbn [negb]. rewrite Hsome, Hneq. cbn [reply].
  rewrite (bind_request (GetProperty pageId (prop_id existing)) _
             (sent w st1 [GetProperties pageId key]) _ _ Hdet). cbn [reply]. rewrite Hdok. cbn [negb]. rewrite Hv. cbn [reply].
  apply Z.eqb_neq in Hv0. rewrite Hv0. cbn [reply]. rewrite sent_sent.
  rewrite (bind_request (PutProperty pageId (prop_id existing) key value (v + 1)) _
             (sent w st2 _) _ _ Hput). cbn [reply]. unfold ret. now rewrite !sent_sent.
Qed.

End WithRemote.

(** An upsert always returns: no response makes it exit or throw. It logs
    nothing and sends property requests only. *)
Lemma upsert_returns {St : Type} `{Remote St} pageId key value (w : World St) :
  exists b st cs,
    upsertProperty pageId key value w = (Done b, sent w st cs)
    /\ forallb is_property_call cs = true.
Proof.
  destruct (serve (GetProperties pageId key) (remote w)) as [listResp st1] eqn:E1.
  destruct (ok listResp) eqn:Hok.
  2:{ eexists _, _, _. split; [eapply upsert_list_failed; eauto|reflexivity]. }
  destruct (first_result listResp) as [existing|] eqn:Hf.
  2:{ destruct (serve (PostProperty pageId key value) st1) as [cr st2] eqn:E2.
      eexists _, _, _. split; [eapply upsert_create; eauto|reflexivity]. }
  destruct (strict_eq_str (js_String (prop_value existing)) value) eqn:Heq.
  { eexists _, _, _. split; [eapply upsert_same; eauto|reflexivity]. }
  destruct (serve (GetProperty pageId (prop_id existing)) st1) as [dr st2] eqn:E2.
  destruct (ok dr) eqn:Hd.
  2:{ eexists _, _, _. split; [eapply upsert_no_version; eauto|reflexivity]. }
  destruct (version_number dr) as [v|] eqn:Hv.
  2:{ eexists _, _, _. split; [eapply upsert_no_version; eauto|reflexivity]. }
  destruct (Z.eq_dec v 0) as [->|Hv0].
  { eexists _, _, _. split; [eapply upsert_no_version; eauto|reflexivity]. }
  destruct (serve (PutProperty pageId (prop_id existing) key value (v + 1)) st2)
    as [ur st3] eqn:E3.
  eexists _, _, _. split; [eapply upsert_update; eauto|reflexivity].
Qed.

End ReconcilerFacts.

Module OrchestratorFacts.
Import JsString JsValue Confluence AdrSync Protocol ReconcilerFacts.

Section WithRemote.
Context {St : Type} `{Remote St}.

Lemma after_after (w : World St) st1 cs1 ls1 st2 cs2 ls2 :
  after (after w st1 cs1 ls1) st2 cs2 ls2 = after w st2 (cs1 ++ cs2) (ls1 ++ ls2).
Proof. unfold after. cbn [calls console]. now rewrite !app_assoc. Qed.

Lemma sent_after (w : World St) st cs : sent w st cs = after w st cs [].
Proof. unfold sent, after. now rewrite app_nil_r. Qed.

Lemma logged_after (w : World St) ls : logged w ls = after w (remote w) [] ls.
Proof. unfold logged, after. now rewrite app_nil_r. Qed.

Lemma after_nil (w : World St) : after w (remote w) [] [] = w.
Proof. destruct w. unfold after. cbn. now rewrite !app_nil_r. Qed.

Lemma fetchPages_step n start acc (w : World St)
      (resp : ApiResponse SearchResponse) st :
  serve (search_call start) (remote w) = (resp, st) ->
  fetchPages (S n) start acc w
  = (if negb (ok resp)
     then exitWithError (or_else (error resp) "Failed to search Confluence")
     else
       match data resp with
       | None => throw "TypeError"
       | Some d =>
           match sr_next d with
           | Some (String _ _) => fetchPages n (start + 50)%Z (acc ++ sr_results d)
           | _ => ret (acc ++ sr_results d)
           end
       end) (sent w st [search_call start]).
Proof.
  intros E. cbn [fetchPages].
  now rewrite (bind_request (search_call start) _ w _ _ E).
Qed.

(** Fetching pages logs nothing and sends search requests only. *)
Lemma fetchPages_frame n : forall start acc (w : World St) r w',
  fetchPages n start acc w = (r, w') ->
  exists st cs, w' = sent w st cs
                /\ forallb (fun c => negb (is_property_call c)) cs = true.
Proof.
  induction n as [|n IH]; intros start acc w r w'.
  - simpl. intros [= <- <-]. exists (remote w), []. now rewrite sent_nil.
  - destruct (serve (search_call start) (remote w)) as [resp st] eqn:E.
    cbn [reply search_call] in resp.
    rewrite (fetchPages_step _ _ _ _ _ _ E).
    destruct (ok resp); cbn [negb].
    2:{ unfold exitWithError. intros [= <- <-]. eexists _, _. split; reflexivity. }
    destruct (data resp) as [d|].
    2:{ unfold throw. intros [= <- <-]. eexists _, _. split; reflexivity. }
    destruct (sr_next d) as [[|a nx]|].
    1,3: unfold ret; intros [= <- <-]; eexists _, _; split; reflexivity.
    intros E'. apply IH in E' as (st' & cs & -> & Hcs).
    rewrite sent_sent. eexists _, _. split; [reflexivity|].
    simpl. exact Hcs.
Qed.

(** When the request for page [k] of the listing fails, after [k] pages
    that each announced a further one, fetching exits with the error of
    that response, having sent [k + 1] requests. *)
Lemma fetchPages_fails k : forall n start acc (w : World St) stk
    (resp : ApiResponse SearchResponse) st',
  pages_ok k start (remote w) = Some stk ->
  serve (search_call (start + 50 * Z.of_nat k)) stk = (resp, st') ->
  ok resp = false ->
  k < n ->
  fetchPages n start acc w
  = (Exit (or_else (error resp) "Failed to search Confluence"),
     sent w st' (search_calls (S k) start)).
Proof.
  induction k as [|k IH]; intros n start acc w stk resp st' Hp Hs Hok Hn;
    (destruct n as [|n]; [lia|]).
  - injection Hp as <-. replace (start + 50 * Z.of_nat 0)%Z with start in Hs by lia.
    rewrite (fetchPages_step _ _ _ _ _ _ Hs), Hok. reflexivity.
  - cbn [pages_ok] in Hp.
    destruct (serve (search_call start) (remote w)) as [resp0 st0] eqn:E0.
    cbn [reply search_call] in resp0, Hp.
    rewrite (fetchPages_step _ _ _ _ _ _ E0).
    destruct (ok resp0); [|discriminate]. cbn [negb].
    destruct (data resp0) as [d|]; [|discriminate].
    destruct (sr_next d) as [[|a nx]|]; try discriminate.
    rewrite (IH n (start + 50)%Z _ (sent w st0 [search_call start]) stk resp st');
      auto; try lia.
    + now rewrite sent_sent.
    + replace (start + 50 + 50 * Z.of_nat k)%Z
        with (start + 50 * Z.of_nat (S k))%Z by lia.
      exact Hs.
Qed.

Variable dryRun : bool.

Lemma syncPage_no_status page t (w : World St) :
  extractStatus (body_of page) = None
  \/ extractStatus (body_of page) = Some EmptyString ->
  syncPage dryRun page t w
  = (Done (inc_skipped t), logged w [LNoStatus (pg_title page)]).
Proof.
  unfold syncPage, body_of. intros [-> | ->]; reflexivity.
Qed.

Lemma syncPage_non_standard page t (w : World St) status :
  extractStatus (body_of page) = Some status ->
  truthy status = true ->
  getEmojiCodePoint status = None ->
  syncPage dryRun page t w
  = (Done (inc_skipped t), logged w [LNonStandard (pg_title page) status]).
Proof.
  unfold syncPage, body_of. intros -> Ht Hn.
  destruct status; [discriminate|]. rewrite Hn. reflexivity.
Qed.

Lemma syncPage_throws page t (w : World St) status emojiCode e :
  extractStatus (body_of page) = Some status ->
  truthy status = true ->
  getEmojiCodePoint status = Some emojiCode ->
  codePointToEmoji emojiCode = Abrupt e ->
  syncPage dryRun page t w = (Throw e, w).
Proof.
  unfold syncPage, body_of. intros -> Ht Hm Hc.
  destruct status; [discriminate|]. rewrite Hm, Hc. reflexivity.
Qed.

End WithRemote.

Section Modes.
Context {St : Type} `{Remote St}.

Lemma syncPage_dry page t (w : World St) status emojiCode emoji :
  extractStatus (body_of page) = Some status ->
  truthy status = true ->
  getEmojiCodePoint status = Some emojiCode ->
  codePointToEmoji emojiCode = Normal emoji ->
  syncPage true page t w
  = (Done (inc_updated t), logged w [LSynced emoji (pg_title page) status]).
Proof.
  unfold syncPage, body_of. intros -> Ht Hm Hc.
  destruct status; [discriminate|]. rewrite Hm, Hc. reflexivity.
Qed.

Lemma syncPage_wet page t (w : World St) status emojiCode emoji ok1 w1 ok2 w2 :
  extractStatus (body_of page) = Some status ->
  truthy status = true ->
  getEmojiCodePoint status = Some emojiCode ->
  codePointToEmoji emojiCode = Normal emoji ->
  upsertProperty (pg_id page) published emojiCode w = (Done ok1, w1) ->
  upsertProperty (pg_id page) draft emojiCode w1 = (Done ok2, w2) ->
  syncPage false page t w
  = (Done (snd (verdict page emoji status ok1 ok2 t)),
     logged w2 [fst (verdict page emoji status ok1 ok2 t)]).
Proof.
  unfold syncPage, body_of, published, draft. intros -> Ht Hm Hc H1 H2.
  destruct status; [discriminate|]. rewrite Hm, Hc.
  unfold bind at 1. rewrite H1. unfold bind at 1. rewrite H2.
  unfold verdict. destruct ok1, ok2; reflexivity.
Qed.

(** One page: either its indicator has no symbol and the exception
    escapes, or the page is done with one line logged and exactly one of
    the counters [updated], [skipped], [errors] incremented; only
    property requests are sent, and none in a dry run. *)
Lemma syncPage_cases dryRun page t (w : World St) :
  (renders page = false
   /\ exists e, syncPage dryRun page t w = (Throw e, w))
  \/ (renders page = true
      /\ exists st cs l t',
           syncPage dryRun page t w = (Done t', after w st cs [l])
           /\ (t' = inc_updated t \/ t' = inc_skipped t \/ t' = inc_errors t)
           /\ forallb is_property_call cs = true
           /\ (dryRun = true -> cs = [] /\ st = remote w)).
Proof.
  unfold renders.
  destruct (extractStatus (body_of page)) as [[|a s]|] eqn:E1.
  1,3: right; split; [reflexivity|];
       exists (remote w), [], (LNoStatus (pg_title page)), (inc_skipped t);
       rewrite <- logged_after; repeat split; auto;
       apply syncPage_no_status; auto.
  destruct (getEmojiCodePoint (String a s)) as [v|] eqn:E2.
  2:{ right; split; [reflexivity|].
      exists (remote w), [], (LNonStandard (pg_title page) (String a s)),
        (inc_skipped t).
      rewrite <- logged_after; repeat split; auto.
      apply syncPage_non_standard; auto. }
  destruct (codePointToEmoji v) as [emoji|e] eqn:E3.
  2:{ left; split; [reflexivity|]. exists e.
      eapply syncPage_throws; eauto. }
  right; split; [reflexivity|]. destruct dryRun.
  - exists (remote w), [], (LSynced emoji (pg_title page) (String a s)),
      (inc_updated t).
    rewrite <- logged_after; repeat split; auto.
    eapply syncPage_dry; eauto.
  - destruct (upsert_returns (pg_id page) published v w)
      as (ok1 & st1 & cs1 & U1 & P1).
    destruct (upsert_returns (pg_id page) draft v (sent w st1 cs1))
      as (ok2 & st2 & cs2 & U2 & P2).
    rewrite sent_sent in U2.
    exists st2, (cs1 ++ cs2),
      (fst (verdict page emoji (String a s) ok1 ok2 t)),
      (snd (verdict page emoji (String a s) ok1 ok2 t)).
    split; [|split; [|split]].
    + rewrite (syncPage_wet page t w _ _ _ _ _ _ _ E1 eq_refl E2 E3 U1 U2).
      reflexivity.
    + unfold verdict. destruct ok1, ok2; simpl; auto.
    + now rewrite forallb_app, P1, P2.
    + discriminate.
Qed.

(** The loop over the pages. *)
Lemma syncPages_cases dryRun pages : forall t (w : World St),
  exists r st cs ls,
    syncPages dryRun pages t w = (r, after w st cs ls)
    /\ forallb is_property_call cs = true
    /\ (dryRun = true -> cs = [] /\ st = remote w)
    /\ match r with
       | Done t' =>
           forallb renders pages = true
           /\ total t' = total t + length pages
           /\ unchanged t' = unchanged t
       | Throw _ => forallb renders pages = false
       | _ => False
       end.
Proof.
  induction pages as [|page pages IH]; intros t w.
  - exists (Done t), (remote w), [], []. rewrite after_nil.
    repeat split; auto; try (simpl; lia).
  - cbn [syncPages forallb length].
    destruct (syncPage_cases dryRun page t w)
      as [(R & e & E) | (R & st & cs & l & t' & E & Ht & Pc & Hd)].
    + exists (Throw e), (remote w), [], []. rewrite after_nil, R.
      unfold bind. rewrite E. repeat split; auto.
    + destruct (IH t' (after w st cs [l])) as (r & st' & cs' & ls' & E' & Pc' & Hd' & Hr).
      exists r, st', (cs ++ cs'), ([l] ++ ls').
      unfold bind. rewrite E, E', after_after, R.
      split; [reflexivity|]. split; [now rewrite forallb_app, Pc, Pc'|].
      split.
      * intros D. destruct (Hd D) as [-> ->]. destruct (Hd' D) as [-> ->].
        split; reflexivity.
      * destruct r as [t''| | |]; auto.
        destruct Hr as (Hr1 & Hr2 & Hr3). split; [exact Hr1|].
        unfold total in *.
        destruct Ht as [-> | [-> | ->]]; simpl in *; lia.
Qed.

(** [syncEmojis] is the start line, the fetch, the count line, the loop
    and the tally line; whatever ends the fetch or the loop early ends
    the run. *)
Lemma syncEmojis_unfold dryRun n (w : World St) :
  syncEmojis dryRun n w =
  match fetchPages n 0%Z [] (logged w [LStart dryRun]) with
  | (Done allPages, w1) =>
      match syncPages dryRun (adrPagesOf allPages) (mkTally 0 0 0 0)
              (logged w1 [LFound (length (adrPagesOf allPages))]) with
      | (Done t, w2) =>
          (Done tt, logged w2 [LDone (updated t) (skipped t) (unchanged t) (errors t)])
      | (Exit e, w2) => (Exit e, w2)
      | (Throw e, w2) => (Throw e, w2)
      | (Stalled, w2) => (Stalled, w2)
      end
  | (Exit e, w1) => (Exit e, w1)
  | (Throw e, w1) => (Throw e, w1)
  | (Stalled, w1) => (Stalled, w1)
  end.
Proof.
  unfold syncEmojis. rewrite bind_log. unfold bind at 1.
  destruct (fetchPages n 0%Z [] (logged w [LStart dryRun])) as [[allPages|e|e|] w1];
    reflexivity.
Qed.

End Modes.

End OrchestratorFacts.

(* ===================================================================== *)
(** ** The reconciler *)
(* ===================================================================== *)

Module ReconcilerTheorems.
Import JsString JsValue Confluence AdrSync Protocol ReconcilerFacts RefStore Fixtures.

(** C3. One reconciliation of one property key on one document, once the
    lookup by key has succeeded. No property with that key: one create
    carrying the target value is sent and its success is the outcome. A
    property whose current value equals the target: nothing is written.
    Otherwise the detail of the property is fetched; when that fails or
    the version is missing or zero the outcome is failure and nothing is
    written; else exactly one update is sent, carrying the new value and
    the current version plus one, and its success is the outcome. *)
Theorem upsertProperty_protocol {St : Type} `{Remote St}
    (pageId key : string) (value : jsval) (w : World St)
    (listResp : ApiResponse PropertyListResponse) (st1 : St) :
  serve (GetProperties pageId key) (remote w) = (listResp, st1) ->
  ok listResp = true ->
  (first_result listResp = None ->
   forall (createResp : ApiResponse ContentProperty) st2,
     serve (PostProperty pageId key value) st1 = (createResp, st2) ->
     upsertProperty pageId key value w
     = (Done (ok createResp),
        sent w st2 [GetProperties pageId key; PostProperty pageId key value]))
  /\ (forall existing,
       first_result listResp = Some existing ->
       (strict_eq_str (js_String (prop_value existing)) value = true ->
        upsertProperty pageId key value w
        = (Done true, sent w st1 [GetProperties pageId key]))
       /\ (strict_eq_str (js_String (prop_value existing)) value = false ->
           forall (detailResp : ApiResponse ContentProperty) st2,
             serve (GetProperty pageId (prop_id existing)) st1 = (detailResp, st2) ->
             (ok detailResp = false
              \/ version_number detailResp = None
              \/ version_number detailResp = Some 0%Z ->
              upsertProperty pageId key value w
              = (Done false,
                 sent w st2 [GetProperties pageId key;
                             GetProperty pageId (prop_id existing)]))
             /\ (forall v (updateResp : ApiResponse ContentProperty) st3,
                   ok detailResp = true ->
                   version_number detailResp = Some v ->
                   v <> 0%Z ->
                   serve (PutProperty pageId (prop_id existing) key value (v + 1)) st2
                   = (updateResp, st3) ->
                   upsertProperty pageId key value w
                   = (Done (ok updateResp),
                      sent w st3 [GetProperties pageId key;
                                  GetProperty pageId (prop_id existing);
                                  PutProperty pageId (prop_id existing) key value
                                    (v + 1)])))).
Proof.
  intros Hlist Hok. split.
  - intros Hnone createResp st2 Hpost. eapply upsert_create; eauto.
  - intros existing Hsome. split.
    + intros Heq. eapply upsert_same; eauto.
    + intros Hneq detailResp st2 Hdet. split.
      * intros Hv. eapply upsert_no_version; eauto.
      * intros v updateResp st3 Hdok Hv Hv0 Hput. eapply upsert_update; eauto.
Qed.

Lemma upsertProperty_protocol_witness :
  (* nothing stored: one create *)
  (fst (upsertProperty "103" published (JStr "1f5d2") (start store0)) = Done true
   /\ calls (snd (upsertProperty "103" published (JStr "1f5d2") (start store0)))
      = [GetProperties "103" published; PostProperty "103" published (JStr "1f5d2")])
  (* same value stored: no write *)
  /\ (upsertProperty "103" published (JStr "23f3") (start (stale_store (Some 4%Z)))
      = (Done true, sent (start (stale_store (Some 4%Z))) (stale_store (Some 4%Z))
                      [GetProperties "103" published]))
  (* another value stored, no version: failure, no write *)
  /\ (upsertProperty "103" published (JStr "1f5d2") (start (stale_store None))
      = (Done false, sent (start (stale_store None)) (stale_store None)
                       [GetProperties "103" published; GetProperty "103" "p1"]))
  (* another value stored at version 4: one update carrying version 5 *)
  /\ (fst (upsertProperty "103" published (JStr "1f5d2")
             (start (stale_store (Some 4%Z)))) = Done true
      /\ calls (snd (upsertProperty "103" published (JStr "1f5d2")
                       (start (stale_store (Some 4%Z)))))
         = [GetProperties "103" published; GetProperty "103" "p1";
            PutProperty "103" "p1" published (JStr "1f5d2") 5]).
Proof.
  split; [|split; [|split]].
  - edestruct (upsertProperty_protocol "103" published (JStr "1f5d2") (start store0))
      as [Hc _]; [lazy; reflexivity | reflexivity |].
    rewrite (Hc eq_refl _ _ eq_refl). split; reflexivity.
  - edestruct (upsertProperty_protocol "103" published (JStr "23f3")
                 (start (stale_store (Some 4%Z))))
      as [_ He]; [lazy; reflexivity | reflexivity |].
    destruct (He _ eq_refl) as [Hs _]. exact (Hs eq_refl).
  - edestruct (upsertProperty_protocol "103" published (JStr "1f5d2")
                 (start (stale_store None)))
      as [_ He]; [lazy; reflexivity | reflexivity |].
    destruct (He _ eq_refl) as [_ Hd].
    edestruct (Hd eq_refl) as [Hn _]; [lazy; reflexivity |].
    apply Hn. right; left; reflexivity.
  - edestruct (upsertProperty_protocol "103" published (JStr "1f5d2")
                 (start (stale_store (Some 4%Z))))
      as [_ He]; [lazy; reflexivity | reflexivity |].
    destruct (He _ eq_refl) as [_ Hd].
    edestruct (Hd eq_refl) as [_ Hu]; [lazy; reflexivity |].
    assert (Hu' := fun ur st3 =>
                     Hu 4%Z ur st3 eq_refl eq_refl ltac:(discriminate)).
    erewrite Hu' by (lazy; reflexivity). split; reflexivity.
Defined.

(** C9. A property whose detail record carries version number 0 is
    treated like one that carries no version: the reconciler of the sync
    script returns failure after the lookup and the detail request, and
    the command-line upsert exits with "missing version metadata"; in
    neither case is an update sent. *)
Theorem version_zero_is_missing {St : Type} `{Remote St}
    (pageId key : string) (value : jsval) (w : World St)
    (listResp : ApiResponse PropertyListResponse) (st1 : St)
    (existing : ContentProperty)
    (detailResp : ApiResponse ContentProperty) (st2 : St) (d : ContentProperty) :
  serve (GetProperties pageId key) (remote w) = (listResp, st1) ->
  ok listResp = true ->
  first_result listResp = Some existing ->
  serve (GetProperty pageId (prop_id existing)) st1 = (detailResp, st2) ->
  ok detailResp = true ->
  data detailResp = Some d ->
  prop_version d = Some 0%Z \/ prop_version d = None ->
  (strict_eq_str (js_String (prop_value existing)) value = false ->
   AdrSync.upsertProperty pageId key value w
   = (Done false,
      sent w st2 [GetProperties pageId key; GetProperty pageId (prop_id existing)]))
  /\ ConfluenceProperties.upsertProperty pageId key value w
     = (Exit ("Property " ++ key ++ " is missing version metadata"),
        sent w st2 [GetProperties pageId key; GetProperty pageId (prop_id existing)]).
Proof.
  intros Hlist Hok Hsome Hdet Hdok Hdata Hv. split.
  - intros Hneq. eapply upsert_no_version; eauto.
    unfold version_number. rewrite Hdata. tauto.
  - unfold ConfluenceProperties.upsertProperty,
      ConfluenceProperties.fetchPropertyForUpdate,
      ConfluenceProperties.fetchPropertyDetails.
    unfold first_result in Hsome.
    unfold bind at 1.
    rewrite (bind_request (GetProperties pageId key) _ w _ _ Hlist). cbn [reply].
    rewrite Hok. cbn [negb]. rewrite Hsome.
    rewrite (bind_request (GetProperty pageId (prop_id existing)) _
               (sent w st1 [GetProperties pageId key]) _ _ Hdet). cbn [reply].
    rewrite Hdok, Hdata. cbn [negb ret]. rewrite sent_sent.
    destruct Hv as [-> | ->]; reflexivity.
Qed.

Lemma version_zero_is_missing_witness :
  AdrSync.upsertProperty "103" published (JStr "1f5d2")
    (start (stale_store (Some 0%Z)))
  = (Done false,
     sent (start (stale_store (Some 0%Z))) (stale_store (Some 0%Z))
       [GetProperties "103" published; GetProperty "103" "p1"])
  /\ ConfluenceProperties.upsertProperty "103" published (JStr "1f5d2")
       (start (stale_store (Some 0%Z)))
     = (Exit "Property emoji-title-published is missing version metadata",
        sent (start (stale_store (Some 0%Z))) (stale_store (Some 0%Z))
          [GetProperties "103" published; GetProperty "103" "p1"]).
Proof.
  edestruct (version_zero_is_missing "103" published (JStr "1f5d2")
               (start (stale_store (Some 0%Z)))) as [H1 H2];
    [lazy; reflexivity | reflexivity | reflexivity | lazy; reflexivity
     | reflexivity | reflexivity | left; reflexivity |].
  split; [exact (H1 eq_refl) | exact H2].
Defined.

(** The comparison is [String(existing.value) === value]: a stored number
    2705 counts as the target "2705", and nothing is written. *)
Example upsert_compares_renderings :
  upsertProperty "103" published (JStr "2705") (start numeric_store)
  = (Done true, sent (start numeric_store) numeric_store
                  [GetProperties "103" published]).
Proof. reflexivity. Qed.

End ReconcilerTheorems.

(* ===================================================================== *)
(** ** The orchestrator *)
(* ===================================================================== *)

Module OrchestratorTheorems.
Import JsString Regex JsValue Confluence AdrSync Titles Protocol.
Import ReconcilerFacts OrchestratorFacts MapperFacts RefStore Fixtures.

(** C1, as the code has it. When exactly one of the two upserts of a
    document fails, whichever it is, the line logged for the document is
    the partial-update line, which is neither the line of an updated
    document nor that of a failed one, and it is the [errors] counter
    that goes up by one; the other counters keep their values. *)
Theorem partial_update_counts_as_error {St : Type} `{Remote St}
    (page : ConfluencePage) (t : Tally) (w w1 w2 : World St)
    (status : string) (emojiCode : jsval) (emoji : Z) (ok1 ok2 : bool) :
  extractStatus (body_of page) = Some status ->
  truthy status = true ->
  getEmojiCodePoint status = Some emojiCode ->
  codePointToEmoji emojiCode = Normal emoji ->
  upsertProperty (pg_id page) published emojiCode w = (Done ok1, w1) ->
  upsertProperty (pg_id page) draft emojiCode w1 = (Done ok2, w2) ->
  xorb ok1 ok2 = true ->
  syncPage false page t w
  = (Done (mkTally (updated t) (skipped t) (unchanged t) (S (errors t))),
     logged w2 [LPartial (pg_title page) ok1 ok2])
  /\ LPartial (pg_title page) ok1 ok2 <> LSynced emoji (pg_title page) status
  /\ LPartial (pg_title page) ok1 ok2 <> LFailed (pg_title page).
Proof.
  intros Hs Ht Hm Hc U1 U2 Hx.
  rewrite (syncPage_wet page t w _ _ _ _ _ _ _ Hs Ht Hm Hc U1 U2).
  unfold verdict. split; [|split; discriminate].
  destruct ok1, ok2; try discriminate; reflexivity.
Qed.

Lemma partial_update_counts_as_error_witness :
  partial_run
  = (Done (mkTally 0 0 0 1),
     logged (snd (upsertProperty "103" draft (JStr "1f5d2")
                    (snd (upsertProperty "103" published (JStr "1f5d2")
                            (start (store_with draft_create_down))))))
       [LPartial "ADR-003: Use X" true false])
  /\ partial_run'
     = (Done (mkTally 0 0 0 1),
        logged (snd (upsertProperty "103" draft (JStr "1f5d2")
                       (snd (upsertProperty "103" published (JStr "1f5d2")
                               (start (store_with published_create_down))))))
          [LPartial "ADR-003: Use X" false true]).
Proof.
  split.
  - refine (proj1 (partial_update_counts_as_error pageDraft t0
                     (start (store_with draft_create_down)) _ _
                     "Draft" (JStr "1f5d2") 128466%Z true false
                     _ _ _ _ _ _ _)); reflexivity.
  - refine (proj1 (partial_update_counts_as_error pageDraft t0
                     (start (store_with published_create_down)) _ _
                     "Draft" (JStr "1f5d2") 128466%Z false true
                     _ _ _ _ _ _ _)); reflexivity.
Defined.

(** C1, as stated, fails: the tally has no count of partial updates. A
    document whose published property was written and whose draft
    property was refused leaves the same tally as a document for which
    every property request was refused, so nothing read off the tally
    goes up for the first and not for the second. *)
Lemma partial_count_absent :
  fst partial_run = Done (mkTally 0 0 0 1)
  /\ console (snd partial_run) = [LPartial "ADR-003: Use X" true false]
  /\ fst failed_run = Done (mkTally 0 0 0 1)
  /\ console (snd failed_run) = [LFailed "ADR-003: Use X"]
  /\ ~ (exists partial_count : Tally -> nat,
          (forall t, fst partial_run = Done t -> partial_count t = S (partial_count t0))
          /\ (forall t, fst failed_run = Done t -> partial_count t = partial_count t0)).
Proof.
  assert (P : fst partial_run = Done (mkTally 0 0 0 1)) by (vm_compute; reflexivity).
  assert (F : fst failed_run = Done (mkTally 0 0 0 1)) by (vm_compute; reflexivity).
  repeat split; try assumption; try (vm_compute; reflexivity).
  intros (pc & Hp & Hf). specialize (Hp _ P). specialize (Hf _ F). lia.
Qed.

(** C6. In a dry run no property request is sent: the requests of the
    whole run are search requests, however the run ends. And for every
    document the line a dry run logs is the line a real run logs, with
    the same symbol and status, unless the real run reports a partial or
    failed update, which carries neither. *)
Theorem dry_run_pure {St : Type} `{Remote St} :
  (forall n (w : World St) r w',
      syncEmojis true n w = (r, w') ->
      exists cs, calls w' = calls w ++ cs
                 /\ forallb (fun c => negb (is_property_call c)) cs = true)
  /\ (forall page t (w : World St) t' w',
         syncPage true page t w = (Done t', w') ->
         remote w' = remote w /\ calls w' = calls w)
  /\ (forall page t (wd wr : World St),
         match syncPage true page t wd, syncPage false page t wr with
         | (Done _, wd'), (Done _, wr') =>
             exists ld lr,
               console wd' = console wd ++ [ld]
               /\ console wr' = console wr ++ [lr]
               /\ (lr = ld
                   \/ lr = LFailed (pg_title page)
                   \/ exists ok1 ok2, lr = LPartial (pg_title page) ok1 ok2)
         | (Throw e, _), (Throw e', _) => e = e'
         | _, _ => False
         end).
Proof.
  split; [|split].
  - intros n w r w'. rewrite syncEmojis_unfold.
    destruct (fetchPages n 0%Z [] (logged w [LStart true])) as [rf w1] eqn:F.
    apply fetchPages_frame in F as (st & cs & -> & Hcs).
    destruct rf as [allPages|e|e|];
      try (intros [= <- <-]; exists cs; split; [reflexivity|exact Hcs]).
    destruct (syncPages_cases true (adrPagesOf allPages) (mkTally 0 0 0 0)
                (logged (sent (logged w [LStart true]) st cs)
                   [LFound (length (adrPagesOf allPages))]))
      as (rp & st' & cs' & ls & E & _ & Hd & _).
    rewrite E. destruct (Hd eq_refl) as [-> ->].
    destruct rp; intros [= <- <-]; exists cs; cbn; rewrite ?app_nil_r;
      (split; [reflexivity|exact Hcs]).
  - intros page t w t' w' E.
    destruct (syncPage_cases true page t w)
      as [(_ & e & E') | (_ & st & cs & l & t'' & E' & _ & _ & Hd)];
      rewrite E' in E; [discriminate|].
    injection E as <- <-. destruct (Hd eq_refl) as [-> ->].
    cbn. now rewrite app_nil_r.
  - intros page t wd wr.
    destruct (extractStatus (body_of page)) as [[|a s]|] eqn:E1.
    1,3: rewrite !syncPage_no_status by auto;
         eexists _, _; cbn; repeat split; auto.
    destruct (getEmojiCodePoint (String a s)) as [v|] eqn:E2.
    2:{ rewrite !(syncPage_non_standard _ _ _ _ (String a s)) by auto.
        eexists _, _; cbn; repeat split; auto. }
    destruct (codePointToEmoji v) as [emoji|e] eqn:E3.
    2:{ now rewrite !(syncPage_throws _ _ _ _ _ _ e E1 eq_refl E2 E3). }
    rewrite (syncPage_dry page t wd _ _ _ E1 eq_refl E2 E3).
    destruct (upsert_returns (pg_id page) published v wr)
      as (ok1 & st1 & cs1 & U1 & _).
    destruct (upsert_returns (pg_id page) draft v (sent wr st1 cs1))
      as (ok2 & st2 & cs2 & U2 & _).
    rewrite (syncPage_wet page t wr _ _ _ _ _ _ _ E1 eq_refl E2 E3 U1 U2).
    eexists _, _. cbn [logged sent console]. split; [reflexivity|].
    split; [reflexivity|].
    unfold verdict. destruct ok1, ok2; cbn; eauto.
Qed.

Lemma dry_run_pure_witness :
  (exists cs,
      calls (snd (syncEmojis true 3 (start store0))) = calls (start store0) ++ cs
      /\ forallb (fun c => negb (is_property_call c)) cs = true)
  /\ (remote (snd (syncPage true pageDraft t0 (start store0))) = store0
      /\ calls (snd (syncPage true pageDraft t0 (start store0))) = []).
Proof.
  destruct (@dry_run_pure Store _) as (H1 & H2 & _).
  split.
  - apply (H1 3 (start store0) (fst (syncEmojis true 3 (start store0)))).
    apply surjective_pairing.
  - apply (H2 pageDraft t0 (start store0) (inc_updated t0)).
    vm_compute. reflexivity.
Defined.



(** C8. A search request that is refused while the pages are being
    collected ends the whole run at once: the run exits with the error of
    that response, no request follows the refused one, and only the start
    line has been logged. A refused property request is different: an
    upsert always returns, with outcome false when the lookup, the detail
    request, the create or the update is refused; so whenever the
    collection succeeds (and every indicator has a symbol) the run goes
    through all documents and logs the tally, whatever the store answers
    to property requests. *)
Theorem failures_fatal_or_scoped {St : Type} `{Remote St} :
  (forall dryRun k n (w : World St) stk (resp : ApiResponse SearchResponse) st',
      pages_ok k 0%Z (remote w) = Some stk ->
      serve (search_call (50 * Z.of_nat k)) stk = (resp, st') ->
      ok resp = false ->
      k < n ->
      syncEmojis dryRun n w
      = (Exit (or_else (error resp) "Failed to search Confluence"),
         after w st' (search_calls (S k) 0%Z) [LStart dryRun]))
  /\ (forall pageId key value (w : World St),
         exists b st cs,
           upsertProperty pageId key value w = (Done b, sent w st cs))
  /\ (forall pageId key value (w : World St)
             (listResp : ApiResponse PropertyListResponse) st1,
         serve (GetProperties pageId key) (remote w) = (listResp, st1) ->
         (ok listResp = false -> fst (upsertProperty pageId key value w) = Done false)
         /\ (ok listResp = true ->
             first_result listResp = None ->
             forall (createResp : ApiResponse ContentProperty) st2,
               serve (PostProperty pageId key value) st1 = (createResp, st2) ->
               ok createResp = false ->
               fst (upsertProperty pageId key value w) = Done false)
         /\ (forall existing (detailResp : ApiResponse ContentProperty) st2,
               ok listResp = true ->
               first_result listResp = Some existing ->
               strict_eq_str (js_String (prop_value existing)) value = false ->
               serve (GetProperty pageId (prop_id existing)) st1 = (detailResp, st2) ->
               (ok detailResp = false ->
                fst (upsertProperty pageId key value w) = Done false)
               /\ (forall v (updateResp : ApiResponse ContentProperty) st3,
                     ok detailResp = true ->
                     version_number detailResp = Some v ->
                     v <> 0%Z ->
                     serve (PutProperty pageId (prop_id existing) key value (v + 1)) st2
                     = (updateResp, st3) ->
                     ok updateResp = false ->
                     fst (upsertProperty pageId key value w) = Done false)))
  /\ (forall dryRun n (w : World St) allPages w1,
         fetchPages n 0%Z [] (logged w [LStart dryRun]) = (Done allPages, w1) ->
         forallb renders (adrPagesOf allPages) = true ->
         exists t st cs ls,
           syncEmojis dryRun n w
           = (Done tt,
              after w1 st cs
                (LFound (length (adrPagesOf allPages)) :: ls
                 ++ [LDone (updated t) (skipped t) (unchanged t) (errors t)]))
           /\ total t = length (adrPagesOf allPages)).
Proof.
  split; [|split; [|split]].
  - intros dryRun k n w stk resp st' Hp Hs Hok Hn.
    rewrite syncEmojis_unfold.
    rewrite (fetchPages_fails k n 0%Z [] (logged w [LStart dryRun]) stk resp st');
      auto.
  - intros pageId key value w.
    destruct (upsert_returns pageId key value w) as (b & st & cs & E & _).
    now exists b, st, cs.
  - intros pageId key value w listResp st1 Hlist. split; [|split].
    + intros Hok. now rewrite (upsert_list_failed _ _ _ _ _ _ Hlist Hok).
    + intros Hok Hnone createResp st2 Hpost Hc.
      rewrite (upsert_create _ _ _ _ _ _ Hlist _ _ Hok Hnone Hpost). cbn.
      now rewrite Hc.
    + intros existing detailResp st2 Hok Hsome Hneq Hdet. split.
      * intros Hd.
        now rewrite (upsert_no_version _ _ _ _ _ _ Hlist _ _ _ Hok Hsome Hneq Hdet
                       (or_introl Hd)).
      * intros v updateResp st3 Hdok Hv Hv0 Hput Hu.
        rewrite (upsert_update _ _ _ _ _ _ Hlist _ _ _ _ _ _ Hok Hsome Hneq Hdet
                   Hdok Hv Hv0 Hput). cbn. now rewrite Hu.
  - intros dryRun n w allPages w1 F R.
    rewrite syncEmojis_unfold, F.
    destruct (syncPages_cases dryRun (adrPagesOf allPages) (mkTally 0 0 0 0)
                (logged w1 [LFound (length (adrPagesOf allPages))]))
      as (r & st & cs & ls & E & _ & _ & Hr).
    rewrite E. destruct r as [t| |e|]; try contradiction.
    2:{ congruence. }
    destruct Hr as (_ & Ht & _).
    exists t, st, cs, ls. split; [|exact Ht].
    f_equal. unfold logged, after. cbn [remote calls console].
    now rewrite <- !app_assoc.
Qed.

Lemma failures_fatal_or_scoped_witness :
  syncEmojis false 5 (start big_store)
  = (Exit "API error (500): rejected",
     after (start big_store) big_store [search_call 0; search_call 50] [LStart false])
  /\ fst failed_run = Done (mkTally 0 0 0 1)
  /\ fst (syncEmojis false 3 (start (store_with is_property_call))) = Done tt.
Proof.
  destruct (@failures_fatal_or_scoped Store _) as (H1 & _ & H3 & H4).
  split; [|split].
  - apply (H1 false 1 5 (start big_store) big_store
             (failure "API error (500): rejected") big_store);
      [vm_compute; reflexivity | vm_compute; reflexivity | reflexivity | lia].
  - vm_compute. reflexivity.
  - destruct (H4 false 3 (start (store_with is_property_call)) fleet
                (sent (logged (start (store_with is_property_call)) [LStart false])
                   (store_with is_property_call) [search_call 0]))
      as (t & st & cs & ls & E & _);
      [vm_compute; reflexivity | vm_compute; reflexivity |].
    now rewrite E.
Defined.



(** Whatever the store: a document for which both upserts only looked the
    property up and found the target value already there is counted as
    updated, and logged like a document that was written. *)
Lemma unwritten_counts_as_updated {St : Type} `{Remote St}
    (page : ConfluencePage) (t : Tally) (w : World St)
    (status : string) (emojiCode : jsval) (emoji : Z) (st1 st2 : St) :
  extractStatus (body_of page) = Some status ->
  truthy status = true ->
  getEmojiCodePoint status = Some emojiCode ->
  codePointToEmoji emojiCode = Normal emoji ->
  upsertProperty (pg_id page) published emojiCode w
  = (Done true, sent w st1 [GetProperties (pg_id page) published]) ->
  upsertProperty (pg_id page) draft emojiCode
    (sent w st1 [GetProperties (pg_id page) published])
  = (Done true, sent w st2 [GetProperties (pg_id page) published;
                            GetProperties (pg_id page) draft]) ->
  syncPage false page t w
  = (Done (mkTally (S (updated t)) (skipped t) (unchanged t) (errors t)),
     after w st2 [GetProperties (pg_id page) published;
                  GetProperties (pg_id page) draft]
       [LSynced emoji (pg_title page) status]).
Proof.
  intros Hs Ht Hm Hc U1 U2.
  now rewrite (syncPage_wet page t w _ _ _ _ _ _ _ Hs Ht Hm Hc U1 U2).
Qed.

(** C2. The second of two runs in a row writes nothing, but it does not
    classify the document as unchanged: on a fleet whose one standard
    document has status Draft, the first run creates both properties and
    reports the document as updated; the second run, on the store the
    first one left, sends no create and no update, and still logs the
    document as updated, with the tally "Updated: 1 ... Unchanged: 0". *)
Theorem second_run_reports_updated :
  fst first_run = Done tt
  /\ filter is_write (calls (snd first_run))
     = [PostProperty "103" published (JStr "1f5d2");
        PostProperty "103" draft (JStr "1f5d2")]
  /\ console (snd first_run)
     = [LStart false; LFound 2; LSynced 128466 "ADR-003: Use X" "Draft";
        LNonStandard "ADR-005: New hires" "Onboarding"; LDone 1 1 0 0]
  /\ fst second_run = Done tt
  /\ filter is_write (calls (snd second_run)) = []
  /\ console (snd second_run)
     = [LStart false; LFound 2; LSynced 128466 "ADR-003: Use X" "Draft";
        LNonStandard "ADR-005: New hires" "Onboarding"; LDone 1 1 0 0].
Proof. vm_compute. repeat split. Qed.

(** A document whose status reads "Constructor" is not skipped: a dry run
    reports it as synced, and a real run sends both properties the
    inherited function as their value (see C5). *)
Example inherited_member_is_synced :
  syncEmojis true 3 (start constructor_store)
  = (Done tt,
     after (start constructor_store) constructor_store [search_call 0]
       [LStart true; LFound 1; LSynced 15 "ADR-006: Builders" "Constructor";
        LDone 1 0 0 0])
  /\ filter is_write (calls (snd (syncEmojis false 3 (start constructor_store))))
     = [PostProperty "106" published (JFunction "Object");
        PostProperty "106" draft (JFunction "Object")].
Proof. split; vm_compute; reflexivity. Qed.

End OrchestratorTheorems.

(* ===================================================================== *)
(** ** Reconciliation against the reference store *)
(* ===================================================================== *)

Module StoreFacts.
Import JsString JsValue Confluence AdrSync Protocol ReconcilerFacts RefStore.

Lemma serve_list (st : Store) pageId key :
  rejects st (GetProperties pageId key) = false ->
  serve (GetProperties pageId key) st
  = (success (mkList (props_of st pageId key)), st).
Proof. intros R. cbn. unfold serve_ref. now rewrite R. Qed.

Lemma serve_rejected (st : Store) (c : Call) :
  rejects st c = true ->
  serve c st = (failure "API error (500): rejected", st).
Proof. intros R. cbn. unfold serve_ref. now rewrite R. Qed.

Lemma props_of_created (st : Store) pageId key (p : ContentProperty) :
  props_of st pageId key = [] ->
  prop_key p = key ->
  props_of (set_props st (props st ++ [(pageId, p)])) pageId key = [p].
Proof.
  unfold props_of. intros E K. cbn [props set_props].
  rewrite filter_app, map_app, E. cbn.
  now rewrite K, !String.eqb_refl.
Qed.

(** After an update of the property found first under a key, the property
    found first under that key is the updated one. *)
Lemma props_of_replaced (l : list (string * ContentProperty)) pageId key
      (existing p' : ContentProperty) rest :
  map snd (filter (fun e => String.eqb (fst e) pageId
                            && String.eqb (prop_key (snd e)) key) l)
  = existing :: rest ->
  prop_id p' = prop_id existing ->
  prop_key p' = key ->
  exists rest',
    map snd (filter (fun e => String.eqb (fst e) pageId
                              && String.eqb (prop_key (snd e)) key)
               (map (replace_prop pageId p') l))
    = p' :: rest'.
Proof.
  intros E I K. induction l as [|x l IH]; [discriminate|].
  assert (Hit : replace_prop pageId p' (pageId, p') = (pageId, p')).
  { unfold replace_prop. cbn. now rewrite !String.eqb_refl. }
  assert (Fst : forall y, fst y = pageId -> prop_key (snd y) = key ->
                  (String.eqb (fst y) pageId && String.eqb (prop_key (snd y)) key)
                  = true).
  { intros y -> ->. now rewrite !String.eqb_refl. }
  cbn [map filter] in E |- *.
  destruct (String.eqb (fst x) pageId && String.eqb (prop_key (snd x)) key) eqn:M.
  - cbn in E. injection E as Ex _.
    apply andb_prop in M as [M1 M2].
    assert (F : replace_prop pageId p' x = (pageId, p')).
    { unfold replace_prop. now rewrite M1, Ex, I, String.eqb_refl. }
    rewrite F, (Fst (pageId, p') eq_refl K). cbn. eauto.
  - destruct (String.eqb (fst x) pageId && String.eqb (prop_id (snd x)) (prop_id p'))
      eqn:C.
    + assert (F : replace_prop pageId p' x = (pageId, p')).
      { unfold replace_prop. now rewrite C. }
      rewrite F, (Fst (pageId, p') eq_refl K). cbn. eauto.
    + assert (F : replace_prop pageId p' x = x).
      { unfold replace_prop. now rewrite C. }
      rewrite F, M. auto.
Qed.

(** On the reference store a successful reconciliation settles the
    property: reconciling the same key to the same value again only looks
    the property up and writes nothing. *)
Lemma ref_upsert_settles pageId key (v : string) (w w1 : World Store) :
  upsertProperty pageId key (JStr v) w = (Done true, w1) ->
  forall w2, remote w2 = remote w1 ->
  upsertProperty pageId key (JStr v) w2
  = (Done true, sent w2 (remote w2) [GetProperties pageId key]).
Proof.
  intros U w2 E2.
  assert (Same : forall st (p : ContentProperty) rest,
             rejects st (GetProperties pageId key) = false ->
             props_of st pageId key = p :: rest ->
             prop_value p = JStr v ->
             remote w2 = st ->
             upsertProperty pageId key (JStr v) w2
             = (Done true, sent w2 (remote w2) [GetProperties pageId key])).
  { intros st p rest R P V E. rewrite E.
    eapply (upsert_same pageId key (JStr v) w2).
    - rewrite E. apply serve_list, R.
    - reflexivity.
    - unfold first_result. cbn. rewrite P. reflexivity.
    - rewrite V. cbn. apply String.eqb_refl. }
  remember (remote w) as st eqn:Est.
  destruct (rejects st (GetProperties pageId key)) eqn:R.
  { pose proof (serve_rejected st _ R) as SR. rewrite Est in SR at 1.
    rewrite (upsert_list_failed pageId key (JStr v) w _ _ SR eq_refl) in U.
    discriminate. }
  assert (L : serve (GetProperties pageId key) (remote w)
              = (success (mkList (props_of st pageId key)), st))
    by (rewrite <- Est; now apply serve_list).
  destruct (props_of st pageId key) as [|existing rest] eqn:P; rewrite ?P in L.
  - (* nothing stored: the create must have succeeded *)
    destruct (rejects st (PostProperty pageId key (JStr v))) eqn:RP.
    { rewrite (upsert_create pageId key (JStr v) w _ st L _ st eq_refl eq_refl
                 (serve_rejected st _ RP)) in U. discriminate. }
    assert (S : serve (PostProperty pageId key (JStr v)) st
                = (success (mkProp (fresh_id pageId key) key (JStr v) (Some 1%Z)),
                   set_props st (props st ++
                     [(pageId, mkProp (fresh_id pageId key) key (JStr v) (Some 1%Z))]))).
    { cbn. unfold serve_ref. now rewrite RP, P. }
    rewrite (upsert_create pageId key (JStr v) w _ st L _ _ eq_refl eq_refl S) in U.
    injection U as <-. cbn [sent remote] in E2.
    refine (Same _ (mkProp (fresh_id pageId key) key (JStr v) (Some 1%Z)) []
              _ _ eq_refl E2); [exact R | now apply props_of_created].
  - destruct (strict_eq_str (js_String (prop_value existing)) (JStr v)) eqn:Q.
    + (* the value was there already *)
      rewrite (upsert_same pageId key (JStr v) w _ st L existing eq_refl eq_refl Q) in U.
      injection U as <-. cbn [sent remote] in E2.
      rewrite E2.
      eapply (upsert_same pageId key (JStr v) w2 _ st).
      * rewrite E2. now apply serve_list.
      * reflexivity.
      * unfold first_result. cbn. now rewrite P.
      * exact Q.
    + (* another value: the update must have succeeded *)
      destruct (serve (GetProperty pageId (prop_id existing)) st) as [dr st2] eqn:D.
      cbn [reply] in dr.
      destruct (ok dr) eqn:Dok.
      2:{ rewrite (upsert_no_version pageId key (JStr v) w _ st L existing dr st2
                     eq_refl eq_refl Q D (or_introl Dok)) in U. discriminate. }
      destruct (version_number dr) as [ver|] eqn:V.
      2:{ rewrite (upsert_no_version pageId key (JStr v) w _ st L existing dr st2
                     eq_refl eq_refl Q D (or_intror (or_introl V))) in U.
          discriminate. }
      destruct (Z.eq_dec ver 0) as [-> | V0].
      { rewrite (upsert_no_version pageId key (JStr v) w _ st L existing dr st2
                   eq_refl eq_refl Q D (or_intror (or_intror V))) in U.
        discriminate. }
      destruct (serve (PutProperty pageId (prop_id existing) key (JStr v) (ver + 1)) st2)
        as [ur st3] eqn:Pu.
      cbn [reply] in ur.
      rewrite (upsert_update pageId key (JStr v) w _ st L existing dr st2 ver ur st3
                 eq_refl eq_refl Q D Dok V V0 Pu) in U.
      injection U as Uok <-. cbn [sent remote] in E2.
      (* what the store did *)
      cbn in D. unfold serve_ref in D.
      destruct (rejects st (GetProperty pageId (prop_id existing)));
        [injection D as <- <-; discriminate|].
      destruct (prop_by_id st pageId (prop_id existing)) as [pd|] eqn:B;
        injection D as <- <-; [|discriminate].
      cbn in Pu. unfold serve_ref in Pu.
      destruct (rejects st (PutProperty pageId (prop_id existing) key (JStr v) (ver + 1)));
        [injection Pu as <- <-; discriminate|].
      rewrite B in Pu.
      destruct (storable (JStr v) && _);
        injection Pu as <- <-; [|discriminate].
      destruct (props_of_replaced (props st) pageId key existing
                  (mkProp (prop_id existing) key (JStr v) (Some (ver + 1)%Z)) rest)
        as [rest' Hr]; [exact P | reflexivity | reflexivity |].
      refine (Same _ (mkProp (prop_id existing) key (JStr v) (Some (ver + 1)%Z)) rest'
                _ _ eq_refl E2); [exact R | exact Hr].
Qed.

End StoreFacts.

(* ===================================================================== *)
(** ** The report's helpers *)
(* ===================================================================== *)

Module ReportFacts.
Import JsString Regex Literal JsValue StringFacts RegexFacts ExtractFacts.
Import MapperFacts AdrSync Titles Markup ReportHelpers ReportShapes.
Local Open Scope string_scope.
Local Open Scope Z_scope.
Arguments lit : simpl never.















Ltac table_case :=
  split;
  [ let Hp := fresh in
    intros Hp;
    first [ now (exfalso; apply Hp)
          | eexists _, _; split; [reflexivity | split; reflexivity] ]
  | let Hp := fresh in
    intros Hp; first [ discriminate Hp | split; reflexivity ] ].

(** X3. The report's symbols against the sync script's table. For every
    key of [STATUS_EMOJI_MAP] but [planning], the symbol the report shows
    starts with the code point the sync script writes, followed by a
    variation selector for [draft] only; [planning], which the sync script
    maps to the symbol of [draft], is shown with the question mark. Every
    status outside the table is shown with the question mark as well. *)
Theorem getStatusEmoji_against_table (status : string) :
  (forall key code,
      In (key, code) STATUS_EMOJI_MAP ->
      trim (toLowerCase status) = key ->
      (key <> "planning" ->
       exists c rest,
         codePointToEmoji (JStr code) = Normal c
         /\ getStatusEmoji status = c :: rest
         /\ rest = if String.eqb key "draft" then [0xfe0f] else [])
      /\ (key = "planning" ->
          codePointToEmoji (JStr code) = Normal 0x1f5d2
          /\ getStatusEmoji status = [0x2753]))
  /\ (own_property STATUS_EMOJI_MAP (trim (toLowerCase status)) = None ->
      getStatusEmoji status = [0x2753]).
Proof.
  split.
  - intros key code Hin Hk. unfold getStatusEmoji. rewrite Hk.
    simpl in Hin.
    repeat (destruct Hin as [[= <- <-] | Hin]; [table_case|]).
    destruct Hin.
  - unfold getStatusEmoji.
    generalize (trim (toLowerCase status)) as k. intros k. simpl.
    repeat (destruct (String.eqb k _); [discriminate|]).
    reflexivity.
Qed.

Lemma getStatusEmoji_against_table_witness :
  (exists c rest,
      codePointToEmoji (JStr "1f5d2") = Normal c
      /\ getStatusEmoji " Draft" = c :: rest
      /\ rest = [0xfe0f])
  /\ getStatusEmoji "Planning" = [0x2753]
  /\ getStatusEmoji "Superseded" = [0x2753].
Proof.
  split; [|split].
  - apply (proj1 (getStatusEmoji_against_table " Draft") "draft" "1f5d2");
      [simpl; tauto | reflexivity | discriminate].
  - apply (proj1 (getStatusEmoji_against_table "Planning") "planning" "1f5d2");
      [simpl; tauto | reflexivity | reflexivity].
  - apply (proj2 (getStatusEmoji_against_table "Superseded")). reflexivity.
Defined.

End ReportFacts.

(* ===================================================================== *)
(** ** Further facts about the sync script *)
(* ===================================================================== *)

Module SyncFacts.
Import JsString JsValue Confluence AdrSync Protocol SyncShapes.
Import ReconcilerFacts OrchestratorFacts MapperFacts.
#[local] Existing Instance RefStore.Remote_Store.

Section WithRemote.
Context {St : Type} `{Remote St}.

(** The four request sequences of one upsert. *)
Lemma upsert_trace_cases pageId key value (w : World St) :
  exists b st tail,
    upsertProperty pageId key value w
    = (Done b, sent w st (GetProperties pageId key :: tail))
    /\ (tail = []
        \/ tail = [PostProperty pageId key value]
        \/ (exists propId, tail = [GetProperty pageId propId] /\ b = false)
        \/ (exists propId v,
              v <> 0%Z
              /\ tail = [GetProperty pageId propId;
                         PutProperty pageId propId key value (v + 1)])).
Proof.
  destruct (serve (GetProperties pageId key) (remote w)) as [listResp st1] eqn:E1.
  destruct (ok listResp) eqn:Hok.
  2:{ eexists _, _, _. split; [eapply upsert_list_failed; eauto|]. now left. }
  destruct (first_result listResp) as [existing|] eqn:Hf.
  2:{ destruct (serve (PostProperty pageId key value) st1) as [cr st2] eqn:E2.
      eexists _, _, _. split; [eapply upsert_create; eauto|].
      right; now left. }
  destruct (strict_eq_str (js_String (prop_value existing)) value) eqn:Heq.
  { eexists _, _, _. split; [eapply upsert_same; eauto|]. now left. }
  destruct (serve (GetProperty pageId (prop_id existing)) st1) as [dr st2] eqn:E2.
  assert (F : ok dr = false \/ version_number dr = None
              \/ version_number dr = Some 0%Z ->
              exists b st tail,
                upsertProperty pageId key value w
                = (Done b, sent w st (GetProperties pageId key :: tail))
                /\ (tail = []
                    \/ tail = [PostProperty pageId key value]
                    \/ (exists propId, tail = [GetProperty pageId propId] /\ b = false)
                    \/ (exists propId v,
                          v <> 0%Z
                          /\ tail = [GetProperty pageId propId;
                                     PutProperty pageId propId key value (v + 1)]))).
  { intros Hv. eexists _, _, _. split; [eapply upsert_no_version; eauto|].
    right; right; left. now exists (prop_id existing). }
  destruct (ok dr) eqn:Hd; [|apply F; now left].
  destruct (version_number dr) as [v|] eqn:Hv; [|apply F; right; now left].
  destruct (Z.eq_dec v 0) as [->|Hv0]; [apply F; right; now right|].
  destruct (serve (PutProperty pageId (prop_id existing) key value (v + 1)) st2)
    as [ur st3] eqn:E3.
  eexists _, _, _. split; [eapply upsert_update; eauto|].
  right; right; right. now exists (prop_id existing), v.
Qed.

Lemma fetchPages_collects k : forall n start acc (w : World St) pages st,
  collected k start (remote w) = Some (pages, st) ->
  k < n ->
  fetchPages n start acc w
  = (Done (acc ++ pages), sent w st (search_calls (S k) start)).
Proof.
  induction k as [|k IH]; intros n start acc w pages st Hc Hn;
    (destruct n as [|n]; [lia|]); cbn [collected] in Hc;
    destruct (serve (search_call start) (remote w)) as [resp st0] eqn:E0;
    cbn [reply search_call] in resp, Hc;
    rewrite (fetchPages_step _ _ _ _ _ _ E0);
    (destruct (ok resp); [|discriminate]); cbn [negb];
    (destruct (data resp) as [d|]; [|discriminate]);
    destruct (sr_next d) as [[|a nx]|]; try discriminate.
  - injection Hc as <- <-. reflexivity.
  - injection Hc as <- <-. reflexivity.
  - destruct (collected k (start + 50)%Z st0) as [[ps st'']|] eqn:Ec;
      [|discriminate].
    injection Hc as <- <-.
    rewrite (IH n (start + 50)%Z _ (sent w st0 [search_call start]) ps st'');
      auto; try lia.
    now rewrite sent_sent, app_assoc.
Qed.

End WithRemote.

(** X4. The requests of one upsert, whatever the store answers: the lookup
    by key comes first and is followed by nothing, by one create, by one
    detail request (and then the outcome is failure), or by one detail
    request and one update. So an upsert sends at most three requests and
    at most one write, the write is the last request, it carries the given
    key and value, and an update never carries version 1. *)
Theorem upsertProperty_traces {St : Type} `{Remote St}
    (pageId key : string) (value : jsval) (w : World St) :
  exists b st tail,
    upsertProperty pageId key value w
    = (Done b, sent w st (GetProperties pageId key :: tail))
    /\ (tail = []
        \/ tail = [PostProperty pageId key value]
        \/ (exists propId, tail = [GetProperty pageId propId] /\ b = false)
        \/ (exists propId v,
              v <> 0%Z
              /\ tail = [GetProperty pageId propId;
                         PutProperty pageId propId key value (v + 1)])).
Proof. apply upsert_trace_cases. Qed.

(** X23. A real run tries both keys. For a document whose status has an
    indicator, the loop sends the lookup of the published key and the
    lookup of the draft key, in this order, whatever the outcome for the
    published key; each lookup is followed by at most two requests. The
    writes for the document are at most one for the published key
    followed by at most one for the draft key, both carrying the
    indicator. *)
Theorem real_run_tries_both_keys {St : Type} `{Remote St}
    (page : ConfluencePage) (t : Tally) (w : World St)
    (status : string) (emojiCode : jsval) (emoji : Z) :
  extractStatus (body_of page) = Some status ->
  truthy status = true ->
  getEmojiCodePoint status = Some emojiCode ->
  codePointToEmoji emojiCode = Normal emoji ->
  exists t' st tail1 tail2 l,
    syncPage false page t w
    = (Done t',
       after w st
         (GetProperties (pg_id page) published :: tail1
          ++ GetProperties (pg_id page) draft :: tail2) [l])
    /\ length tail1 <= 2
    /\ length tail2 <= 2
    /\ (map write_of (filter is_write tail1) = []
        \/ map write_of (filter is_write tail1) = [Some (published, emojiCode)])
    /\ (map write_of (filter is_write tail2) = []
        \/ map write_of (filter is_write tail2) = [Some (draft, emojiCode)]).
Proof.
  intros E1 Ht E2 E3.
  assert (Shape : forall pageId key tail b,
             tail = []
             \/ tail = [PostProperty pageId key emojiCode]
             \/ (exists propId, tail = [GetProperty pageId propId] /\ b = false)
             \/ (exists propId v,
                   v <> 0%Z
                   /\ tail = [GetProperty pageId propId;
                              PutProperty pageId propId key emojiCode (v + 1)]) ->
             length tail <= 2
             /\ (map write_of (filter is_write tail) = []
                 \/ map write_of (filter is_write tail) = [Some (key, emojiCode)])).
  { intros pageId key tail b [-> | [-> | [(propId & -> & _) | (propId & v & _ & ->)]]];
      cbn; split; auto. }
  destruct (upsert_trace_cases (pg_id page) published emojiCode w)
    as (ok1 & st1 & tail1 & U1 & S1).
  destruct (upsert_trace_cases (pg_id page) draft emojiCode
              (sent w st1 (GetProperties (pg_id page) published :: tail1)))
    as (ok2 & st2 & tail2 & U2 & S2).
  apply Shape in S1 as [L1 W1]. apply Shape in S2 as [L2 W2].
  rewrite sent_sent in U2.
  eexists _, st2, tail1, tail2, _.
  rewrite (syncPage_wet page t w _ _ _ _ _ _ _ E1 Ht E2 E3 U1 U2).
  split; [|repeat split; assumption].
  unfold logged, sent, after. cbn [remote calls console]. reflexivity.
Qed.

Lemma real_run_tries_both_keys_witness :
  exists t' st tail1 tail2 l,
    syncPage false Fixtures.pageDraft Fixtures.t0
      (RefStore.start (Fixtures.store_with Fixtures.published_create_down))
    = (Done t',
       after (RefStore.start (Fixtures.store_with Fixtures.published_create_down)) st
         (GetProperties "103" published :: tail1
          ++ GetProperties "103" draft :: tail2) [l])
    /\ length tail1 <= 2
    /\ length tail2 <= 2
    /\ (map write_of (filter is_write tail1) = []
        \/ map write_of (filter is_write tail1) = [Some (published, JStr "1f5d2")])
    /\ (map write_of (filter is_write tail2) = []
        \/ map write_of (filter is_write tail2) = [Some (draft, JStr "1f5d2")]).
Proof.
  apply (real_run_tries_both_keys Fixtures.pageDraft Fixtures.t0
           (RefStore.start (Fixtures.store_with Fixtures.published_create_down))
           "Draft" (JStr "1f5d2") 128466%Z);
    vm_compute; reflexivity.
Defined.

(** X5. Collecting the pages succeeds when the store answers [k] requests
    with a link to a further page and the next one without: the result is
    the results of the [k + 1] responses in order, after the pages already
    held, and exactly the requests at offsets [start], [start + 50], ...
    were sent. The loop bound of the model plays no role beyond [k]. *)
Theorem fetchPages_success {St : Type} `{Remote St}
    (k n : nat) (start : Z) (acc : list ConfluencePage)
    (w : World St) (pages : list ConfluencePage) (st : St) :
  collected k start (remote w) = Some (pages, st) ->
  k < n ->
  fetchPages n start acc w
  = (Done (acc ++ pages), sent w st (search_calls (S k) start)).
Proof. apply fetchPages_collects. Qed.

Lemma fetchPages_success_witness :
  fetchPages 5 0%Z [] (RefStore.start long_store)
  = (Done ([] ++ RefStore.pages long_store),
     sent (RefStore.start long_store) long_store (search_calls 2 0%Z)).
Proof.
  apply (fetchPages_success 1 5 0%Z [] (RefStore.start long_store));
    [vm_compute; reflexivity | lia].
Defined.

Section Pages.
Context {St : Type} `{Remote St}.

(** One page that is done: the line names the page, and the counter is
    decided by whether the status has an indicator. *)
Lemma syncPage_outcome dryRun page t (w : World St) t' w' :
  syncPage dryRun page t w = (Done t', w') ->
  (exists l, console w' = console w ++ [l]
             /\ line_title l = Some (pg_title page))
  /\ (if mapped page
      then t' = inc_updated t \/ (dryRun = false /\ t' = inc_errors t)
      else t' = inc_skipped t /\ calls w' = calls w /\ remote w' = remote w).
Proof.
  unfold mapped.
  destruct (extractStatus (body_of page)) as [[|a s]|] eqn:E1.
  1,3: rewrite syncPage_no_status by auto; intros [= <- <-];
       split; [eexists; split; reflexivity | repeat split].
  destruct (getEmojiCodePoint (String a s)) as [v|] eqn:E2.
  2:{ rewrite (syncPage_non_standard dryRun page t w _ E1 eq_refl E2).
      intros [= <- <-].
      split; [eexists; split; reflexivity | repeat split]. }
  destruct (codePointToEmoji v) as [emoji|e] eqn:E3.
  2:{ rewrite (syncPage_throws dryRun page t w _ _ _ E1 eq_refl E2 E3).
      discriminate. }
  destruct dryRun.
  - rewrite (syncPage_dry page t w _ _ _ E1 eq_refl E2 E3).
    intros [= <- <-]. split; [eexists; split; reflexivity | now left].
  - destruct (upsert_returns (pg_id page) published v w)
      as (ok1 & st1 & cs1 & U1 & _).
    destruct (upsert_returns (pg_id page) draft v (sent w st1 cs1))
      as (ok2 & st2 & cs2 & U2 & _).
    rewrite (syncPage_wet page t w _ _ _ _ _ _ _ E1 eq_refl E2 E3 U1 U2).
    intros [= <- <-]. unfold verdict.
    destruct ok1, ok2; (split; [eexists; split; reflexivity | auto]).
Qed.

Lemma syncPages_outcome dryRun pages : forall t (w : World St) t' w',
  syncPages dryRun pages t w = (Done t', w') ->
  (exists ls, console w' = console w ++ ls
              /\ map line_title ls = map (fun p => Some (pg_title p)) pages)
  /\ skipped t' = skipped t + length (filter (fun p => negb (mapped p)) pages)
  /\ updated t' + errors t'
     = updated t + errors t + length (filter mapped pages)
  /\ unchanged t' = unchanged t
  /\ errors t <= errors t'
  /\ (dryRun = true -> errors t' = errors t).
Proof.
  induction pages as [|page pages IH]; intros t w t' w'.
  - cbn [syncPages]. unfold ret. intros [= <- <-].
    split; [exists []; now rewrite app_nil_r|]. simpl. repeat split; lia.
  - cbn [syncPages]. unfold bind at 1.
    destruct (syncPage dryRun page t w) as [[t1| | |] w1] eqn:E1;
      try discriminate.
    intros E2.
    apply syncPage_outcome in E1 as ((l & Hl & Ht) & Hm).
    apply IH in E2 as ((ls & Hls & Hts) & Hs & Hu & Hn & Hle & He).
    split.
    + exists (l :: ls). rewrite Hls, Hl, <- app_assoc.
      split; [reflexivity|]. cbn [map]. now rewrite Ht, Hts.
    + cbn [filter]. destruct (mapped page); cbn [negb length].
      * destruct Hm as [-> | [-> ->]];
          cbn [updated skipped unchanged errors inc_updated inc_errors] in *;
          repeat split; try lia;
          intros D; first [discriminate D | specialize (He D); lia].
      * destruct Hm as (-> & _);
          cbn [updated skipped unchanged errors inc_skipped] in *;
          repeat split; try lia. exact He.
Qed.

End Pages.

(** X6. The log of the loop over the pages: when the loop completes, it
    has logged exactly one line per page, in the order of the pages, and
    each line names the title of its page. *)
Theorem one_line_per_page {St : Type} `{Remote St}
    (dryRun : bool) (pages : list ConfluencePage) (t : Tally) (w : World St)
    (t' : Tally) (w' : World St) :
  syncPages dryRun pages t w = (Done t', w') ->
  exists ls,
    console w' = console w ++ ls
    /\ map line_title ls = map (fun p => Some (pg_title p)) pages.
Proof. intros E. now apply syncPages_outcome in E. Qed.

Lemma one_line_per_page_witness :
  exists ls,
    console (snd (syncPages false Fixtures.fleet Fixtures.t0
                    (RefStore.start Fixtures.store0)))
    = [] ++ ls
    /\ map line_title ls
       = [Some "ADR-003: Use X"; Some "ADR-004: Reserved Range";
          Some "ADR-005: New hires"].
Proof.
  eapply (one_line_per_page false Fixtures.fleet Fixtures.t0
            (RefStore.start Fixtures.store0)).
  vm_compute. reflexivity.
Defined.

(** X7. What a dry run forecasts. Over the same pages, a dry run counts
    as updated every page whose status has an indicator and as skipped
    every other page, and never counts an error. A real run skips the
    same number of pages; its updated and error counts together make the
    dry run's updated count. *)
Theorem dry_run_forecast {St : Type} `{Remote St} (pages : list ConfluencePage) :
  (forall t (w : World St) t' w',
      syncPages true pages t w = (Done t', w') ->
      t' = mkTally (updated t + length (filter mapped pages))
             (skipped t + length (filter (fun p => negb (mapped p)) pages))
             (unchanged t) (errors t))
  /\ (forall t (wd wr : World St) td wd' tr wr',
         syncPages true pages t wd = (Done td, wd') ->
         syncPages false pages t wr = (Done tr, wr') ->
         skipped tr = skipped td
         /\ updated tr + errors tr = updated td + errors t
         /\ updated tr <= updated td).
Proof.
  split.
  - intros t w t' w' E.
    apply syncPages_outcome in E as (_ & Hs & Hu & Hn & _ & He).
    specialize (He eq_refl). destruct t' as [u s n e].
    cbn [updated skipped unchanged errors] in *. f_equal; lia.
  - intros t wd wr td wd' tr wr' Ed Er.
    apply syncPages_outcome in Ed as (_ & Hs & Hu & Hn & _ & He).
    apply syncPages_outcome in Er as (_ & Hs' & Hu' & Hn' & Hle & _).
    specialize (He eq_refl). lia.
Qed.

Lemma dry_run_forecast_witness :
  fst (syncPages true Fixtures.fleet Fixtures.t0
         (RefStore.start (Fixtures.store_with Fixtures.draft_create_down)))
  = Done (mkTally 2 1 0 0)
  /\ fst (syncPages false Fixtures.fleet Fixtures.t0
            (RefStore.start (Fixtures.store_with Fixtures.draft_create_down)))
     = Done (mkTally 0 1 0 2)
  /\ skipped (mkTally 0 1 0 2) = skipped (mkTally 2 1 0 0)
  /\ updated (mkTally 0 1 0 2) + errors (mkTally 0 1 0 2)
     = updated (mkTally 2 1 0 0) + errors Fixtures.t0
  /\ updated (mkTally 0 1 0 2) <= updated (mkTally 2 1 0 0).
Proof.
  split; [vm_compute; reflexivity|]. split; [vm_compute; reflexivity|].
  apply (proj2 (dry_run_forecast Fixtures.fleet) Fixtures.t0
           (RefStore.start (Fixtures.store_with Fixtures.draft_create_down))
           (RefStore.start (Fixtures.store_with Fixtures.draft_create_down))
           (mkTally 2 1 0 0)
           (snd (syncPages true Fixtures.fleet Fixtures.t0
                   (RefStore.start (Fixtures.store_with Fixtures.draft_create_down))))
           (mkTally 0 1 0 2)
           (snd (syncPages false Fixtures.fleet Fixtures.t0
                   (RefStore.start (Fixtures.store_with Fixtures.draft_create_down)))));
    vm_compute; reflexivity.
Defined.

End SyncFacts.

(* ===================================================================== *)
(** ** The commands on properties *)
(* ===================================================================== *)

Module CliFacts.
Import JsString JsValue Confluence ConfluenceProperties PropertiesCli.
Import Protocol SyncShapes CliShapes ReconcilerFacts.
#[local] Existing Instance RefStore.Remote_Store.

Section WithRemote.
Context {St : Type} `{Remote St}.

Lemma fetch_details_unfold pageId key (w : World St)
      (listResp : ApiResponse PropertyListResponse) st1 :
  serve (GetProperties pageId key) (remote w) = (listResp, st1) ->
  fetchPropertyDetails pageId key w =
  if negb (ok listResp)
  then (Exit (or_else (error listResp) "Failed to fetch properties"),
        sent w st1 [GetProperties pageId key])
  else
    match first_result listResp with
    | None => (Done None, sent w st1 [GetProperties pageId key])
    | Some property =>
        let c := GetProperty pageId (prop_id property) in
        if negb (ok (fst (serve c st1)))
        then (Exit (or_else (error (fst (serve c st1)))
                      "Failed to fetch property details"),
              sent w (snd (serve c st1)) [GetProperties pageId key; c])
        else (Done (data (fst (serve c st1))),
              sent w (snd (serve c st1)) [GetProperties pageId key; c])
    end.
Proof.
  intros E. unfold fetchPropertyDetails.
  rewrite (bind_request (GetProperties pageId key) _ _ _ _ E). cbn [reply].
  destruct (ok listResp); cbn [negb]; [|reflexivity].
  unfold first_result.
  destruct (match data listResp with
            | Some d => hd_error (pl_results d)
            | None => None
            end) as [property|]; [|reflexivity].
  cbv zeta.
  destruct (serve (GetProperty pageId (prop_id property)) st1) as [dr st2] eqn:E2.
  cbn [reply] in dr, E2.
  rewrite (bind_request (GetProperty pageId (prop_id property)) _
             (sent w st1 [GetProperties pageId key]) _ _ E2).
  cbn [reply fst snd]. rewrite sent_sent.
  destruct (ok dr); reflexivity.
Qed.

(** Looking a property up ends by returning or by [exitWithError], after
    one or two read requests. *)
Lemma fetch_details_cases pageId key (w : World St) :
  exists r st cs,
    fetchPropertyDetails pageId key w = (r, sent w st cs)
    /\ settled r
    /\ (cs = [GetProperties pageId key]
        \/ exists propId, cs = [GetProperties pageId key; GetProperty pageId propId]).
Proof.
  destruct (serve (GetProperties pageId key) (remote w)) as [listResp st1] eqn:E.
  cbn [reply] in listResp, E.
  rewrite (fetch_details_unfold _ _ _ _ _ E).
  destruct (ok listResp); cbn [negb].
  2:{ eexists _, _, _. split; [reflexivity|]. split; [exact I|now left]. }
  destruct (first_result listResp) as [property|].
  2:{ eexists _, _, _. split; [reflexivity|]. split; [exact I|now left]. }
  cbv zeta.
  destruct (negb (ok (fst (serve (GetProperty pageId (prop_id property)) st1))));
    eexists _, _, _; (split; [reflexivity|]); (split; [exact I|]);
    right; now exists (prop_id property).
Qed.

Lemma writes_app (cs1 cs2 : list Call) : writes (cs1 ++ cs2) = writes cs1 ++ writes cs2.
Proof. unfold writes. now rewrite filter_app, map_app. Qed.

Lemma writes_lookup pageId key cs :
  cs = [GetProperties pageId key]
  \/ (exists propId, cs = [GetProperties pageId key; GetProperty pageId propId]) ->
  writes cs = [] /\ length cs <= 2.
Proof. intros [-> | [propId ->]]; split; simpl; auto. Qed.

(** The command-line upsert after the lookup. *)
Lemma cli_upsert_unfold pageId key value (w : World St) :
  upsertProperty pageId key value w =
  match fetchPropertyDetails pageId key w with
  | (Done None, w1) =>
      let c := PostProperty pageId key value in
      let r := fst (serve c (remote w1)) in
      (if negb (ok r)
       then Exit (or_else (error r) ("Failed to create property " ++ key))
       else Done (data r),
       sent w1 (snd (serve c (remote w1))) [c])
  | (Done (Some existing), w1) =>
      match prop_version existing with
      | Some v =>
          if Z.eqb v 0
          then (Exit ("Property " ++ key ++ " is missing version metadata"), w1)
          else
            let c := PutProperty pageId (prop_id existing) key value (v + 1) in
            let r := fst (serve c (remote w1)) in
            (if negb (ok r)
             then Exit (or_else (error r) ("Failed to update property " ++ key))
             else Done (data r),
             sent w1 (snd (serve c (remote w1))) [c])
      | None => (Exit ("Property " ++ key ++ " is missing version metadata"), w1)
      end
  | (Exit e, w1) => (Exit e, w1)
  | (Throw e, w1) => (Throw e, w1)
  | (Stalled, w1) => (Stalled, w1)
  end.
Proof.
  unfold upsertProperty, fetchPropertyForUpdate. unfold bind at 1.
  destruct (fetchPropertyDetails pageId key w) as [[[existing|]|e|e|] w1];
    try reflexivity.
  - destruct (prop_version existing) as [v|]; [|reflexivity].
    destruct (Z.eqb v 0); [reflexivity|]. cbv zeta.
    destruct (serve (PutProperty pageId (prop_id existing) key value (v + 1))
                (remote w1)) as [r st] eqn:E.
    cbn [reply] in r, E.
    rewrite (bind_request (PutProperty pageId (prop_id existing) key value (v + 1))
               _ w1 _ _ E).
    cbn [reply fst snd]. destruct (ok r); reflexivity.
  - cbv zeta.
    destruct (serve (PostProperty pageId key value) (remote w1)) as [r st] eqn:E.
    cbn [reply] in r, E.
    rewrite (bind_request (PostProperty pageId key value) _ w1 _ _ E).
    cbn [reply fst snd]. destruct (ok r); reflexivity.
Qed.

(** One command-line upsert: it ends by returning or by [exitWithError],
    sends at most three requests, and the only write it can send is the
    last request, carrying the given key and value; when it returns it has
    sent that write. *)
Lemma cli_upsert_cases pageId key value (w : World St) :
  exists r st cs,
    upsertProperty pageId key value w = (r, sent w st cs)
    /\ settled r
    /\ length cs <= 3
    /\ (writes cs = [] \/ writes cs = [Some (key, value)])
    /\ (forall p, r = Done p -> writes cs = [Some (key, value)])
    /\ (writes cs = [] -> exists e, r = Exit e).
Proof.
  rewrite cli_upsert_unfold.
  destruct (fetch_details_cases pageId key w) as (r0 & st0 & cs0 & -> & Hr & Hcs).
  apply writes_lookup in Hcs as [Hw Hl].
  destruct r0 as [[existing|]|e|e|]; try contradiction.
  - destruct (prop_version existing) as [v|].
    + destruct (Z.eqb v 0).
      * eexists _, _, _. split; [reflexivity|].
        repeat split; auto; try lia; try discriminate. eauto.
      * cbv zeta. rewrite sent_sent. eexists _, _, _. split; [reflexivity|].
        rewrite writes_app, Hw, length_app. cbn [remote sent].
        split; [destruct (negb _); exact I|].
        split; [simpl; lia|]. repeat split; auto; discriminate.
    + eexists _, _, _. split; [reflexivity|].
      repeat split; auto; try lia; try discriminate. eauto.
  - cbv zeta. rewrite sent_sent. eexists _, _, _. split; [reflexivity|].
    rewrite writes_app, Hw, length_app. cbn [remote sent].
    split; [destruct (negb _); exact I|].
    split; [simpl; lia|]. repeat split; auto; discriminate.
  - eexists _, _, _. split; [reflexivity|].
    repeat split; auto; try lia; try discriminate. eauto.
Qed.

Lemma validate_cases (ps : list PropertyInput) (w : World St) :
  (forallb valid ps = true /\ validate ps w = (Done tt, w))
  \/ (exists pre p post,
        ps = pre ++ p :: post
        /\ forallb valid pre = true
        /\ valid p = false
        /\ validate ps w = (Exit (complaint p), w)).
Proof.
  induction ps as [|p ps IH]; [now left|].
  cbn [validate forallb].
  destruct (valid p) eqn:Vp.
  - pose proof Vp as Vp'. unfold valid in Vp'.
    apply andb_prop in Vp' as [Ek Ev]. apply negb_true_iff in Ev.
    rewrite Ek, Ev. cbn [negb andb].
    destruct IH as [[Hv E] | (pre & q & post & -> & Hpre & Hq & E)].
    + left. now rewrite Hv, E.
    + right. exists (p :: pre), q, post. cbn [forallb].
      rewrite Vp, Hpre. now repeat split.
  - right. exists [], p, ps.
    split; [reflexivity|]. split; [reflexivity|]. split; [exact Vp|].
    unfold valid in Vp. unfold complaint.
    destruct (truthy (pi_key p)); cbn [negb andb] in *; [|reflexivity].
    apply negb_false_iff in Vp. now rewrite Vp.
Qed.

Lemma upsertAll_cases pageId (ps : list PropertyInput) :
  forall results (w : World St),
  exists r st cs,
    upsertAll pageId ps results w = (r, sent w st cs)
    /\ settled r
    /\ length cs <= 3 * length ps
    /\ (exists rest, map wanted ps = writes cs ++ rest)
    /\ (forall res, r = Done res ->
          writes cs = map wanted ps
          /\ length res = length results + length ps).
Proof.
  induction ps as [|p ps IH]; intros results w.
  - exists (Done results), (remote w), []. rewrite sent_nil.
    split; [reflexivity|]. split; [exact I|]. split; [simpl; lia|].
    split; [now exists []|]. intros res [= <-]. split; [reflexivity|simpl; lia].
  - cbn [upsertAll]. unfold bind at 1.
    destruct (cli_upsert_cases pageId (pi_key p) (pi_value p) w)
      as (r1 & st1 & cs1 & -> & S1 & L1 & W1 & D1 & X1).
    destruct r1 as [r| e | e |]; try contradiction.
    + destruct (IH (results ++ [r]) (sent w st1 cs1))
        as (r2 & st2 & cs2 & -> & S2 & L2 & (rest & P2) & D2).
      rewrite sent_sent. exists r2, st2, (cs1 ++ cs2).
      split; [reflexivity|]. split; [exact S2|].
      split; [rewrite length_app; cbn [length]; lia|].
      rewrite writes_app, (D1 r eq_refl). cbn [map].
      split.
      * exists rest. rewrite P2. reflexivity.
      * intros res ->. destruct (D2 res eq_refl) as [-> Hl].
        split; [reflexivity|]. rewrite Hl, length_app. simpl. lia.
    + exists (Exit e), st1, cs1. split; [reflexivity|]. split; [exact I|].
      split; [cbn [length]; lia|]. split; [|discriminate].
      cbn [map]. destruct W1 as [-> | ->].
      * now exists (wanted p :: map wanted ps).
      * now exists (map wanted ps).
Qed.

End WithRemote.

(** X8. The command-line upsert writes whenever it returns: it ends by
    returning or by [exitWithError], and when it returns it has sent
    exactly one write, with the given key and value. It never compares
    the stored value with the new one: for a property that is found
    with a version, the update is sent with the id and the version plus
    one of the detail response, whatever the stored value; the sync
    script's upsert sends nothing but the lookup when the stored value
    already equals the new one. *)
Theorem cli_upsert_never_compares {St : Type} `{Remote St}
    (pageId key : string) (value : jsval) (w : World St) :
  (exists r st cs,
      upsertProperty pageId key value w = (r, sent w st cs)
      /\ settled r
      /\ (forall p, r = Done p -> writes cs = [Some (key, value)]))
  /\ (forall (listResp : ApiResponse PropertyListResponse) st1 property
             (detailResp : ApiResponse ContentProperty) st2 existing v
             (updateResp : ApiResponse ContentProperty) st3,
         serve (GetProperties pageId key) (remote w) = (listResp, st1) ->
         ok listResp = true ->
         first_result listResp = Some property ->
         serve (GetProperty pageId (prop_id property)) st1 = (detailResp, st2) ->
         ok detailResp = true ->
         data detailResp = Some existing ->
         prop_version existing = Some v ->
         v <> 0%Z ->
         serve (PutProperty pageId (prop_id existing) key value (v + 1)) st2
         = (updateResp, st3) ->
         ok updateResp = true ->
         upsertProperty pageId key value w
         = (Done (data updateResp),
            sent w st3 [GetProperties pageId key;
                        GetProperty pageId (prop_id property);
                        PutProperty pageId (prop_id existing) key value (v + 1)])
         /\ (strict_eq_str (js_String (prop_value property)) value = true ->
             AdrSync.upsertProperty pageId key value w
             = (Done true, sent w st1 [GetProperties pageId key]))).
Proof.
  split.
  - destruct (cli_upsert_cases pageId key value w)
      as (r & st & cs & E & S & _ & _ & D & _).
    now exists r, st, cs.
  - intros listResp st1 property detailResp st2 existing v updateResp st3
           E1 Hok Hf E2 Hdok Hd Hv Hv0 E3 Huok.
    split.
    + rewrite cli_upsert_unfold, (fetch_details_unfold _ _ _ _ _ E1), Hok, Hf.
      cbn [negb]. cbv zeta. rewrite E2. cbn [fst snd reply]. rewrite Hdok, Hd.
      cbn [negb]. rewrite Hv. apply Z.eqb_neq in Hv0. rewrite Hv0.
      cbv zeta. cbn [remote sent]. rewrite E3. cbn [fst snd reply]. rewrite Huok.
      cbn [negb]. now rewrite sent_sent.
    + intros Heq. eapply upsert_same; eauto.
Qed.

Lemma cli_upsert_never_compares_witness :
  fst (upsertProperty "103" "emoji-title-published" (JStr "23f3")
         (RefStore.start (Fixtures.stale_store (Some 2%Z))))
  = Done (Some (mkProp "p1" "emoji-title-published" (JStr "23f3") (Some 3%Z)))
  /\ fst (AdrSync.upsertProperty "103" "emoji-title-published" (JStr "23f3")
            (RefStore.start (Fixtures.stale_store (Some 2%Z))))
     = Done true.
Proof.
  edestruct (proj2 (cli_upsert_never_compares "103" "emoji-title-published"
                      (JStr "23f3")
                      (RefStore.start (Fixtures.stale_store (Some 2%Z)))))
    as [E1 E2];
    [ lazy; reflexivity | reflexivity | lazy; reflexivity
    | lazy; reflexivity | reflexivity | lazy; reflexivity
    | reflexivity | discriminate | lazy; reflexivity | reflexivity | ].
  split.
  - rewrite E1. reflexivity.
  - rewrite E2 by reflexivity. reflexivity.
Defined.

(** X9. [set-emoji]: without a value it exits before any request. With a
    value it runs the published upsert and then the draft upsert; the
    writes it sends are, in this order, one for [emoji-title-published]
    and one for [emoji-title-draft], both carrying the value; it stops at
    the first upsert that exits, so what was written is a prefix of
    these two, and all of them when the command returns. *)
Theorem setEmoji_writes {St : Type} `{Remote St}
    (pageId : string) (emojiValue : jsval) (w : World St) :
  (is_undefined emojiValue = true ->
   setEmoji pageId emojiValue w = (Exit "Emoji value is required", w))
  /\ (is_undefined emojiValue = false ->
      exists r st cs,
        setEmoji pageId emojiValue w = (r, sent w st cs)
        /\ settled r
        /\ length cs <= 6
        /\ (exists rest,
              [Some (published, emojiValue); Some (draft, emojiValue)]
              = writes cs ++ rest)
        /\ (forall out, r = Done out ->
              writes cs = [Some (published, emojiValue); Some (draft, emojiValue)]
              /\ fst out = (pageId, emojiValue))).
Proof.
  unfold setEmoji. split; intros ->; [reflexivity|].
  unfold bind at 1.
  destruct (cli_upsert_cases pageId "emoji-title-published" emojiValue w)
    as (r1 & st1 & cs1 & -> & S1 & L1 & W1 & D1 & _).
  destruct r1 as [p1| e | e |]; try contradiction.
  2:{ exists (Exit e), st1, cs1. split; [reflexivity|]. split; [exact I|].
      split; [lia|]. split; [|discriminate].
      destruct W1 as [-> | ->]; eexists; reflexivity. }
  unfold bind at 1.
  destruct (cli_upsert_cases pageId "emoji-title-draft" emojiValue (sent w st1 cs1))
    as (r2 & st2 & cs2 & -> & S2 & L2 & W2 & D2 & _).
  rewrite sent_sent.
  destruct r2 as [p2| e | e |]; try contradiction.
  - eexists _, st2, (cs1 ++ cs2). split; [reflexivity|]. split; [exact I|].
    split; [rewrite length_app; lia|].
    rewrite writes_app, (D1 _ eq_refl), (D2 _ eq_refl).
    split; [now exists []|]. intros out [= <-]. now split.
  - exists (Exit e), st2, (cs1 ++ cs2). split; [reflexivity|]. split; [exact I|].
    split; [rewrite length_app; lia|]. split; [|discriminate].
    rewrite writes_app, (D1 _ eq_refl).
    destruct W2 as [-> | ->]; eexists; reflexivity.
Qed.

Lemma setEmoji_writes_witness :
  setEmoji "103" JUndefined (RefStore.start Fixtures.store0)
  = (Exit "Emoji value is required", RefStore.start Fixtures.store0)
  /\ exists r st cs,
       setEmoji "103" (JStr "1f680") (RefStore.start Fixtures.store0)
       = (r, sent (RefStore.start Fixtures.store0) st cs)
       /\ settled r
       /\ length cs <= 6
       /\ (exists rest,
             [Some (published, JStr "1f680"); Some (draft, JStr "1f680")]
             = writes cs ++ rest)
       /\ (forall out, r = Done out ->
             writes cs = [Some (published, JStr "1f680"); Some (draft, JStr "1f680")]
             /\ fst out = ("103", JStr "1f680")).
Proof.
  split.
  - apply (proj1 (setEmoji_writes "103" JUndefined (RefStore.start Fixtures.store0))).
    reflexivity.
  - apply (proj2 (setEmoji_writes "103" (JStr "1f680")
                    (RefStore.start Fixtures.store0))).
    reflexivity.
Defined.

(** X10. [set]: every entry is checked before the first request. With no
    entry, or with an entry that has an empty key or no value, the
    command exits with the world as it was, and the message is that of
    the first entry that fails. Otherwise the entries are upserted in
    order: the writes sent are those the entries ask for, up to the first
    upsert that exits; they are all sent when the command returns, and
    also when it throws because an upsert returned no data. *)
Theorem setProperties_checks_first {St : Type} `{Remote St}
    (pageId : string) (input : SetInput) (w : World St) :
  (assemble input = [] ->
   setProperties pageId input w
   = (Exit "Provide a key/value or properties array", w))
  /\ (forallb valid (assemble input) = false ->
      exists pre p post,
        assemble input = pre ++ p :: post
        /\ forallb valid pre = true
        /\ valid p = false
        /\ setProperties pageId input w = (Exit (complaint p), w))
  /\ (assemble input <> [] ->
      forallb valid (assemble input) = true ->
      exists r st cs,
        setProperties pageId input w = (r, sent w st cs)
        /\ r <> Stalled
        /\ length cs <= 3 * length (assemble input)
        /\ (exists rest, map wanted (assemble input) = writes cs ++ rest)
        /\ (forall e, r = Throw e -> writes cs = map wanted (assemble input))
        /\ (forall out, r = Done out ->
              writes cs = map wanted (assemble input)
              /\ fst out = (pageId, length (assemble input)))).
Proof.
  unfold setProperties. split; [|split].
  - intros ->. reflexivity.
  - intros Hv.
    destruct (validate_cases (assemble input) w)
      as [[Hv' _] | (pre & p & post & E & Hpre & Hp & Ev)]; [congruence|].
    exists pre, p, post. repeat split; auto.
    destruct (assemble input) as [|q qs]; [destruct pre; discriminate|].
    unfold bind at 1. now rewrite Ev.
  - intros Hne Hv.
    destruct (validate_cases (assemble input) w)
      as [[_ Ev] | (pre & p & post & E & Hpre & Hp & _)].
    2:{ rewrite E, forallb_app in Hv. cbn [forallb] in Hv.
        rewrite Hp, andb_false_r in Hv. discriminate. }
    destruct (assemble input) as [|q qs] eqn:Ea; [congruence|].
    unfold bind at 1. rewrite Ev. unfold bind at 1.
    destruct (upsertAll_cases pageId (q :: qs) [] w)
      as (r & st & cs & -> & S & L & P & D).
    destruct r as [res| e | e |]; try contradiction.
    + destruct (D res eq_refl) as [Dw Dl].
      destruct (summaries res) as [l|].
      * eexists _, st, cs. split; [reflexivity|].
        split; [discriminate|]. split; [exact L|]. split; [exact P|].
        split; [discriminate|]. intros out [= <-].
        split; [exact Dw|]. cbn [fst]. now rewrite Dl.
      * eexists _, st, cs. split; [reflexivity|].
        split; [discriminate|]. split; [exact L|]. split; [exact P|].
        split; [intros _ _; exact Dw | discriminate].
    + exists (Exit e), st, cs. split; [reflexivity|].
      split; [discriminate|]. split; [exact L|]. split; [exact P|].
      split; discriminate.
Qed.

Lemma setProperties_checks_first_witness :
  setProperties "103" (mkSetInput None JUndefined None)
    (RefStore.start Fixtures.store0)
  = (Exit "Provide a key/value or properties array",
     RefStore.start Fixtures.store0)
  /\ (exists pre p post,
         assemble (mkSetInput (Some "one") (JNum 1)
                     (Some [mkInput "two" JUndefined; mkInput "" JNull]))
         = pre ++ p :: post
         /\ forallb valid pre = true
         /\ valid p = false
         /\ setProperties "103"
              (mkSetInput (Some "one") (JNum 1)
                 (Some [mkInput "two" JUndefined; mkInput "" JNull]))
              (RefStore.start Fixtures.store0)
            = (Exit (complaint p), RefStore.start Fixtures.store0))
  /\ (exists r st cs,
         setProperties "103"
           (mkSetInput (Some "one") (JNum 1) (Some [mkInput "two" (JStr "two")]))
           (RefStore.start Fixtures.store0)
         = (r, sent (RefStore.start Fixtures.store0) st cs)
         /\ r <> Stalled
         /\ length cs <= 3 * 2
         /\ (exists rest,
               [Some ("one", JNum 1); Some ("two", JStr "two")] = writes cs ++ rest)
         /\ (forall e, r = Throw e ->
               writes cs = [Some ("one", JNum 1); Some ("two", JStr "two")])
         /\ (forall out, r = Done out ->
               writes cs = [Some ("one", JNum 1); Some ("two", JStr "two")]
               /\ fst out = ("103", 2))).
Proof.
  split; [|split].
  - apply (proj1 (setProperties_checks_first "103"
                    (mkSetInput None JUndefined None)
                    (RefStore.start Fixtures.store0))).
    reflexivity.
  - apply (proj1 (proj2 (setProperties_checks_first "103"
                    (mkSetInput (Some "one") (JNum 1)
                       (Some [mkInput "two" JUndefined; mkInput "" JNull]))
                    (RefStore.start Fixtures.store0)))).
    reflexivity.
  - apply (proj2 (proj2 (setProperties_checks_first "103"
                    (mkSetInput (Some "one") (JNum 1)
                       (Some [mkInput "two" (JStr "two")]))
                    (RefStore.start Fixtures.store0))));
      [discriminate | reflexivity].
Defined.

(** X11. The reading commands never write. [get <key>] sends the lookup
    by key and at most one more read request, and exits when the lookup
    finds no property. [get-emoji] looks up the published and then the
    draft property, with two to four read requests when it returns; the
    emoji it reports, when not undefined or null, is the value of one of
    the properties it lists, and it is undefined when it lists none. *)
Theorem read_commands_never_write {St : Type} `{Remote St}
    (pageId : string) (w : World St) :
  (forall key,
      exists r st cs,
        getPropertyByKey pageId key w = (r, sent w st cs)
        /\ settled r
        /\ writes cs = []
        /\ length cs <= 2
        /\ hd_error cs = Some (GetProperties pageId key))
  /\ (exists r st cs,
         getEmoji pageId w = (r, sent w st cs)
         /\ settled r
         /\ writes cs = []
         /\ length cs <= 4
         /\ hd_error cs = Some (GetProperties pageId published)
         /\ (forall out, r = Done out ->
               2 <= length cs
               /\ In (GetProperties pageId draft) cs
               /\ fst (fst out) = pageId
               /\ length (snd out) <= 2
               /\ (nullish (snd (fst out)) = false ->
                   exists p, In p (snd out) /\ prop_value p = snd (fst out))
               /\ (snd out = [] -> snd (fst out) = JUndefined))).
Proof.
  split.
  - intros key. unfold getPropertyByKey, bind.
    destruct (fetch_details_cases pageId key w) as (r & st & cs & -> & S & C).
    assert (Hh : hd_error cs = Some (GetProperties pageId key))
      by (destruct C as [-> | [propId ->]]; reflexivity).
    apply writes_lookup in C as [Hw Hl].
    destruct r as [[p|]| e | e |]; try contradiction;
      eexists _, st, cs; (split; [reflexivity|]); repeat split; auto.
  - unfold getEmoji. unfold bind at 1.
    destruct (fetch_details_cases pageId "emoji-title-published" w)
      as (r1 & st1 & cs1 & -> & S1 & C1).
    assert (Hh : forall cs2, hd_error (cs1 ++ cs2)
                             = Some (GetProperties pageId published))
      by (intros cs2; destruct C1 as [-> | [propId ->]]; reflexivity).
    apply writes_lookup in C1 as [Hw1 Hl1].
    destruct r1 as [p1| e | e |]; try contradiction.
    2:{ exists (Exit e), st1, cs1. split; [reflexivity|].
        pose proof (Hh []) as Hh0. rewrite app_nil_r in Hh0.
        repeat split; auto; try lia; discriminate. }
    unfold bind at 1.
    destruct (fetch_details_cases pageId "emoji-title-draft" (sent w st1 cs1))
      as (r2 & st2 & cs2 & -> & S2 & C2).
    assert (Hin : In (GetProperties pageId draft) (cs1 ++ cs2))
      by (apply in_or_app; right; destruct C2 as [-> | [propId ->]]; now left).
    assert (Hl : 1 <= length cs2)
      by (destruct C2 as [-> | [propId ->]]; simpl; lia).
    assert (Hl0 : 1 <= length cs1).
    { specialize (Hh []). destruct cs1; [discriminate|simpl; lia]. }
    apply writes_lookup in C2 as [Hw2 Hl2].
    rewrite sent_sent.
    destruct r2 as [p2| e | e |]; try contradiction.
    2:{ exists (Exit e), st2, (cs1 ++ cs2). split; [reflexivity|].
        rewrite writes_app, Hw1, Hw2, Hh, length_app.
        repeat split; auto; try lia; discriminate. }
    eexists _, st2, (cs1 ++ cs2). split; [reflexivity|].
    rewrite writes_app, Hw1, Hw2, Hh, length_app.
    split; [exact I|]. split; [reflexivity|]. split; [lia|].
    split; [reflexivity|]. intros out [= <-]. cbn [fst snd].
    split; [lia|]. split; [exact Hin|]. split; [reflexivity|].
    destruct p1 as [p|], p2 as [d|]; cbn [value_of nullish app length].
    + split; [lia|]. split; [|discriminate].
      destruct (nullish (prop_value p)) eqn:En.
      * intros _. exists d. split; [right; now left|reflexivity].
      * intros _. exists p. split; [now left|reflexivity].
    + split; [lia|]. split; [|discriminate].
      destruct (nullish (prop_value p)) eqn:En; [discriminate|].
      intros _. exists p. split; [now left|reflexivity].
    + split; [lia|]. split; [|discriminate].
      intros _. exists d. split; [now left|reflexivity].
    + split; [lia|]. split; [discriminate|reflexivity].
Qed.

Lemma read_commands_never_write_witness :
  exists r st cs,
    getEmoji "103" (RefStore.start (Fixtures.stale_store (Some 2%Z)))
    = (r, sent (RefStore.start (Fixtures.stale_store (Some 2%Z))) st cs)
    /\ settled r
    /\ writes cs = []
    /\ length cs <= 4
    /\ hd_error cs = Some (GetProperties "103" published)
    /\ (forall out, r = Done out ->
          2 <= length cs
          /\ In (GetProperties "103" draft) cs
          /\ fst (fst out) = "103"
          /\ length (snd out) <= 2
          /\ (nullish (snd (fst out)) = false ->
              exists p, In p (snd out) /\ prop_value p = snd (fst out))
          /\ (snd out = [] -> snd (fst out) = JUndefined)).
Proof.
  apply (proj2 (read_commands_never_write "103"
                  (RefStore.start (Fixtures.stale_store (Some 2%Z))))).
Defined.

(** X25. The command-line upsert and an unusable detail. When the detail
    of the property found has no version, or version zero, the upsert
    exits after the two reads and writes nothing. When the detail request
    succeeds without data, the property counts as not there: a create is
    sent for a key that the lookup has just found. *)
Theorem cli_upsert_unusable_detail {St : Type} `{Remote St}
    (pageId key : string) (value : jsval) (w : World St)
    (listResp : ApiResponse PropertyListResponse) (st1 : St)
    (property : ContentProperty)
    (detailResp : ApiResponse ContentProperty) (st2 : St) :
  serve (GetProperties pageId key) (remote w) = (listResp, st1) ->
  ok listResp = true ->
  first_result listResp = Some property ->
  serve (GetProperty pageId (prop_id property)) st1 = (detailResp, st2) ->
  ok detailResp = true ->
  (forall existing,
      data detailResp = Some existing ->
      prop_version existing = None \/ prop_version existing = Some 0%Z ->
      upsertProperty pageId key value w
      = (Exit ("Property " ++ key ++ " is missing version metadata"),
         sent w st2 [GetProperties pageId key;
                     GetProperty pageId (prop_id property)]))
  /\ (data detailResp = None ->
      exists r st3,
        upsertProperty pageId key value w
        = (r, sent w st3 [GetProperties pageId key;
                          GetProperty pageId (prop_id property);
                          PostProperty pageId key value])
        /\ settled r).
Proof.
  intros E1 Hok Hf E2 Hdok.
  assert (F : fetchPropertyDetails pageId key w
              = (Done (data detailResp),
                 sent w st2 [GetProperties pageId key;
                             GetProperty pageId (prop_id property)])).
  { rewrite (fetch_details_unfold _ _ _ _ _ E1), Hok, Hf. cbn [negb]. cbv zeta.
    rewrite E2. cbn [fst snd reply]. now rewrite Hdok. }
  split.
  - intros existing Hd Hv. rewrite cli_upsert_unfold, F, Hd.
    destruct Hv as [-> | ->]; reflexivity.
  - intros Hd. rewrite cli_upsert_unfold, F, Hd. cbv zeta.
    rewrite sent_sent. cbn [app].
    eexists _, _. split; [reflexivity|]. now destruct (negb _).
Qed.

Lemma cli_upsert_unusable_detail_witness :
  upsertProperty "103" "emoji-title-published" (JStr "2705")
    (RefStore.start (Fixtures.stale_store (Some 0%Z)))
  = (Exit "Property emoji-title-published is missing version metadata",
     sent (RefStore.start (Fixtures.stale_store (Some 0%Z)))
       (Fixtures.stale_store (Some 0%Z))
       [GetProperties "103" "emoji-title-published"; GetProperty "103" "p1"]).
Proof.
  assert (E1 : serve (GetProperties "103" "emoji-title-published")
                 (remote (RefStore.start (Fixtures.stale_store (Some 0%Z))))
               = (success (mkList [mkProp "p1" "emoji-title-published"
                                     (JStr "23f3") (Some 0%Z)]),
                  Fixtures.stale_store (Some 0%Z)))
    by (vm_compute; reflexivity).
  assert (E2 : serve (GetProperty "103" "p1") (Fixtures.stale_store (Some 0%Z))
               = (success (mkProp "p1" "emoji-title-published" (JStr "23f3") (Some 0%Z)),
                  Fixtures.stale_store (Some 0%Z)))
    by (vm_compute; reflexivity).
  apply (proj1 (cli_upsert_unusable_detail "103" "emoji-title-published" (JStr "2705")
                  (RefStore.start (Fixtures.stale_store (Some 0%Z)))
                  _ _ (mkProp "p1" "emoji-title-published" (JStr "23f3") (Some 0%Z))
                  _ _ E1 eq_refl eq_refl E2 eq_refl)
           (mkProp "p1" "emoji-title-published" (JStr "23f3") (Some 0%Z)) eq_refl).
  now right.
Defined.

End CliFacts.

(* ===================================================================== *)
(** ** The extracted status: trimmed, free of tags, the same on both paths *)
(* ===================================================================== *)

Module StatusFacts.
Import JsString Regex Literal StringFacts RegexFacts ExtractFacts ExtractTheorems.
Import AdrSync Markup ReportShapes.
Local Open Scope string_scope.
Arguments lit : simpl never.

Lemma trimStart_stops (s : string) : stops is_space (trimStart s) = true.
Proof.
  induction s as [|a s IH]; [reflexivity|]. simpl.
  destruct (is_space a) eqn:E; [exact IH|]. simpl. now rewrite E.
Qed.

Lemma trimStart_id (s : string) : stops is_space s = true -> trimStart s = s.
Proof.
  destruct s as [|a s]; [reflexivity|]. simpl. intros H.
  apply negb_true_iff in H. now rewrite H.
Qed.

Lemma trimEnd_stops (s : string) :
  stops is_space s = true -> stops is_space (trimEnd s) = true.
Proof.
  destruct s as [|a s]; [reflexivity|]. simpl. intros H.
  destruct (trimEnd s); [|exact H].
  apply negb_true_iff in H. rewrite H. simpl. now rewrite H.
Qed.

Lemma trimEnd_idem (s : string) : trimEnd (trimEnd s) = trimEnd s.
Proof.
  induction s as [|a s IH]; [reflexivity|]. cbn [trimEnd].
  destruct (trimEnd s) as [|b t] eqn:E.
  - destruct (is_space a) eqn:Ea; [reflexivity|].
    cbn [trimEnd]. now rewrite Ea.
  - cbn [trimEnd] in IH |- *. now rewrite IH.
Qed.

Lemma trim_idem (s : string) : trim (trim s) = trim s.
Proof.
  unfold trim.
  rewrite (trimStart_id (trimEnd (trimStart s))).
  - apply trimEnd_idem.
  - apply trimEnd_stops, trimStart_stops.
Qed.

Lemma trimEnd_empty (s : string) : trimEnd s = "" -> all_chars is_space s = true.
Proof.
  induction s as [|a s IH]; [reflexivity|]. cbn [trimEnd all_chars].
  destruct (trimEnd s) as [|b t]; [|discriminate].
  destruct (is_space a); [|discriminate]. intros _. now rewrite IH.
Qed.

Lemma trim_empty (s : string) : trim s = "" -> all_chars is_space s = true.
Proof.
  unfold trim. intros H. apply trimEnd_empty in H.
  induction s as [|a s IH]; [reflexivity|]. cbn [trimStart all_chars] in *.
  destruct (is_space a) eqn:E; [now apply IH|].
  cbn [all_chars] in H. now rewrite E in H.
Qed.

Lemma tag_nodes :
  nodes tag_re = (lit "<" ++ Rep (CNot ">") false true false :: lit ">")%list.
Proof. reflexivity. Qed.

(** The longest prefix without [>]. *)
Lemma span_gt (s : string) :
  exists g w, s = g ++ w
              /\ all_chars (in_cls (CNot ">")) g = true
              /\ stops (in_cls (CNot ">")) w = true.
Proof.
  induction s as [|a s (g & w & -> & Hg & Hw)]; [now exists "", ""|].
  destruct (in_cls (CNot ">") a) eqn:E.
  - exists (String a g), w. simpl in *. now rewrite E, Hg.
  - exists "", (String a (g ++ w)). simpl in *. now rewrite E.
Qed.

Lemma split_gt (s : string) :
  all_chars (in_cls (CNot ">")) s = false ->
  exists g rest, s = g ++ String ">" rest
                 /\ all_chars (in_cls (CNot ">")) g = true.
Proof.
  induction s as [|a s IH]; [discriminate|]. cbn [all_chars].
  destruct (in_cls (CNot ">") a) eqn:E; cbn [andb].
  - intros H. destruct (IH H) as (g & rest & -> & Hg).
    exists (String a g), rest. cbn [all_chars]. now rewrite E, Hg.
  - intros _. exists "", s. split; [|reflexivity].
    simpl in E. apply negb_false_iff, Ascii.eqb_eq in E. now subst a.
Qed.

(** Where a tag matches: at a [<] that some [>] follows; the match ends
    after the first such [>]. *)
Lemma exec_tag_some (g rest : string) :
  all_chars (in_cls (CNot ">")) g = true ->
  exec_at tag_re (String "<" (g ++ String ">" rest)) = Some ([], rest).
Proof.
  intros Hg. unfold exec_at. rewrite tag_nodes, exec_lit.
  cbn [ignoreCase tag_re].
  replace (starts false "<" (String "<" (g ++ String ">" rest))) with true
    by reflexivity.
  change (skip (String.length "<") (String "<" (g ++ String ">" rest)))
    with (g ++ String ">" rest).
  rewrite <- (app_nil_r (lit ">")).
  rewrite (exec_star_lit false (CNot ">") ">" "" [] g (String ">" rest) Hg).
  - reflexivity.
  - reflexivity.
  - intros b Hb. cbn [in_cls] in Hb. cbn [chr_eq]. apply negb_true_iff in Hb.
    now rewrite Ascii.eqb_sym.
Qed.

Lemma exec_tag_none (a : ascii) (s : string) :
  Ascii.eqb a "<" = false \/ all_chars (in_cls (CNot ">")) s = true ->
  exec_at tag_re (String a s) = None.
Proof.
  intros H. unfold exec_at. rewrite tag_nodes, exec_lit.
  cbn [starts chr_eq ignoreCase tag_re]. rewrite (Ascii.eqb_sym "<" a).
  destruct (Ascii.eqb a "<"); [|reflexivity].
  destruct H as [H | Hs]; [discriminate|]. cbn [andb].
  change (skip (String.length "<") (String a s)) with s.
  rewrite <- (app_nil_r (lit ">")), <- (append_nil_r s).
  rewrite (exec_star_lit false (CNot ">") ">" "" [] s "" Hs); try reflexivity.
  intros b Hb. cbn [in_cls] in Hb. cbn [chr_eq]. apply negb_true_iff in Hb.
  now rewrite Ascii.eqb_sym.
Qed.

(** Text without [>] holds no tag either. *)
Lemma remove_tags_no_gt (n : nat) (s : string) :
  all_chars (in_cls (CNot ">")) s = true -> remove_all_from n tag_re s = s.
Proof.
  revert n; induction s as [|a s IH]; intros n H.
  - destruct n; reflexivity.
  - simpl in H. apply andb_prop in H as [Ha Hs].
    destruct n as [|n]; [reflexivity|]. cbn [remove_all_from].
    rewrite exec_tag_none by now right. now rewrite IH.
Qed.

Lemma remove_tags_free (n : nat) : forall s,
  String.length s < n -> tag_free (remove_all_from n tag_re s) = true.
Proof.
  induction n as [|n IH]; intros s Hn; [lia|].
  cbn [remove_all_from].
  destruct (exec_at tag_re s) as [[caps rest]|] eqn:E.
  - assert (L : String.length rest < String.length s).
    { destruct s as [|a s]; [discriminate|].
      unfold exec_at in E. rewrite tag_nodes, exec_lit in E.
      destruct (starts _ _ _); [|discriminate].
      change (skip (String.length "<") (String a s)) with s in E.
      apply exec_rest_le in E. simpl. lia. }
    pose proof L as L'. apply Nat.ltb_lt in L'. rewrite L'. apply IH. lia.
  - destruct s as [|a s]; [reflexivity|].
    cbn [tag_free]. rewrite IH by (simpl in Hn; lia).
    destruct (Ascii.eqb a "<") eqn:Ea; [|reflexivity].
    destruct (all_chars (in_cls (CNot ">")) s) eqn:Hs.
    + now rewrite (remove_tags_no_gt _ _ Hs), Hs.
    + exfalso. apply Ascii.eqb_eq in Ea. subst a.
      destruct (split_gt _ Hs) as (g & rest & -> & Hg).
      rewrite (exec_tag_some _ _ Hg) in E. discriminate.
Qed.

Lemma tag_free_no_match (pre : string) : forall s,
  exec_at tag_re s <> None -> tag_free (pre ++ s) = false.
Proof.
  induction pre as [|a pre IH]; intros s H.
  - destruct s as [|a s]; [now elim H|]. cbn [append tag_free].
    destruct (Ascii.eqb a "<") eqn:Ea.
    + destruct (all_chars (in_cls (CNot ">")) s) eqn:Hs; [|reflexivity].
      elim H. apply exec_tag_none. now right.
    + elim H. apply exec_tag_none. now left.
  - cbn [append tag_free]. rewrite (IH s H). apply andb_false_r.
Qed.

(** No tag matches anywhere in a tag-free text. *)
Lemma tag_free_test (s : string) : tag_free s = true -> test tag_re s = false.
Proof.
  intros H. destruct (test tag_re s) eqn:T; [|reflexivity].
  apply test_sound in T as (pre & s' & -> & Hx).
  now rewrite (tag_free_no_match _ _ Hx) in H.
Qed.

Lemma tag_free_trimStart (s : string) :
  tag_free s = true -> tag_free (trimStart s) = true.
Proof.
  induction s as [|a s IH]; [reflexivity|]. intros H. cbn [trimStart].
  destruct (is_space a); [|exact H].
  cbn [tag_free] in H. apply andb_prop in H as [_ H]. now apply IH.
Qed.

Lemma tag_free_trimEnd (s : string) :
  tag_free s = true -> tag_free (trimEnd s) = true.
Proof.
  induction s as [|a s IH]; [reflexivity|]. cbn [tag_free trimEnd].
  intros H. apply andb_prop in H as [Ha Hs]. specialize (IH Hs).
  destruct (trimEnd s) as [|b t] eqn:E.
  - destruct (is_space a); [reflexivity|]. cbn [tag_free all_chars].
    now destruct (Ascii.eqb a "<").
  - cbn [tag_free] in IH |- *. rewrite IH, andb_true_r.
    destruct (Ascii.eqb a "<"); [|reflexivity].
    rewrite <- E. now apply trimEnd_all.
Qed.

Lemma tag_free_plain (s : string) :
  all_chars (in_cls (CNot "<")) s = true -> tag_free s = true.
Proof.
  induction s as [|a s IH]; [reflexivity|]. cbn [all_chars tag_free].
  intros H. apply andb_prop in H as [Ha Hs]. rewrite (IH Hs), andb_true_r.
  simpl in Ha. apply negb_true_iff in Ha. now rewrite Ha.
Qed.

(** X12. The status the two extractors return. The report's extractor
    returns what the sync script's extractor returns, with "Unknown" in
    place of absent. A status is always trimmed, and no tag is left in
    it: the tag pattern matches nowhere in it. The sync script's
    extractor returns the empty string only through the primary pattern,
    for a paragraph of white space; the report then shows an empty
    status where the sync script skips the page. *)
Theorem extractStatus_result (body : string) :
  AdrReport.extractStatus body
  = match AdrSync.extractStatus body with
    | Some s => s
    | None => "Unknown"
    end
  /\ (forall s, AdrSync.extractStatus body = Some s ->
        trim s = s /\ test tag_re s = false)
  /\ (AdrSync.extractStatus body = Some "" ->
      exists text,
        re_match primary_re body = Some [text]
        /\ text <> ""
        /\ all_chars is_space text = true
        /\ AdrReport.extractStatus body = "").
Proof.
  assert (A : AdrReport.extractStatus body
              = match AdrSync.extractStatus body with
                | Some s => s
                | None => "Unknown"
                end).
  { unfold AdrReport.extractStatus, AdrSync.extractStatus.
    unfold AdrReport.primary_re, AdrReport.empty_re, AdrReport.fallback_re,
      AdrReport.tag_re.
    destruct (re_match primary_re body); [reflexivity|].
    destruct (re_match empty_re body); [reflexivity|].
    destruct (re_match fallback_re body); [|reflexivity].
    cbv zeta. now destruct (truthy _). }
  split; [exact A|]. split.
  - intros s. unfold AdrSync.extractStatus.
    destruct (re_match primary_re body) as [caps|] eqn:E1.
    + intros [= <-]. split; [apply trim_idem|].
      apply primary_capture_plain in E1 as (text & -> & Hc & _).
      cbn [group1 nth]. apply tag_free_test, tag_free_plain, trim_all, Hc.
    + destruct (re_match empty_re body); [discriminate|].
      destruct (re_match fallback_re body) as [caps|]; [|discriminate].
      cbv zeta. destruct (truthy _); [|discriminate].
      intros [= <-]. split; [apply trim_idem|].
      apply tag_free_test. unfold trim.
      apply tag_free_trimEnd, tag_free_trimStart.
      unfold remove_all. apply remove_tags_free. lia.
  - intros E. rewrite A, E.
    unfold AdrSync.extractStatus in E.
    destruct (re_match primary_re body) as [caps|] eqn:E1.
    + injection E as E.
      destruct (primary_capture_plain _ _ E1) as (text & -> & Hc & Ht).
      exists text. cbn [group1 nth] in E.
      split; [reflexivity|]. split; [now destruct text|].
      split; [now apply trim_empty | reflexivity].
    + destruct (re_match empty_re body); [discriminate|].
      destruct (re_match fallback_re body) as [caps|]; [|discriminate].
      cbv zeta in E. destruct (trim _) eqn:Et; simpl in E; discriminate.
Qed.

Lemma extractStatus_result_witness :
  (trim "In  Review" = "In  Review" /\ test tag_re "In  Review" = false)
  /\ exists text,
       re_match primary_re (Fixtures.card "<p> </p></td>") = Some [text]
       /\ text <> ""
       /\ all_chars is_space text = true
       /\ AdrReport.extractStatus (Fixtures.card "<p> </p></td>") = "".
Proof.
  split.
  - apply (proj1 (proj2 (extractStatus_result
             (Fixtures.card "<p><em>In  Review </em></p></td>")))).
    vm_compute. reflexivity.
  - apply (proj2 (proj2 (extractStatus_result (Fixtures.card "<p> </p></td>")))).
    vm_compute. reflexivity.
Defined.

End StatusFacts.

(* ===================================================================== *)
(** ** The page scripts *)
(* ===================================================================== *)

Module PageFacts.
Import JsString JsValue Confluence ConfluenceProperties PageApi PageShapes.
Import ConfluenceCreate ConfluenceUpdate ConfluenceGet PropertyRemoval.
Import Protocol CliShapes ReconcilerFacts CliFacts.
Local Open Scope string_scope.

Section Sessions.
Context {St : Type} `{PageRemote St}.

Lemma pbind_ask {B} (c : PageCall) (k : ApiResponse (page_reply c) -> P St B)
      (s : Session St) resp st :
  serve_page c (store s) = (resp, st) ->
  pbind (ask c) k s = k resp (psent s st [OnPage c]).
Proof. intros E. unfold pbind, ask, psent. now rewrite E. Qed.

Lemma psent_psent (s : Session St) st1 st2 cs1 cs2 :
  psent (psent s st1 cs1) st2 cs2 = psent s st2 (cs1 ++ cs2)%list.
Proof. unfold psent. cbn [trace]. now rewrite app_assoc. Qed.

Lemma psent_nil (s : Session St) : psent s (store s) [] = s.
Proof. destruct s. unfold psent. cbn. now rewrite app_nil_r. Qed.

Lemma empty_length (t : string) : Nat.eqb (String.length t) 0 = true <-> t = "".
Proof. destruct t; simpl; split; congruence. Qed.

End Sessions.

(** X13. [updatePage]. Without a title and a body, or with a title that
    is empty after trimming, it exits before any request. Otherwise it
    fetches the page first. It sends no update when that fails, when the
    page has no version or version zero, or when no body is given and
    the page has none. In every other case it sends exactly one update,
    which carries the page id, the fetched version plus one, the
    status, space and parent of the fetched page, and for title and body
    the given value or else the fetched one; it returns what the update
    response holds. *)
Theorem updatePage_protocol {St : Type} `{PageRemote St}
    (site pageId : string) (updates : UpdateInput) (s : Session St)
    (currentResponse : ApiResponse PageV2) (st1 : St) :
  serve_page (GetPage pageId) (store s) = (currentResponse, st1) ->
  (ui_title updates = None /\ ui_body updates = None ->
   updatePage site pageId updates s
   = (Exit "At least one of title or body must be provided", s))
  /\ (forall title,
        ui_title updates = Some title -> trim title = "" ->
        updatePage site pageId updates s = (Exit "Title cannot be empty", s))
  /\ (ui_title updates <> None \/ ui_body updates <> None ->
      (forall title, ui_title updates = Some title -> trim title <> "") ->
      (ok currentResponse = false
       \/ (exists current,
             data currentResponse = Some current
             /\ (p_version current = None
                 \/ p_version current = Some 0%Z
                 \/ (ui_body updates = None /\ p_body current = None))) ->
       exists e,
         updatePage site pageId updates s
         = (Exit e, psent s st1 [OnPage (GetPage pageId)]))
      /\ (forall current v bodyValue (response : ApiResponse PageV2) st2,
            ok currentResponse = true ->
            data currentResponse = Some current ->
            p_version current = Some v ->
            v <> 0%Z ->
            match ui_body updates with
            | Some b => Some b
            | None => p_body current
            end = Some bodyValue ->
            serve_page
              (PutPage pageId
                 (mkUpdateBody pageId (p_status current)
                    (or_current (ui_title updates) (p_title current))
                    (p_spaceId current) (p_parentId current) bodyValue (v + 1)))
              st1
            = (response, st2) ->
            exists r,
              updatePage site pageId updates s
              = (r, psent s st2
                      [OnPage (GetPage pageId);
                       OnPage (PutPage pageId
                                 (mkUpdateBody pageId (p_status current)
                                    (or_current (ui_title updates) (p_title current))
                                    (p_spaceId current) (p_parentId current)
                                    bodyValue (v + 1)))])
              /\ (ok response = false -> exists e, r = Exit e)
              /\ (forall d, ok response = true -> data response = Some d ->
                    exists out,
                      r = Done out
                      /\ uo_id out = p_id d
                      /\ uo_title out = p_title d
                      /\ uo_version out = p_version d))).
Proof.
  intros E. split; [|split].
  - intros [Ht Hb]. unfold updatePage. now rewrite Ht, Hb.
  - intros title Ht He. unfold updatePage. rewrite Ht.
    apply empty_length in He. rewrite He. now destruct (ui_body updates).
  - intros Hupd Htitle.
    assert (G : updatePage site pageId updates s
                = (if negb (ok currentResponse)
                   then pexit (or_else (error currentResponse)
                                 ("Failed to get page " ++ pageId))
                   else
                     match data currentResponse with
                     | None => pthrow "TypeError"
                     | Some current =>
                         match match p_version current with
                               | Some v => if Z.eqb v 0 then None else Some v
                               | None => None
                               end with
                         | None => pexit ("Page " ++ pageId
                                          ++ " is missing version metadata")
                         | Some currentVersion =>
                             match match ui_body updates with
                                   | Some b => Some b
                                   | None => p_body current
                                   end with
                             | None =>
                                 pexit "Unable to determine existing page body. Provide a body update."
                             | Some bodyValue =>
                                 pbind
                                   (ask (PutPage pageId
                                           (mkUpdateBody pageId (p_status current)
                                              (or_current (ui_title updates) (p_title current))
                                              (p_spaceId current) (p_parentId current)
                                              bodyValue (currentVersion + 1))))
                                   (fun response =>
                                      if negb (ok response)
                                      then pexit (or_else (error response)
                                                    "Failed to update page")
                                      else
                                        match data response with
                                        | None => pthrow "TypeError"
                                        | Some d =>
                                            pret (mkUpdateOutput (p_id d) (p_title d)
                                                    (p_version d)
                                                    (if truthy_opt (p_webui d)
                                                     then Some (ConfluenceUpdate.getSiteUrl site
                                                                ++ "/wiki"
                                                                ++ match p_webui d with
                                                                   | Some u => u
                                                                   | None => EmptyString
                                                                   end)
                                                     else None))
                                        end)
                             end
                         end
                     end) (psent s st1 [OnPage (GetPage pageId)])).
    { unfold updatePage.
      assert (T : match ui_title updates with
                  | Some title => Nat.eqb (String.length (trim title)) 0
                  | None => false
                  end = false).
      { destruct (ui_title updates) as [t|] eqn:Et; [|reflexivity].
        destruct (Nat.eqb (String.length (trim t)) 0) eqn:El; [|reflexivity].
        apply empty_length in El. now elim (Htitle t eq_refl). }
      rewrite T.
      destruct (ui_title updates) as [t|], (ui_body updates) as [b|];
        try (destruct Hupd; congruence);
        now rewrite (pbind_ask (GetPage pageId) _ s _ _ E). }
    split.
    + intros [Hok | (current & Hd & Hv)]; rewrite G.
      * rewrite Hok. eexists. reflexivity.
      * destruct (ok currentResponse); cbn [negb]; [|eexists; reflexivity].
        rewrite Hd.
        destruct Hv as [-> | [-> | [Hb ->]]]; try (eexists; reflexivity).
        rewrite Hb. destruct (p_version current) as [v|]; [|eexists; reflexivity].
        destruct (Z.eqb v 0); eexists; reflexivity.
    + intros current v bodyValue response st2 Hok Hd Hv Hv0 Hb Eput.
      rewrite G, Hok, Hd, Hv. apply Z.eqb_neq in Hv0. rewrite Hv0.
      cbn [negb]. rewrite Hb.
      rewrite (pbind_ask _ _ (psent s st1 [OnPage (GetPage pageId)]) _ _ Eput).
      rewrite psent_psent. cbn [app page_reply].
      destruct (ok response).
      * cbn [negb]. destruct (data response) as [d|].
        -- eexists. split; [reflexivity|]. split; [discriminate|].
           intros d' _ [= <-]. eexists. repeat split.
        -- eexists. split; [reflexivity|]. split; [discriminate|].
           intros d' _ Hd'. discriminate.
      * eexists. split; [reflexivity|]. split; [eauto|]. discriminate.
Qed.

Lemma updatePage_protocol_witness :
  updatePage "acme.atlassian.net" "201" (mkUpdateInput None None) session0
  = (Exit "At least one of title or body must be provided", session0)
  /\ updatePage "acme.atlassian.net" "201"
       (mkUpdateInput (Some "  ") (Some "<p>New</p>")) session0
     = (Exit "Title cannot be empty", session0)
  /\ (exists e,
         updatePage "acme.atlassian.net" "202"
           (mkUpdateInput (Some "Notes 2") None) session0
         = (Exit e, psent session0 wiki0 [OnPage (GetPage "202")]))
  /\ (exists r out,
         fst (updatePage "acme.atlassian.net" "201"
                (mkUpdateInput (Some "ADR-007: Use Pulsar") None) session0) = r
         /\ r = Done out
         /\ uo_title out = "ADR-007: Use Pulsar"
         /\ uo_version out = Some 5%Z).
Proof.
  assert (E1 : serve_page (GetPage "201") (store session0)
               = (success pageKafka, wiki0)) by (vm_compute; reflexivity).
  assert (E2 : serve_page (GetPage "202") (store session0)
               = (success pageBare, wiki0)) by (vm_compute; reflexivity).
  split; [|split; [|split]].
  - apply (proj1 (updatePage_protocol "acme.atlassian.net" "201"
                    (mkUpdateInput None None) session0 _ _ E1)).
    split; reflexivity.
  - apply (proj1 (proj2 (updatePage_protocol "acme.atlassian.net" "201"
                           (mkUpdateInput (Some "  ") (Some "<p>New</p>")) session0
                           _ _ E1)) "  ");
      reflexivity.
  - apply (proj2 (proj2 (updatePage_protocol "acme.atlassian.net" "202"
                           (mkUpdateInput (Some "Notes 2") None) session0
                           _ _ E2))).
    + left. discriminate.
    + intros title [= <-]. vm_compute. discriminate.
    + right. exists pageBare. split; [reflexivity|]. now left.
  - pose (body := mkUpdateBody "201" "current" "ADR-007: Use Pulsar" "S1"
                    (Some "31859277900") "<p>Body</p>" 5).
    pose (p' := mkPageV2 "201" "ADR-007: Use Pulsar" "current" "S1"
                  (Some "31859277900") (Some 5%Z) (Some "2024-05-01T10:00:00Z")
                  (Some "<p>Body</p>") (Some "/spaces/CE/pages/201")).
    assert (E3 : serve_page (PutPage "201" body) wiki0
                 = (success p', snd (serve_page (PutPage "201" body) wiki0)))
      by (vm_compute; reflexivity).
    destruct (updatePage_protocol "acme.atlassian.net" "201"
                (mkUpdateInput (Some "ADR-007: Use Pulsar") None) session0
                _ _ E1) as (_ & _ & X).
    assert (G1 : ui_title (mkUpdateInput (Some "ADR-007: Use Pulsar") None) <> None
                 \/ ui_body (mkUpdateInput (Some "ADR-007: Use Pulsar") None) <> None)
      by (left; discriminate).
    assert (G2 : forall title,
               ui_title (mkUpdateInput (Some "ADR-007: Use Pulsar") None) = Some title ->
               trim title <> "")
      by (intros title [= <-]; vm_compute; discriminate).
    destruct (X G1 G2) as [_ Y].
    destruct (Y pageKafka 4%Z "<p>Body</p>" (success p')
                (snd (serve_page (PutPage "201" body) wiki0))
                eq_refl eq_refl eq_refl ltac:(discriminate) eq_refl E3)
      as (r & E & _ & D).
    destruct (D p' eq_refl eq_refl) as (out & Er & _ & Ht & Hv).
    exists r, out. rewrite E. repeat split; assumption.
Defined.

Section Spaces.
Context {St : Type} `{PageRemote St}.

Lemma getSpaceId_cases (spaceKey : string) (s : Session St)
      (response : ApiResponse (list SpaceResponse)) st1 :
  serve_page (GetSpaces spaceKey) (store s) = (response, st1) ->
  getSpaceId spaceKey s
  = (if negb (ok response)
     then Exit (or_else (error response) ("Failed to resolve space key " ++ spaceKey))
     else
       match chosen_space spaceKey response with
       | None => Exit ("Space " ++ quote ++ spaceKey ++ quote ++ " not found")
       | Some space => Done (sp_id space)
       end,
     psent s st1 [OnPage (GetSpaces spaceKey)]).
Proof.
  intros E. unfold getSpaceId.
  rewrite (pbind_ask (GetSpaces spaceKey) _ s _ _ E). cbn [page_reply].
  unfold chosen_space.
  destruct (ok response); cbn [negb]; [|reflexivity].
  destruct (match data response with
            | Some results => find_space spaceKey results
            | None => None
            end); reflexivity.
Qed.

Lemma chosen_space_key (spaceKey : string)
      (response : ApiResponse (list SpaceResponse)) sp :
  chosen_space spaceKey response = Some sp ->
  toLowerCase (sp_key sp) = toLowerCase spaceKey
  /\ exists results, data response = Some results /\ In sp results.
Proof.
  unfold chosen_space, find_space.
  destruct (data response) as [results|]; [|discriminate].
  intros F. apply find_some in F as [Hin Hk].
  apply String.eqb_eq in Hk. split; [exact Hk|]. now exists results.
Qed.

End Spaces.

(** X14. [createPage]. Without a space, a title or a body it exits
    before any request. Otherwise it first resolves the space key; when
    that request fails, or no space of the response has the key up to
    case, it exits and nothing is created. Otherwise it sends exactly one
    create, which carries the id of the first space of the response whose
    key matches up to case, the given title and body, the given status or
    "current", and the parent id only when it is not empty; it returns
    what the create response holds. *)
Theorem createPage_protocol {St : Type} `{PageRemote St}
    (site : string) (input : CreatePageInput) (s : Session St) :
  (truthy_opt (ci_space input) = false
   \/ truthy_opt (ci_title input) = false
   \/ ci_body input = None ->
   createPage site input s
   = (Exit "Missing required fields: space, title, body", s))
  /\ (forall space title bodyValue (response : ApiResponse (list SpaceResponse)) st1,
        ci_space input = Some space -> truthy space = true ->
        ci_title input = Some title -> truthy title = true ->
        ci_body input = Some bodyValue ->
        serve_page (GetSpaces space) (store s) = (response, st1) ->
        (ok response = false \/ chosen_space space response = None ->
         exists e,
           createPage site input s
           = (Exit e, psent s st1 [OnPage (GetSpaces space)]))
        /\ (forall sp (created : ApiResponse CreatePageResponse) st2,
              ok response = true ->
              chosen_space space response = Some sp ->
              serve_page
                (PostPage
                   (mkCreateBody (sp_id sp) (or_else (ci_status input) "current")
                      title bodyValue
                      (if truthy_opt (ci_parentId input)
                       then ci_parentId input else None)))
                st1
              = (created, st2) ->
              toLowerCase (sp_key sp) = toLowerCase space
              /\ exists r,
                   createPage site input s
                   = (r, psent s st2
                           [OnPage (GetSpaces space);
                            OnPage (PostPage
                                      (mkCreateBody (sp_id sp)
                                         (or_else (ci_status input) "current")
                                         title bodyValue
                                         (if truthy_opt (ci_parentId input)
                                          then ci_parentId input else None)))])
                   /\ (ok created = false -> exists e, r = Exit e)
                   /\ (forall d, ok created = true -> data created = Some d ->
                         exists out,
                           r = Done out
                           /\ co_id out = cr_id d
                           /\ co_title out = cr_title d
                           /\ co_status out = cr_status d))).
Proof.
  split.
  - unfold createPage, truthy_opt.
    destruct (ci_space input) as [[|a sp]|], (ci_title input) as [[|b ti]|],
      (ci_body input) as [bodyValue|]; try reflexivity.
    intros [D | [D | D]]; discriminate.
  - intros space title bodyValue response st1 Hs Hts Ht Htt Hb E.
    unfold createPage. rewrite Hs, Ht, Hb.
    destruct space as [|a sp0]; [discriminate|].
    destruct title as [|b ti0]; [discriminate|].
    cbv zeta. split.
    + unfold pbind at 1. rewrite (getSpaceId_cases _ _ _ _ E).
      intros [Hok | Hc].
      * rewrite Hok. eexists. reflexivity.
      * destruct (ok response); cbn [negb]; [|eexists; reflexivity].
        rewrite Hc. eexists. reflexivity.
    + intros sp created st2 Hok Hc Epost.
      split; [apply (chosen_space_key _ _ _ Hc)|].
      unfold pbind at 1. rewrite (getSpaceId_cases _ _ _ _ E).
      rewrite Hok, Hc. cbn [negb].
      rewrite (pbind_ask _ _ (psent s st1 [OnPage (GetSpaces (String a sp0))]) _ _ Epost).
      rewrite psent_psent. cbn [app page_reply].
      destruct (ok created).
      * cbn [negb]. destruct (data created) as [d|].
        -- eexists. split; [reflexivity|]. split; [discriminate|].
           intros d' _ [= <-]. eexists. repeat split.
        -- eexists. split; [reflexivity|]. split; [discriminate|].
           intros d' _ Hd'. discriminate.
      * eexists. split; [reflexivity|]. split; [eauto|]. discriminate.
Qed.

Lemma createPage_protocol_witness :
  createPage "acme.atlassian.net"
    (mkCreateInput (Some "CE") (Some "") (Some "<p>Hello</p>") None None) session0
  = (Exit "Missing required fields: space, title, body", session0)
  /\ (exists e,
         createPage "acme.atlassian.net"
           (mkCreateInput (Some "OPS") (Some "Runbook") (Some "<p>Steps</p>") None None)
           session0
         = (Exit e, psent session0 wiki0 [OnPage (GetSpaces "OPS")]))
  /\ (exists r out,
         fst (createPage "acme.atlassian.net"
                (mkCreateInput (Some "ce") (Some "Runbook") (Some "<p>Steps</p>")
                   (Some "") None)
                session0) = r
         /\ r = Done out
         /\ co_id out = "900"
         /\ co_status out = Some "current").
Proof.
  split; [|split].
  - apply (proj1 (createPage_protocol "acme.atlassian.net"
                    (mkCreateInput (Some "CE") (Some "") (Some "<p>Hello</p>") None None)
                    session0)).
    right; left. reflexivity.
  - assert (E : serve_page (GetSpaces "OPS") (store session0) = (success [], wiki0))
      by (vm_compute; reflexivity).
    destruct (proj2 (createPage_protocol "acme.atlassian.net"
                       (mkCreateInput (Some "OPS") (Some "Runbook") (Some "<p>Steps</p>")
                          None None)
                       session0)
                "OPS" "Runbook" "<p>Steps</p>" (success []) wiki0
                eq_refl eq_refl eq_refl eq_refl eq_refl E) as [X _].
    apply X. right. reflexivity.
  - pose (body := mkCreateBody "S1" "current" "Runbook" "<p>Steps</p>" None).
    pose (d := mkCreated "900" "Runbook" (Some "current") (Some "/spaces/new")).
    assert (E : serve_page (GetSpaces "ce") (store session0)
                = (success [mkSpace "S1" "CE" "Engineering"], wiki0))
      by (vm_compute; reflexivity).
    assert (Epost : serve_page (PostPage body) wiki0
                    = (success d, snd (serve_page (PostPage body) wiki0)))
      by (vm_compute; reflexivity).
    destruct (proj2 (createPage_protocol "acme.atlassian.net"
                       (mkCreateInput (Some "ce") (Some "Runbook") (Some "<p>Steps</p>")
                          (Some "") None)
                       session0)
                "ce" "Runbook" "<p>Steps</p>"
                (success [mkSpace "S1" "CE" "Engineering"]) wiki0
                eq_refl eq_refl eq_refl eq_refl eq_refl E) as [_ Y].
    destruct (Y (mkSpace "S1" "CE" "Engineering") (success d)
                (snd (serve_page (PostPage body) wiki0)) eq_refl eq_refl Epost)
      as (_ & r & Er & _ & D).
    destruct (D d eq_refl eq_refl) as (out & Hr & Hid & _ & Hst).
    exists r, out. rewrite Er. repeat split; assumption.
Defined.

Section Reading.
Context {St : Type} `{Remote St} `{PageRemote St}.

Lemma lift_run {A} (m : M St A) (s : Session St) r st cs :
  m (inner s) = (r, sent (inner s) st cs) ->
  lift m s = (r, psent s st (map OnProperty cs)).
Proof. unfold lift, inner. intros ->. reflexivity. Qed.

Lemma lift_request (c : Call) (s : Session St) resp st :
  serve c (store s) = (resp, st) ->
  lift (request c) s = (Done resp, psent s st [OnProperty c]).
Proof.
  intros E. apply (lift_run (request c) s (Done resp) st [c]).
  unfold request, inner, sent. cbn [remote calls console]. now rewrite E.
Qed.

Lemma changes_details pageId listed :
  existsb changes (detail_calls pageId listed) = false.
Proof. induction listed; simpl; auto. Qed.

Lemma detail_calls_app pageId l1 l2 :
  detail_calls pageId (l1 ++ l2)
  = (detail_calls pageId l1 ++ detail_calls pageId l2)%list.
Proof. apply map_app. Qed.

(** The loop over the listed properties: the details are requested in
    order, up to the first request that fails. *)
Lemma fetchDetails_cases pageId (listed : list ContentProperty) :
  forall properties (s : Session St),
  exists r st done rest,
    fetchDetails pageId listed properties s
    = (r, psent s st (detail_calls pageId done))
    /\ listed = (done ++ rest)%list
    /\ settled r
    /\ (forall out, r = Done out ->
          rest = []
          /\ length out <= length properties + length listed
          /\ exists found, out = (properties ++ found)%list).
Proof.
  induction listed as [|property listed IH]; intros properties s.
  - exists (Done properties), (store s), [], []. cbn [fetchDetails detail_calls map].
    rewrite psent_nil. split; [reflexivity|]. split; [reflexivity|].
    split; [exact I|]. intros out [= <-]. split; [reflexivity|].
    split; [simpl; lia|]. exists []. now rewrite app_nil_r.
  - cbn [fetchDetails]. unfold pbind at 1.
    destruct (serve (GetProperty pageId (prop_id property)) (store s))
      as [dr st1] eqn:E.
    cbn [reply] in dr, E.
    rewrite (lift_request (GetProperty pageId (prop_id property)) s _ _ E).
    cbn [reply].
    destruct (ok dr); cbn [negb].
    + destruct (IH (match data dr with
                    | Some d => (properties ++ [d])%list
                    | None => properties
                    end)
                  (psent s st1 [OnProperty (GetProperty pageId (prop_id property))]))
        as (r & st & done & rest & -> & -> & S & D).
      rewrite psent_psent.
      exists r, st, (property :: done), rest.
      split; [reflexivity|]. split; [reflexivity|]. split; [exact S|].
      intros out Hr. destruct (D out Hr) as (-> & Hl & found & ->).
      split; [reflexivity|].
      destruct (data dr) as [d|].
      * split; [cbn [Datatypes.length] in *; rewrite !length_app in *;
                cbn [Datatypes.length] in *; lia|].
        exists (d :: found). now rewrite <- app_assoc.
      * split; [cbn [Datatypes.length] in *; rewrite !length_app in *;
                cbn [Datatypes.length] in *; lia|].
        now exists found.
    + eexists (Exit _), st1, [property], listed.
      split; [reflexivity|]. split; [reflexivity|]. split; [exact I|].
      discriminate.
Qed.

Lemma tryGetSpaceById_cases spaceId (s : Session St) :
  exists r st,
    tryGetSpaceById spaceId s = (Done r, psent s st [OnPage (GetSpace spaceId)]).
Proof.
  destruct (serve_page (GetSpace spaceId) (store s)) as [resp st] eqn:E.
  cbn [page_reply] in resp, E.
  unfold tryGetSpaceById. rewrite (pbind_ask (GetSpace spaceId) _ s _ _ E).
  cbn [page_reply]. destruct (ok resp); eexists _, st; reflexivity.
Qed.

Lemma getPageProperties_cases pageId (s : Session St)
      (listResponse : ApiResponse PropertyListing) st1 :
  serve_page (ListProperties pageId) (store s) = (listResponse, st1) ->
  exists r st done rest,
    getPageProperties pageId s
    = (r, psent s st (OnPage (ListProperties pageId) :: detail_calls pageId done))
    /\ settled r
    /\ (ok listResponse = false -> done = [])
    /\ (ok listResponse = true ->
        match data listResponse with
        | Some d => ls_results d
        | None => []
        end = (done ++ rest)%list)
    /\ (forall out, r = Done out ->
          ok listResponse = true
          /\ rest = []
          /\ length (po_properties out) <= length done
          /\ po_total out
             = match match data listResponse with
                     | Some d => ls_size d
                     | None => None
                     end with
               | Some size => size
               | None => Z.of_nat (length (po_properties out))
               end).
Proof.
  intros E. unfold getPageProperties.
  rewrite (pbind_ask (ListProperties pageId) _ s _ _ E). cbn [page_reply].
  destruct (ok listResponse); cbn [negb].
  - cbv zeta. unfold pbind at 1.
    destruct (fetchDetails_cases pageId
                (match data listResponse with
                 | Some d => ls_results d
                 | None => []
                 end) [] (psent s st1 [OnPage (ListProperties pageId)]))
      as (r & st & done & rest & -> & Hl & S & D).
    rewrite psent_psent. cbn [app].
    destruct r as [properties| e | e |]; try contradiction.
    + eexists (Done _), st, done, rest. split; [reflexivity|].
      split; [exact I|]. split; [discriminate|]. split; [intros _; exact Hl|].
      intros out [= <-]. cbn [po_properties po_total].
      destruct (D properties eq_refl) as (-> & Hlen & _).
      split; [reflexivity|]. split; [reflexivity|]. split; [|reflexivity].
      rewrite Hl, app_nil_r in Hlen. simpl in Hlen. exact Hlen.
    + exists (Exit e), st, done, rest. split; [reflexivity|].
      split; [exact I|]. split; [discriminate|]. split; [intros _; exact Hl|].
      discriminate.
  - eexists (Exit _), st1, [], []. split; [reflexivity|].
    split; [exact I|]. split; [reflexivity|]. split; [discriminate|].
    discriminate.
Qed.

Lemma existsb_changes_app (cs1 cs2 : list Sent) :
  existsb changes (cs1 ++ cs2) = existsb changes cs1 || existsb changes cs2.
Proof. apply existsb_app. Qed.

(** Fetching a page by id sends read requests only, the page request
    first, and never stalls. *)
Lemma getPageById_cases site pageId (s : Session St) :
  exists r st cs,
    getPageById site pageId s = (r, psent s st (OnPage (GetPage pageId) :: cs))
    /\ ended r
    /\ existsb changes cs = false.
Proof.
  destruct (serve_page (GetPage pageId) (store s)) as [resp st1] eqn:E.
  cbn [page_reply] in resp, E.
  unfold getPageById. rewrite (pbind_ask (GetPage pageId) _ s _ _ E).
  cbn [page_reply].
  destruct (ok resp); cbn [negb].
  2:{ eexists (Exit _), st1, []. repeat split. }
  destruct (data resp) as [page|].
  2:{ eexists (Throw _), st1, []. repeat split. }
  unfold pbind at 1.
  assert (Sp : exists sp st2 cs2,
             (if truthy (p_spaceId page) then tryGetSpaceById (p_spaceId page)
              else pret None) (psent s st1 [OnPage (GetPage pageId)])
             = (Done sp, psent s st2 (OnPage (GetPage pageId) :: cs2))
             /\ existsb changes cs2 = false).
  { destruct (truthy (p_spaceId page)).
    - destruct (tryGetSpaceById_cases (p_spaceId page)
                  (psent s st1 [OnPage (GetPage pageId)])) as (sp & st2 & ->).
      rewrite psent_psent. eexists sp, st2, _. split; reflexivity.
    - exists None, st1, []. split; reflexivity. }
  destruct Sp as (sp & st2 & cs2 & -> & C2).
  unfold pbind at 1.
  destruct (serve_page (ListProperties (p_id page))
              (store (psent s st2 (OnPage (GetPage pageId) :: cs2))))
    as [lr st3] eqn:El.
  cbn [page_reply] in lr, El.
  destruct (getPageProperties_cases (p_id page)
              (psent s st2 (OnPage (GetPage pageId) :: cs2)) lr st3 El)
    as (r & st & done & rest & -> & S & _ & _ & _).
  rewrite psent_psent. cbn [app].
  assert (C : existsb changes
                (cs2 ++ OnPage (ListProperties (p_id page))
                        :: detail_calls (p_id page) done) = false).
  { rewrite existsb_changes_app, C2. cbn [existsb changes orb].
    apply changes_details. }
  destruct r as [properties| e | e |]; try contradiction.
  - eexists (Done _), st, _. split; [reflexivity|]. split; [exact I|exact C].
  - eexists (Exit e), st, _. split; [reflexivity|]. split; [exact I|exact C].
Qed.

Lemma getSpaceByKey_cases (spaceKey : string) (s : Session St)
      (response : ApiResponse (list SpaceResponse)) st1 :
  serve_page (GetSpaces spaceKey) (store s) = (response, st1) ->
  getSpaceByKey spaceKey s
  = (if negb (ok response)
     then Exit (or_else (error response) ("Failed to resolve space key " ++ spaceKey))
     else
       match chosen_space spaceKey response with
       | None => Exit ("Space " ++ quote ++ spaceKey ++ quote ++ " not found")
       | Some space => Done space
       end,
     psent s st1 [OnPage (GetSpaces spaceKey)]).
Proof.
  intros E. unfold getSpaceByKey.
  rewrite (pbind_ask (GetSpaces spaceKey) _ s _ _ E). cbn [page_reply].
  unfold chosen_space.
  destruct (ok response); cbn [negb]; [|reflexivity].
  destruct (match data response with
            | Some results => find_space spaceKey results
            | None => None
            end); reflexivity.
Qed.

Lemma getPageByTitle_cases site title spaceKey (s : Session St) :
  exists r st cs,
    getPageByTitle site title spaceKey s
    = (r, psent s st (OnPage (GetSpaces spaceKey) :: cs))
    /\ ended r
    /\ existsb changes cs = false.
Proof.
  destruct (serve_page (GetSpaces spaceKey) (store s)) as [resp st1] eqn:E.
  cbn [page_reply] in resp, E.
  unfold getPageByTitle, pbind at 1. rewrite (getSpaceByKey_cases _ _ _ _ E).
  destruct (ok resp); cbn [negb].
  2:{ eexists (Exit _), st1, []. repeat split. }
  destruct (chosen_space spaceKey resp) as [space|].
  2:{ eexists (Exit _), st1, []. repeat split. }
  destruct (serve_page (FindPages title (sp_id space))
              (store (psent s st1 [OnPage (GetSpaces spaceKey)])))
    as [found st2] eqn:Ef.
  cbn [page_reply] in found, Ef.
  rewrite (pbind_ask (FindPages title (sp_id space)) _ _ _ _ Ef).
  cbn [page_reply]. rewrite psent_psent. cbn [app].
  destruct (ok found); cbn [negb].
  2:{ eexists (Exit _), st2, _. split; [reflexivity|]. repeat split. }
  destruct (match data found with
            | Some results => hd_error results
            | None => None
            end) as [page|].
  2:{ eexists (Exit _), st2, _. split; [reflexivity|]. repeat split. }
  destruct (getPageById_cases site (p_id page)
              (psent s st2 [OnPage (GetSpaces spaceKey);
                            OnPage (FindPages title (sp_id space))]))
    as (r & st & cs & -> & R & C).
  rewrite psent_psent. cbn [app].
  eexists r, st, _. split; [reflexivity|]. split; [exact R|].
  cbn [existsb changes orb]. exact C.
Qed.

(** Removing one property: the lookup, then at most one delete. *)
Lemma deleteProperty_cases pageId key (s : Session St) :
  exists r st cs,
    deleteProperty pageId key s = (r, psent s st cs)
    /\ settled r
    /\ filter changes cs = filter is_delete cs
    /\ length (filter is_delete cs) <= 1
    /\ hd_error cs = Some (OnProperty (GetProperties pageId key))
    /\ (forall b, r = Done b ->
          length (filter is_delete cs) = if b then 1 else 0).
Proof.
  unfold deleteProperty, pbind at 1.
  destruct (fetch_details_cases pageId key (inner s)) as (r0 & st0 & cs0 & E0 & S0 & C0).
  rewrite (lift_run _ _ _ _ _ E0).
  assert (F : filter changes (map OnProperty cs0) = []
              /\ filter is_delete (map OnProperty cs0) = []
              /\ forall cs, hd_error (map OnProperty cs0 ++ cs)
                            = Some (OnProperty (GetProperties pageId key)))
    by (destruct C0 as [-> | [propId ->]]; repeat split).
  destruct F as (F1 & F2 & F3).
  pose proof (F3 []) as F4. rewrite app_nil_r in F4.
  destruct r0 as [[existing|]| e | e |]; try contradiction.
  - destruct (serve_page (DeleteProperty pageId (prop_id existing))
                (store (psent s st0 (map OnProperty cs0)))) as [resp st1] eqn:Ed.
    cbn [page_reply] in resp, Ed.
    rewrite (pbind_ask (DeleteProperty pageId (prop_id existing)) _ _ _ _ Ed).
    cbn [page_reply]. rewrite psent_psent.
    destruct (ok resp); cbn [negb];
      eexists _, st1, _; (split; [reflexivity|]);
      rewrite !filter_app, F1, F2, F3; cbn [filter changes is_delete app length];
      repeat split; auto; try discriminate.
    intros b [= <-]. reflexivity.
  - eexists (Done false), st0, _. split; [reflexivity|].
    rewrite F1, F2, F4.
    repeat split; auto. intros b [= <-]. reflexivity.
  - eexists (Exit e), st0, _. split; [reflexivity|].
    rewrite F1, F2, F4.
    repeat split; auto. discriminate.
Qed.

End Reading.

(** X15. The get script only reads. Whatever the arguments and the
    answers of the store, [main] ends without having sent a request that
    changes the store. With a numeric first argument its first request is
    for that page id; otherwise it needs a space key, exits before any
    request without one, and first resolves the key with one. *)
Theorem get_only_reads {St : Type} `{Remote St} `{PageRemote St}
    (site pageIdOrTitle : string) (spaceKeyArg : option string) (s : Session St) :
  exists r st cs,
    ConfluenceGet.main site pageIdOrTitle spaceKeyArg s = (r, psent s st cs)
    /\ ended r
    /\ existsb changes cs = false
    /\ (is_numeric pageIdOrTitle = true ->
        hd_error cs = Some (OnPage (GetPage pageIdOrTitle)))
    /\ (is_numeric pageIdOrTitle = false ->
        if truthy_opt spaceKeyArg
        then exists key, spaceKeyArg = Some key
                         /\ hd_error cs = Some (OnPage (GetSpaces key))
        else cs = []
             /\ r = Exit "Space key is required when searching by title").
Proof.
  unfold ConfluenceGet.main.
  destruct (is_numeric pageIdOrTitle).
  - destruct (getPageById_cases site pageIdOrTitle s) as (r & st & cs & -> & R & C).
    eexists r, st, _. split; [reflexivity|]. split; [exact R|].
    split; [exact C|]. split; [reflexivity|discriminate].
  - destruct spaceKeyArg as [[|a k]|]; cbn [truthy_opt truthy].
    1,3: exists (Exit "Space key is required when searching by title"), (store s), [];
         rewrite psent_nil; repeat split; discriminate.
    destruct (getPageByTitle_cases site pageIdOrTitle (String a k) s)
      as (r & st & cs & -> & R & C).
    eexists r, st, _. split; [reflexivity|]. split; [exact R|].
    split; [exact C|]. split; [discriminate|]. intros _.
    now exists (String a k).
Qed.

Lemma get_only_reads_witness :
  exists r st cs,
    ConfluenceGet.main "acme.atlassian.net" "201" None session0
    = (r, psent session0 st cs)
    /\ ended r
    /\ existsb changes cs = false
    /\ (is_numeric "201" = true -> hd_error cs = Some (OnPage (GetPage "201")))
    /\ (is_numeric "201" = false ->
        if truthy_opt None
        then exists key, @None string = Some key
                         /\ hd_error cs = Some (OnPage (GetSpaces key))
        else cs = []
             /\ r = Exit "Space key is required when searching by title").
Proof.
  apply (get_only_reads "acme.atlassian.net" "201" None session0).
Defined.

(** X16. [getPageProperties]: after the list request, the detail of each
    listed property is requested, in the order of the list. When the
    function returns, all of them were requested, the properties it
    reports are at most as many, and the total is the size the list
    response gives, or else the number of properties reported. When a
    detail request fails it exits, and the details requested are a prefix
    of the list. *)
Theorem getPageProperties_details {St : Type} `{Remote St} `{PageRemote St}
    (pageId : string) (s : Session St)
    (listResponse : ApiResponse PropertyListing) (st1 : St) :
  serve_page (ListProperties pageId) (store s) = (listResponse, st1) ->
  exists r st done rest,
    getPageProperties pageId s
    = (r, psent s st (OnPage (ListProperties pageId) :: detail_calls pageId done))
    /\ settled r
    /\ (ok listResponse = false -> done = [])
    /\ (ok listResponse = true ->
        match data listResponse with
        | Some d => ls_results d
        | None => []
        end = (done ++ rest)%list)
    /\ (forall out, r = Done out ->
          ok listResponse = true
          /\ rest = []
          /\ length (po_properties out) <= length done
          /\ po_total out
             = match match data listResponse with
                     | Some d => ls_size d
                     | None => None
                     end with
               | Some size => size
               | None => Z.of_nat (length (po_properties out))
               end).
Proof. apply getPageProperties_cases. Qed.

Lemma getPageProperties_details_witness :
  exists r st done rest,
    getPageProperties "201" session0
    = (r, psent session0 st (OnPage (ListProperties "201") :: detail_calls "201" done))
    /\ settled r
    /\ (true = false -> done = [])
    /\ (true = true ->
        [mkProp "p1" "emoji-title-published" (JStr "2705") (Some 2%Z);
         mkProp "p2" "owner" (JStr "team-a") (Some 1%Z)] = (done ++ rest)%list)
    /\ (forall out, r = Done out ->
          true = true
          /\ rest = []
          /\ length (po_properties out) <= length done
          /\ po_total out = 2%Z).
Proof.
  apply (getPageProperties_details "201" session0
           (success (mkListing
                       [mkProp "p1" "emoji-title-published" (JStr "2705") (Some 2%Z);
                        mkProp "p2" "owner" (JStr "team-a") (Some 1%Z)]
                       (Some 2%Z) None))
           wiki0).
  vm_compute. reflexivity.
Defined.

(** X17. Removing properties. [removeEmoji] handles the published key and
    then the draft key; the only requests that change the store are
    deletes, at most one per key, sent after the lookup of the key has
    found the property. When it returns, every key is reported exactly
    once, as deleted or as missing, in the order of the keys, and the
    number of deletes sent is the number of keys reported deleted. The
    [delete] action exits before any request without a key, and returns
    only after one delete. *)
Theorem removal_deletes_what_it_reports {St : Type} `{Remote St} `{PageRemote St}
    (pageId : string) (s : Session St) :
  (exists r st cs,
      removeEmoji pageId s = (r, psent s st cs)
      /\ settled r
      /\ filter changes cs = filter is_delete cs
      /\ length (filter is_delete cs) <= 2
      /\ hd_error cs = Some (OnProperty (GetProperties pageId published))
      /\ (forall out, r = Done out ->
            fst (fst out) = pageId
            /\ length (filter is_delete cs) = length (snd (fst out))
            /\ ((snd (fst out), snd out) = ([published; draft], [])
                \/ (snd (fst out), snd out) = ([published], [draft])
                \/ (snd (fst out), snd out) = ([draft], [published])
                \/ (snd (fst out), snd out) = ([], [published; draft]))))
  /\ (forall arg,
        truthy_opt arg = false ->
        main_delete pageId arg s = (Exit "Property key is required for delete", s))
  /\ (forall key,
        truthy key = true ->
        exists r st cs,
          main_delete pageId (Some key) s = (r, psent s st cs)
          /\ settled r
          /\ (forall out, r = Done out ->
                out = (pageId, [key]) /\ length (filter is_delete cs) = 1)).
Proof.
  split; [|split].
  - unfold removeEmoji, pbind at 1.
    change (removeKeys pageId ["emoji-title-published"; "emoji-title-draft"] [] [])
      with (pbind (deleteProperty pageId "emoji-title-published")
              (fun removed : bool =>
                 if removed
                 then removeKeys pageId ["emoji-title-draft"]
                        ([] ++ ["emoji-title-published"])%list []
                 else removeKeys pageId ["emoji-title-draft"] []
                        ([] ++ ["emoji-title-published"])%list)).
    unfold pbind at 1.
    destruct (deleteProperty_cases pageId "emoji-title-published" s)
      as (r1 & st1 & cs1 & -> & S1 & F1 & L1 & H1 & D1).
    assert (Hh : forall cs2, hd_error (cs1 ++ cs2)
                             = Some (OnProperty (GetProperties pageId published))).
    { intros cs2. destruct cs1; [discriminate|exact H1]. }
    destruct r1 as [b1| e | e |]; try contradiction.
    2:{ exists (Exit e), st1, cs1. split; [reflexivity|]. split; [exact I|].
        split; [exact F1|]. split; [lia|]. split; [exact H1|]. discriminate. }
    specialize (D1 b1 eq_refl).
    assert (Step : forall deleted missing,
               exists r st cs2,
                 removeKeys pageId ["emoji-title-draft"] deleted missing
                   (psent s st1 cs1)
                 = (r, psent s st (cs1 ++ cs2))
                 /\ settled r
                 /\ filter changes cs2 = filter is_delete cs2
                 /\ length (filter is_delete cs2) <= 1
                 /\ (forall out, r = Done out ->
                       (out = ((deleted ++ [draft])%list, missing)
                        /\ length (filter is_delete cs2) = 1)
                       \/ (out = (deleted, (missing ++ [draft])%list)
                           /\ length (filter is_delete cs2) = 0))).
    { intros deleted missing. cbn [removeKeys]. unfold pbind at 1.
      destruct (deleteProperty_cases pageId "emoji-title-draft" (psent s st1 cs1))
        as (r2 & st2 & cs2 & -> & S2 & F2 & L2 & _ & D2).
      rewrite psent_psent.
      destruct r2 as [b2| e | e |]; try contradiction.
      - specialize (D2 b2 eq_refl).
        destruct b2; eexists (Done _), st2, cs2; (split; [reflexivity|]);
          (split; [exact I|]); (split; [exact F2|]); (split; [exact L2|]);
          intros out [= <-]; [left | right]; split; auto.
      - exists (Exit e), st2, cs2. split; [reflexivity|]. split; [exact I|].
        split; [exact F2|]. split; [exact L2|]. discriminate. }
    destruct b1.
    + destruct (Step ([] ++ ["emoji-title-published"])%list [])
        as (r & st & cs2 & -> & S & F & L & D).
      destruct r as [out| e | e |]; try contradiction.
      * eexists (Done _), st, (cs1 ++ cs2)%list. split; [reflexivity|].
        split; [exact I|]. rewrite !filter_app, F1, F, length_app, Hh.
        split; [reflexivity|]. split; [lia|]. split; [reflexivity|].
        intros out' [= <-]. cbn [fst snd]. split; [reflexivity|].
        destruct (D out eq_refl) as [[-> Hc] | [-> Hc]]; cbn [fst snd].
        -- split; [simpl; lia|]. now left.
        -- split; [simpl; lia|]. right; now left.
      * exists (Exit e), st, (cs1 ++ cs2)%list. split; [reflexivity|].
        split; [exact I|]. rewrite !filter_app, F1, F, length_app, Hh.
        split; [reflexivity|]. split; [lia|]. split; [reflexivity|]. discriminate.
    + destruct (Step [] ([] ++ ["emoji-title-published"])%list)
        as (r & st & cs2 & -> & S & F & L & D).
      destruct r as [out| e | e |]; try contradiction.
      * eexists (Done _), st, (cs1 ++ cs2)%list. split; [reflexivity|].
        split; [exact I|]. rewrite !filter_app, F1, F, length_app, Hh.
        split; [reflexivity|]. split; [lia|]. split; [reflexivity|].
        intros out' [= <-]. cbn [fst snd]. split; [reflexivity|].
        destruct (D out eq_refl) as [[-> Hc] | [-> Hc]]; cbn [fst snd].
        -- split; [simpl; lia|]. right; right; now left.
        -- split; [simpl; lia|]. right; right; now right.
      * exists (Exit e), st, (cs1 ++ cs2)%list. split; [reflexivity|].
        split; [exact I|]. rewrite !filter_app, F1, F, length_app, Hh.
        split; [reflexivity|]. split; [lia|]. split; [reflexivity|]. discriminate.
  - intros [[|a k]|]; [reflexivity|discriminate|reflexivity].
  - intros [|a k] Hk; [discriminate|]. unfold main_delete, pbind at 1.
    destruct (deleteProperty_cases pageId (String a k) s)
      as (r & st & cs & -> & S & F & L & _ & D).
    destruct r as [b| e | e |]; try contradiction.
    + specialize (D b eq_refl).
      destruct b; cbn [negb]; eexists _, st, cs; (split; [reflexivity|]);
        (split; [exact I|]).
      * intros out [= <-]. now split.
      * discriminate.
    + exists (Exit e), st, cs. split; [reflexivity|]. split; [exact I|]. discriminate.
Qed.

Lemma removal_deletes_what_it_reports_witness :
  main_delete "201" None session0
  = (Exit "Property key is required for delete", session0)
  /\ exists r st cs,
       main_delete "201" (Some "owner") session0 = (r, psent session0 st cs)
       /\ settled r
       /\ (forall out, r = Done out ->
             out = ("201", ["owner"]) /\ length (filter is_delete cs) = 1).
Proof.
  split.
  - apply (proj1 (proj2 (removal_deletes_what_it_reports "201" session0))).
    reflexivity.
  - apply (proj2 (proj2 (removal_deletes_what_it_reports "201" session0))).
    reflexivity.
Defined.

(** X26. Getting a page by title. The space key is resolved first; when
    that fails or no space has the key up to case, the script exits.
    Then the title is searched in that space; when the search fails or
    finds nothing, the script exits without fetching a page. Otherwise the
    first hit is fetched by its id, and the outcome is that of fetching
    that page. *)
Theorem getPageByTitle_protocol {St : Type} `{Remote St} `{PageRemote St}
    (site title spaceKey : string) (s : Session St)
    (spaces : ApiResponse (list SpaceResponse)) (st1 : St) :
  serve_page (GetSpaces spaceKey) (store s) = (spaces, st1) ->
  (ok spaces = false \/ chosen_space spaceKey spaces = None ->
   exists e,
     getPageByTitle site title spaceKey s
     = (Exit e, psent s st1 [OnPage (GetSpaces spaceKey)]))
  /\ (forall space (found : ApiResponse (list PageV2)) st2,
        ok spaces = true ->
        chosen_space spaceKey spaces = Some space ->
        serve_page (FindPages title (sp_id space)) st1 = (found, st2) ->
        (ok found = false
         \/ match data found with
            | Some results => hd_error results
            | None => None
            end = None ->
         exists e,
           getPageByTitle site title spaceKey s
           = (Exit e, psent s st2 [OnPage (GetSpaces spaceKey);
                                   OnPage (FindPages title (sp_id space))]))
        /\ (forall page,
              ok found = true ->
              match data found with
              | Some results => hd_error results
              | None => None
              end = Some page ->
              getPageByTitle site title spaceKey s
              = getPageById site (p_id page)
                  (psent s st2 [OnPage (GetSpaces spaceKey);
                                OnPage (FindPages title (sp_id space))]))).
Proof.
  intros E. split.
  - intros Hc. unfold getPageByTitle, pbind at 1.
    rewrite (getSpaceByKey_cases _ _ _ _ E).
    destruct Hc as [-> | Hc]; [eexists; reflexivity|].
    destruct (ok spaces); cbn [negb]; [|eexists; reflexivity].
    rewrite Hc. eexists. reflexivity.
  - intros space found st2 Hok Hc Ef.
    assert (G : getPageByTitle site title spaceKey s
                = (if negb (ok found)
                   then pexit (or_else (error found) "Search failed")
                   else
                     match match data found with
                           | Some results => hd_error results
                           | None => None
                           end with
                     | None =>
                         pexit ("Page " ++ quote ++ title ++ quote
                                ++ " not found in space " ++ spaceKey)
                     | Some page => getPageById site (p_id page)
                     end)
                    (psent s st2 [OnPage (GetSpaces spaceKey);
                                  OnPage (FindPages title (sp_id space))])).
    { unfold getPageByTitle, pbind at 1.
      rewrite (getSpaceByKey_cases _ _ _ _ E), Hok, Hc. cbn [negb].
      rewrite (pbind_ask (FindPages title (sp_id space)) _
                 (psent s st1 [OnPage (GetSpaces spaceKey)]) _ _ Ef).
      cbn [page_reply]. now rewrite psent_psent. }
    split.
    + intros [Hf | Hn]; rewrite G.
      * rewrite Hf. eexists. reflexivity.
      * destruct (ok found); cbn [negb]; [|eexists; reflexivity].
        rewrite Hn. eexists. reflexivity.
    + intros page Hf Hp. now rewrite G, Hf, Hp.
Qed.

Lemma getPageByTitle_protocol_witness :
  getPageByTitle "acme.atlassian.net" "ADR-007: Use Kafka" "ce" session0
  = getPageById "acme.atlassian.net" "201"
      (psent session0 wiki0 [OnPage (GetSpaces "ce"); OnPage (FindPages "ADR-007: Use Kafka" "S1")])
  /\ exists e,
       getPageByTitle "acme.atlassian.net" "No such page" "ce" session0
       = (Exit e, psent session0 wiki0
                    [OnPage (GetSpaces "ce"); OnPage (FindPages "No such page" "S1")]).
Proof.
  assert (E : serve_page (GetSpaces "ce") (store session0)
              = (success [mkSpace "S1" "CE" "Engineering"], wiki0))
    by (vm_compute; reflexivity).
  assert (F1 : serve_page (FindPages "ADR-007: Use Kafka" "S1") wiki0
               = (success [pageKafka], wiki0))
    by (vm_compute; reflexivity).
  assert (F2 : serve_page (FindPages "No such page" "S1") wiki0
               = (success [], wiki0))
    by (vm_compute; reflexivity).
  split.
  - apply (proj2 (proj2 (getPageByTitle_protocol "acme.atlassian.net"
                           "ADR-007: Use Kafka" "ce" session0 _ _ E)
                    (mkSpace "S1" "CE" "Engineering") _ _ eq_refl eq_refl F1)
             pageKafka eq_refl eq_refl).
  - apply (proj1 (proj2 (getPageByTitle_protocol "acme.atlassian.net"
                           "No such page" "ce" session0 _ _ E)
                    (mkSpace "S1" "CE" "Engineering") _ _ eq_refl eq_refl F2)).
    right. reflexivity.
Defined.

(** X27. Getting a page by id tolerates a space that cannot be fetched.
    After the page, its space is requested when the page names one, and
    then the properties of the page, under the id that the page response
    gives; a failed space request does not end the script: the output
    then names the space by its id only. *)
Theorem getPageById_space_fallback {St : Type} `{Remote St} `{PageRemote St}
    (site pageId : string) (s : Session St)
    (response : ApiResponse PageV2) (st1 : St) (page : PageV2)
    (spaceResponse : ApiResponse SpaceResponse) (st2 : St) :
  serve_page (GetPage pageId) (store s) = (response, st1) ->
  ok response = true ->
  data response = Some page ->
  truthy (p_spaceId page) = true ->
  serve_page (GetSpace (p_spaceId page)) st1 = (spaceResponse, st2) ->
  exists r st done,
    getPageById site pageId s
    = (r, psent s st
            (OnPage (GetPage pageId)
             :: OnPage (GetSpace (p_spaceId page))
             :: OnPage (ListProperties (p_id page))
             :: detail_calls (p_id page) done))
    /\ settled r
    /\ (forall out, r = Done out ->
          go_id out = p_id page
          /\ go_version out = p_version page
          /\ go_space out
             = match (if ok spaceResponse then data spaceResponse else None) with
               | Some sp => SpaceFound (sp_id sp) (sp_key sp) (sp_name sp)
               | None => SpaceIdOnly (p_spaceId page)
               end
          /\ length (po_properties (go_properties out)) <= length done).
Proof.
  intros E Hok Hd Hs Es. unfold getPageById.
  rewrite (pbind_ask (GetPage pageId) _ s _ _ E). cbn [page_reply].
  rewrite Hok, Hd, Hs. cbn [negb]. unfold pbind at 1.
  unfold tryGetSpaceById.
  rewrite (pbind_ask (GetSpace (p_spaceId page)) _
             (psent s st1 [OnPage (GetPage pageId)]) _ _ Es).
  cbn [page_reply]. rewrite psent_psent. cbn [app].
  assert (Sp : (if negb (ok spaceResponse) then pret None
                else pret (data spaceResponse))
                 (psent s st2 [OnPage (GetPage pageId);
                               OnPage (GetSpace (p_spaceId page))])
               = (Done (if ok spaceResponse then data spaceResponse else None),
                  psent s st2 [OnPage (GetPage pageId);
                               OnPage (GetSpace (p_spaceId page))]))
    by now destruct (ok spaceResponse).
  rewrite Sp. unfold pbind at 1.
  destruct (serve_page (ListProperties (p_id page))
              (store (psent s st2 [OnPage (GetPage pageId);
                                   OnPage (GetSpace (p_spaceId page))])))
    as [lr st3] eqn:El.
  cbn [page_reply] in lr, El.
  destruct (getPageProperties_cases (p_id page) _ lr st3 El)
    as (r & st & done & rest & -> & S & _ & _ & D).
  rewrite psent_psent. cbn [app].
  destruct r as [properties| e | e |]; try contradiction.
  - eexists (Done _), st, done. split; [reflexivity|]. split; [exact I|].
    intros out [= <-]. cbn [go_id go_version go_space go_properties].
    destruct (D properties eq_refl) as (_ & _ & Hl & _).
    repeat split; auto.
  - exists (Exit e), st, done. split; [reflexivity|]. split; [exact I|]. discriminate.
Qed.

Lemma getPageById_space_fallback_witness :
  exists r st done,
    getPageById "acme.atlassian.net" "201"
      (mkSession (mkWiki (w_props wiki0) (w_pages wiki0) [] up) [])
    = (r, psent (mkSession (mkWiki (w_props wiki0) (w_pages wiki0) [] up) []) st
            (OnPage (GetPage "201") :: OnPage (GetSpace "S1")
             :: OnPage (ListProperties "201") :: detail_calls "201" done))
    /\ settled r
    /\ (forall out, r = Done out ->
          go_id out = "201"
          /\ go_version out = Some 4%Z
          /\ go_space out = SpaceIdOnly "S1"
          /\ length (po_properties (go_properties out)) <= length done).
Proof.
  apply (getPageById_space_fallback "acme.atlassian.net" "201"
           (mkSession (mkWiki (w_props wiki0) (w_pages wiki0) [] up) [])
           (success pageKafka) (mkWiki (w_props wiki0) (w_pages wiki0) [] up)
           pageKafka (failure "API error (404): not found")
           (mkWiki (w_props wiki0) (w_pages wiki0) [] up));
    try reflexivity; vm_compute; reflexivity.
Defined.

End PageFacts.

(* ===================================================================== *)
(** ** The whole run, and the normalisation of a status *)
(* ===================================================================== *)

Module RunFacts.
Import JsString JsValue Confluence AdrSync Protocol SyncShapes ReportHelpers.
Import StringFacts ReconcilerFacts OrchestratorFacts StatusFacts.
Local Open Scope string_scope.
#[local] Existing Instance RefStore.Remote_Store.

(** X18. The requests of a whole run come in two phases: first the
    search requests that collect the pages, then the property requests of
    the loop over the documents. No property request is sent in a dry
    run, nor when the run exits or stalls, which only the collection can
    make it do. The log starts with the start line; a run that completes
    has then logged the count line, one line per counted document, and
    the tally line, whose unchanged count is zero. *)
Theorem searches_precede_property_requests {St : Type} `{Remote St}
    (dryRun : bool) (n : nat) (w : World St) :
  exists r st searches props ls,
    syncEmojis dryRun n w
    = (r, after w st (searches ++ props)%list (LStart dryRun :: ls))
    /\ forallb (fun c => negb (is_property_call c)) searches = true
    /\ forallb is_property_call props = true
    /\ (dryRun = true -> props = [])
    /\ match r with
       | Done _ =>
           exists lines u s e,
             ls = (LFound (length lines) :: lines ++ [LDone u s 0 e])%list
             /\ forallb (fun l => match line_title l with
                                  | Some _ => true
                                  | None => false
                                  end) lines = true
       | Exit _ | Stalled => props = [] /\ ls = []
       | Throw _ => True
       end.
Proof.
  rewrite syncEmojis_unfold.
  destruct (fetchPages n 0%Z [] (logged w [LStart dryRun])) as [r1 w1] eqn:E1.
  destruct (fetchPages_frame _ _ _ _ _ _ E1) as (st1 & cs1 & -> & C1).
  assert (Early : sent (logged w [LStart dryRun]) st1 cs1
                  = after w st1 (cs1 ++ [])%list [LStart dryRun]).
  { unfold after, sent, logged. cbn [remote calls console].
    now rewrite app_nil_r. }
  destruct r1 as [allPages| e | e |].
  - destruct (syncPages dryRun (adrPagesOf allPages) (mkTally 0 0 0 0)
                (logged (sent (logged w [LStart dryRun]) st1 cs1)
                   [LFound (length (adrPagesOf allPages))]))
      as [r w2] eqn:E2.
    destruct (syncPages_cases dryRun (adrPagesOf allPages) (mkTally 0 0 0 0)
                (logged (sent (logged w [LStart dryRun]) st1 cs1)
                   [LFound (length (adrPagesOf allPages))]))
      as (r' & st & cs & ls & E2' & C & D & R).
    rewrite E2 in E2'. injection E2' as <- ->.
    destruct r as [t| e | e |]; try contradiction.
    + apply SyncFacts.syncPages_outcome in E2 as ((lines & Hc & Ht) & _).
      unfold after, logged, sent in Hc. cbn [remote calls console] in Hc.
      apply app_inv_head in Hc. subst lines.
      destruct R as (_ & _ & Hu). cbn [unchanged] in Hu.
      eexists (Done tt), st, cs1, cs, _.
      split; [|split; [exact C1|split; [exact C|split; [intros Hd; apply (D Hd)|]]]].
      * unfold after, logged, sent. cbn [remote calls console].
        rewrite <- !app_assoc. cbn [app]. rewrite Hu. reflexivity.
      * exists ls, (updated t), (skipped t), (errors t).
        assert (L : length ls = length (adrPagesOf allPages)).
        { rewrite <- (length_map line_title ls), Ht. apply length_map. }
        rewrite L. split; [reflexivity|].
        clear - Ht. revert ls Ht.
        induction (adrPagesOf allPages) as [|p ps IH]; intros [|l ls] Ht;
          try discriminate; [reflexivity|].
        cbn [map] in Ht. injection Ht as Hl Hls.
        cbn [forallb]. rewrite Hl. now apply IH.
    + eexists (Throw e), st, cs1, cs, _.
      split; [|split; [exact C1|split; [exact C|split; [intros Hd; apply (D Hd)|exact I]]]].
      unfold after, logged, sent. cbn [remote calls console].
      rewrite <- !app_assoc. reflexivity.
  - exists (Exit e), st1, cs1, [], []. rewrite Early. repeat split; auto.
  - exists (Throw e), st1, cs1, [], []. rewrite Early. repeat split; auto.
  - exists Stalled, st1, cs1, [], []. rewrite Early. repeat split; auto.
Qed.

Lemma searches_precede_property_requests_witness :
  exists r st searches props ls,
    syncEmojis true 3 (RefStore.start Fixtures.store0)
    = (r, after (RefStore.start Fixtures.store0) st (searches ++ props)%list
            (LStart true :: ls))
    /\ forallb (fun c => negb (is_property_call c)) searches = true
    /\ forallb is_property_call props = true
    /\ (true = true -> props = [])
    /\ match r with
       | Done _ =>
           exists lines u s e,
             ls = (LFound (length lines) :: lines ++ [LDone u s 0 e])%list
             /\ forallb (fun l => match line_title l with
                                  | Some _ => true
                                  | None => false
                                  end) lines = true
       | Exit _ | Stalled => props = [] /\ ls = []
       | Throw _ => True
       end.
Proof.
  apply (searches_precede_property_requests true 3 (RefStore.start Fixtures.store0)).
Defined.

Lemma lower_char_space (a : ascii) : is_space (lower_char a) = is_space a.
Proof. destruct a as [[] [] [] [] [] [] [] []]; reflexivity. Qed.

Lemma lower_char_idem (a : ascii) : lower_char (lower_char a) = lower_char a.
Proof. destruct a as [[] [] [] [] [] [] [] []]; reflexivity. Qed.

Lemma toLowerCase_idem (s : string) : toLowerCase (toLowerCase s) = toLowerCase s.
Proof.
  induction s as [|a s IH]; [reflexivity|]. cbn [toLowerCase].
  now rewrite lower_char_idem, IH.
Qed.

Lemma toLowerCase_app (u v : string) :
  toLowerCase (u ++ v) = toLowerCase u ++ toLowerCase v.
Proof. induction u as [|a u IH]; [reflexivity|]. cbn. now rewrite IH. Qed.

Lemma toLowerCase_spaces (ws : string) :
  all_chars is_space ws = true -> all_chars is_space (toLowerCase ws) = true.
Proof.
  induction ws as [|a ws IH]; [reflexivity|]. cbn [all_chars toLowerCase].
  intros Hs. apply andb_prop in Hs as [Ha Hs].
  now rewrite lower_char_space, Ha, IH.
Qed.

Lemma trimStart_lower (s : string) :
  trimStart (toLowerCase s) = toLowerCase (trimStart s).
Proof.
  induction s as [|a s IH]; [reflexivity|]. cbn [toLowerCase trimStart].
  rewrite lower_char_space. now destruct (is_space a).
Qed.

Lemma trimEnd_lower (s : string) :
  trimEnd (toLowerCase s) = toLowerCase (trimEnd s).
Proof.
  induction s as [|a s IH]; [reflexivity|]. cbn [toLowerCase trimEnd].
  rewrite IH, lower_char_space.
  destruct (trimEnd s); cbn [toLowerCase]; [|reflexivity].
  now destruct (is_space a).
Qed.

Lemma trimStart_spaces (ws x : string) :
  all_chars is_space ws = true -> trimStart (ws ++ x) = trimStart x.
Proof.
  induction ws as [|a ws IH]; [reflexivity|]. cbn [all_chars append trimStart].
  intros Hs. apply andb_prop in Hs as [Ha Hs]. rewrite Ha. now apply IH.
Qed.

Lemma trimEnd_all_spaces (ws : string) :
  all_chars is_space ws = true -> trimEnd ws = "".
Proof.
  induction ws as [|a ws IH]; [reflexivity|]. cbn [all_chars trimEnd].
  intros Hs. apply andb_prop in Hs as [Ha Hs]. now rewrite (IH Hs), Ha.
Qed.

Lemma trimEnd_spaces (x ws : string) :
  all_chars is_space ws = true -> trimEnd (x ++ ws) = trimEnd x.
Proof.
  intros Hs. induction x as [|a x IH].
  - cbn [append trimEnd]. now apply trimEnd_all_spaces.
  - cbn [append trimEnd]. now rewrite IH.
Qed.

Lemma trimStart_all_spaces (ws : string) :
  all_chars is_space ws = true -> trimStart ws = "".
Proof.
  induction ws as [|a ws IH]; [reflexivity|]. cbn [all_chars trimStart].
  intros Hs. apply andb_prop in Hs as [Ha Hs]. rewrite Ha. now apply IH.
Qed.

Lemma trim_padded (ws s ws' : string) :
  all_chars is_space ws = true ->
  all_chars is_space ws' = true ->
  trim (ws ++ s ++ ws') = trim s.
Proof.
  intros H1 H2. unfold trim. rewrite (trimStart_spaces _ _ H1).
  induction s as [|a s IH].
  - cbn [append]. now rewrite (trimStart_all_spaces _ H2).
  - cbn [append trimStart]. destruct (is_space a); [exact IH|].
    change (String a (s ++ ws')) with (String a s ++ ws').
    now apply trimEnd_spaces.
Qed.

Lemma normalise_padded (ws s ws' : string) :
  all_chars is_space ws = true ->
  all_chars is_space ws' = true ->
  trim (toLowerCase (ws ++ s ++ ws')) = trim (toLowerCase s).
Proof.
  intros H1 H2. rewrite !toLowerCase_app.
  apply trim_padded; now apply toLowerCase_spaces.
Qed.

Lemma normalise_idem (s : string) :
  trim (toLowerCase (trim (toLowerCase s))) = trim (toLowerCase s).
Proof.
  unfold trim at 2. rewrite <- trimEnd_lower, <- trimStart_lower, toLowerCase_idem.
  apply trim_idem.
Qed.

(** X19. Both status mappings see a status only through its normal form:
    white space around the status and the case of its letters make no
    difference, and a status that is already in normal form is mapped as
    it is. So [getEmojiCodePoint] and [getStatusEmoji] give the same
    answer on a status, on its padded forms and on its normal form. *)
Theorem status_mappings_ignore_case_and_padding (status ws ws' : string) :
  all_chars is_space ws = true ->
  all_chars is_space ws' = true ->
  getEmojiCodePoint (ws ++ status ++ ws') = getEmojiCodePoint status
  /\ getStatusEmoji (ws ++ status ++ ws') = getStatusEmoji status
  /\ getEmojiCodePoint (toLowerCase status) = getEmojiCodePoint status
  /\ getStatusEmoji (toLowerCase status) = getStatusEmoji status
  /\ getEmojiCodePoint (trim (toLowerCase status)) = getEmojiCodePoint status
  /\ getStatusEmoji (trim (toLowerCase status)) = getStatusEmoji status.
Proof.
  intros H1 H2. unfold getEmojiCodePoint, getStatusEmoji.
  rewrite (normalise_padded _ _ _ H1 H2), toLowerCase_idem, normalise_idem.
  repeat split.
Qed.

Lemma status_mappings_ignore_case_and_padding_witness :
  getEmojiCodePoint ("  " ++ "Pending Approval" ++ " ")
  = getEmojiCodePoint "Pending Approval"
  /\ getStatusEmoji ("  " ++ "Pending Approval" ++ " ")
     = getStatusEmoji "Pending Approval".
Proof.
  destruct (status_mappings_ignore_case_and_padding "Pending Approval" "  " " "
              eq_refl eq_refl) as (E1 & E2 & _).
  split; assumption.
Defined.

End RunFacts.

(* ===================================================================== *)
(** ** The short title and the rows of the report *)
(* ===================================================================== *)

Module ShortTitleFacts.
Import JsString StringFacts StatusFacts ShortTitle.
Local Open Scope string_scope.

Section Star.
Context {R : Type}.

Lemma star_max p (k : string -> option R) (g w : string) r :
  all_chars p g = true ->
  stops p w = true ->
  k w = Some r ->
  star p k (g ++ w) = Some r.
Proof.
  induction g as [|a g IH]; intros Hg Hw Hk.
  - destruct w as [|b w]; cbn in *; [exact Hk|].
    apply negb_true_iff in Hw. now rewrite Hw.
  - cbn [all_chars] in Hg. apply andb_prop in Hg as [Ha Hg].
    cbn [append star]. rewrite Ha. now rewrite (IH Hg Hw Hk).
Qed.

Lemma star_none p (k : string -> option R) (g w : string) :
  all_chars p g = true ->
  stops p w = true ->
  (forall g1 g2, g = g1 ++ g2 -> k (g2 ++ w) = None) ->
  star p k (g ++ w) = None.
Proof.
  induction g as [|a g IH]; intros Hg Hw Hk.
  - pose proof (Hk "" "" eq_refl) as K. cbn [append] in K |- *.
    destruct w as [|b w]; cbn in *; [exact K|].
    apply negb_true_iff in Hw. now rewrite Hw.
  - cbn [all_chars] in Hg. apply andb_prop in Hg as [Ha Hg].
    cbn [append star]. rewrite Ha. rewrite IH; auto.
    + exact (Hk "" (String a g) eq_refl).
    + intros g1 g2 ->. exact (Hk (String a g1) g2 eq_refl).
Qed.

End Star.

Lemma digit_clash (a : ascii) :
  is_digit a = true ->
  Ascii.eqb "]" a = false /\ is_space a = false /\ is_separator a = false.
Proof.
  destruct a as [[] [] [] [] [] [] [] []]; vm_compute; intros E;
    try discriminate E; repeat split.
Qed.

Lemma space_clash (a : ascii) :
  is_space a = true ->
  Ascii.eqb "]" a = false /\ is_separator a = false /\ is_digit a = false.
Proof.
  destruct a as [[] [] [] [] [] [] [] []]; vm_compute; intros E;
    try discriminate E; repeat split.
Qed.

Lemma separator_clash (a : ascii) :
  is_separator a = true ->
  Ascii.eqb "]" a = false /\ is_space a = false /\ is_digit a = false.
Proof.
  destruct a as [[] [] [] [] [] [] [] []]; vm_compute; intros E;
    try discriminate E; repeat split.
Qed.

Lemma run_chr_hit a (k : list piece) (s : string) :
  run (PChr a :: k) (String a s) = run k s.
Proof. cbn [run]. now rewrite Ascii.eqb_refl. Qed.

Lemma run_chr_miss a b (k : list piece) (s : string) :
  Ascii.eqb a b = false -> run (PChr a :: k) (String b s) = None.
Proof. intros E. cbn [run]. now rewrite E. Qed.

Lemma run_opt a b (k : list piece) (s : string) :
  run (POpt a :: k) (String b s)
  = if Ascii.eqb a b
    then match run k s with
         | Some r => Some r
         | None => run k (String b s)
         end
    else run k (String b s).
Proof. reflexivity. Qed.

Lemma run_opt_empty a (k : list piece) : run (POpt a :: k) "" = run k "".
Proof. reflexivity. Qed.

Lemma run_one p b (k : list piece) (s : string) :
  run (POne p :: k) (String b s) = if p b then run k s else None.
Proof. reflexivity. Qed.

Lemma run_star p (k : list piece) (s : string) :
  run (PStar p :: k) s = star p (run k) s.
Proof. reflexivity. Qed.

Lemma run_plus p b (k : list piece) (s : string) :
  run (PPlus p :: k) (String b s) = if p b then star p (run k) s else None.
Proof. reflexivity. Qed.

(** The tail of the first pattern after the tag: [\s*[:/-]\s*]. *)
Lemma run_separator (ws ws' name : string) (sep : ascii) :
  all_chars is_space ws = true ->
  is_separator sep = true ->
  all_chars is_space ws' = true ->
  stops is_space name = true ->
  run [PStar is_space; POne is_separator; PStar is_space]
    (ws ++ String sep (ws' ++ name)) = Some name.
Proof.
  intros Hws Hsep Hws' Hn. rewrite run_star.
  apply star_max; auto.
  - cbn [stops]. now rewrite (proj1 (proj2 (separator_clash _ Hsep))).
  - rewrite run_one, Hsep, run_star. apply star_max; auto.
Qed.

Lemma run_no_separator (ws name : string) :
  all_chars is_space ws = true ->
  stops is_space name = true ->
  stops is_separator name = true ->
  run [PStar is_space; POne is_separator; PStar is_space] (ws ++ name) = None.
Proof.
  intros Hws Hn Hs. rewrite run_star. apply star_none; auto.
  intros g1 g2 ->. rewrite all_chars_app in Hws. apply andb_prop in Hws as [_ H2].
  destruct g2 as [|c g2].
  - cbn [append]. destruct name as [|c name]; [reflexivity|].
    cbn [stops] in Hs. apply negb_true_iff in Hs. now rewrite run_one, Hs.
  - cbn [append all_chars] in *. apply andb_prop in H2 as [Hc _].
    now rewrite run_one, (proj1 (proj2 (space_clash _ Hc))).
Qed.

Lemma run_space (ws name : string) :
  all_chars is_space ws = true ->
  ws <> "" ->
  stops is_space name = true ->
  run [PPlus is_space] (ws ++ name) = Some name.
Proof.
  intros Hws Hne Hn. destruct ws as [|c ws]; [congruence|].
  cbn [all_chars] in Hws. apply andb_prop in Hws as [Hc Hws].
  cbn [append]. rewrite run_plus, Hc. now apply star_max.
Qed.

(** The tag [\[?ADR-\d+] at the start, followed by what is not a digit. *)
Lemma run_tag (open digits : string) (k : list piece) (tail : string) :
  open = "" \/ open = "[" ->
  all_chars is_digit digits = true ->
  digits <> "" ->
  stops is_digit tail = true ->
  (forall g1 g2, digits = g1 ++ g2 -> g2 <> "" -> run k (g2 ++ tail) = None) ->
  run ([POpt "["; PChr "A"; PChr "D"; PChr "R"; PChr "-"; PPlus is_digit] ++ k)
    (open ++ "ADR-" ++ digits ++ tail)
  = run k tail.
Proof.
  intros Ho Hd Hne Ht Hk.
  destruct digits as [|d ds]; [congruence|].
  cbn [all_chars] in Hd. apply andb_prop in Hd as [Hd Hds].
  assert (M : run (PPlus is_digit :: k) (String d (ds ++ tail)) = run k tail).
  { rewrite run_plus, Hd.
    destruct (run k tail) as [r|] eqn:E.
    - apply star_max; auto.
    - apply star_none; auto. intros g1 g2 ->.
      destruct g2 as [|c g2]; [exact E|].
      apply (Hk (String d g1) (String c g2)); [reflexivity|discriminate]. }
  cbn [app].
  destruct Ho as [-> | ->]; cbn [append].
  - rewrite run_opt. change (Ascii.eqb "[" "A") with false. cbv iota.
    now rewrite !run_chr_hit.
  - rewrite run_opt, Ascii.eqb_refl, !run_chr_hit, M.
    destruct (run k tail); [reflexivity|].
    now apply run_chr_miss.
Qed.

(** What follows the digits of a tag does not let a shorter run of digits
    match: the next piece rejects a digit. *)
Lemma after_digits_close (k : list piece) (p : ascii -> bool) (g2 tail : string) :
  all_chars is_digit g2 = true ->
  g2 <> "" ->
  (forall c, is_digit c = true -> p c = false) ->
  (k = [PPlus p] \/ exists k', k = PStar p :: POne is_separator :: k') ->
  run (POpt "]" :: k) (g2 ++ tail) = None.
Proof.
  intros Hg Hne Hp Hk. destruct g2 as [|c g2]; [congruence|].
  cbn [all_chars] in Hg. apply andb_prop in Hg as [Hc _].
  destruct (digit_clash _ Hc) as (C1 & C2 & C3).
  cbn [append]. rewrite run_opt, C1.
  destruct Hk as [-> | [k' ->]].
  - now rewrite run_plus, (Hp c Hc).
  - rewrite run_star. cbn [star]. rewrite (Hp c Hc).
    now rewrite run_one, C3.
Qed.

Lemma run_close_skip (k : list piece) (v : string) :
  (forall b v', v = String b v' -> Ascii.eqb "]" b = false) ->
  run (POpt "]" :: k) v = run k v.
Proof.
  intros Hv. destruct v as [|b v']; [reflexivity|].
  now rewrite run_opt, (Hv b v' eq_refl).
Qed.

Lemma strip_leading (junk body : string) :
  all_chars not_word_or_bracket junk = true ->
  stops not_word_or_bracket body = true ->
  strip leading_re (junk ++ body) = body.
Proof.
  intros Hj Hb. unfold strip, leading_re. rewrite run_star.
  now rewrite (star_max _ (run []) junk body body Hj Hb eq_refl).
Qed.

Lemma tagged_stops (open rest : string) :
  open = "" \/ open = "[" ->
  stops not_word_or_bracket (open ++ "ADR-" ++ rest) = true.
Proof. intros [-> | ->]; reflexivity. Qed.

(** The first character of what follows the closing bracket. *)
Lemma after_close (ws v : string) (p : ascii -> bool) :
  all_chars is_space ws = true ->
  (forall b v', v = String b v' -> is_digit b = false /\ Ascii.eqb "]" b = false) ->
  (forall b v', ws ++ v = String b v' -> is_digit b = false /\ Ascii.eqb "]" b = false).
Proof.
  intros Hws Hv b v' E. destruct ws as [|c ws].
  - exact (Hv b v' E).
  - cbn [append all_chars] in *. injection E as -> _.
    apply andb_prop in Hws as [Hc _].
    destruct (space_clash _ Hc) as (C1 & _ & C3). now split.
Qed.

Lemma tag_then (open digits close ws v : string) (k : list piece) p :
  open = "" \/ open = "[" ->
  close = "" \/ close = "]" ->
  all_chars is_digit digits = true ->
  digits <> "" ->
  all_chars is_space ws = true ->
  (forall b v', ws ++ v = String b v' ->
                is_digit b = false /\ Ascii.eqb "]" b = false) ->
  (forall c, is_digit c = true -> p c = false) ->
  (k = [PPlus p] \/ exists k', k = PStar p :: POne is_separator :: k') ->
  (close = "]" -> run k (ws ++ v) = None -> run k (String "]" (ws ++ v)) = None) ->
  run (adr_tag ++ k) (open ++ "ADR-" ++ digits ++ close ++ ws ++ v)
  = run k (ws ++ v).
Proof.
  intros Ho Hc Hd Hne Hws Hwv Hp Hk Hb.
  change (adr_tag ++ k)%list
    with ([POpt "["; PChr "A"; PChr "D"; PChr "R"; PChr "-"; PPlus is_digit]
          ++ POpt "]" :: k)%list.
  rewrite run_tag; auto.
  - destruct Hc as [-> | ->]; cbn [append].
    + apply run_close_skip. intros b v' E. apply (Hwv b v' E).
    + rewrite run_opt, Ascii.eqb_refl.
      destruct (run k (ws ++ v)) eqn:E; [reflexivity|]. now apply Hb.
  - destruct Hc as [-> | ->]; cbn [append stops]; [|reflexivity].
    destruct (ws ++ v) as [|b v'] eqn:E; [reflexivity|].
    cbn [stops]. now rewrite (proj1 (Hwv b v' eq_refl)).
  - intros g1 g2 -> Hg2. rewrite all_chars_app in Hd.
    apply andb_prop in Hd as [_ Hd].
    now apply (after_digits_close k p).
Qed.

(** X20. The short title. The result is always trimmed. For a title that
    starts, after leading symbols, with an ADR tag ([ADR-] and digits,
    possibly in brackets), then optional white space, a separator
    [:], [/] or [-], and optional white space, the short title is what
    follows, trimmed, unless that again starts with a tag and a space.
    For a tag followed by white space only, the short title is what
    follows the white space, trimmed. A title without a tag at its
    start loses its leading symbols and is trimmed. *)
Theorem extractShortTitle_shapes :
  (forall title, trim (extractShortTitle title) = extractShortTitle title)
  /\ (forall junk open digits close ws name sep ws',
        all_chars not_word_or_bracket junk = true ->
        open = "" \/ open = "[" ->
        close = "" \/ close = "]" ->
        all_chars is_digit digits = true ->
        digits <> "" ->
        all_chars is_space ws = true ->
        is_separator sep = true ->
        all_chars is_space ws' = true ->
        stops is_space name = true ->
        run tag_space_re name = None ->
        extractShortTitle
          (junk ++ open ++ "ADR-" ++ digits ++ close ++ ws ++ String sep (ws' ++ name))
        = trim name)
  /\ (forall junk open digits close ws name,
        all_chars not_word_or_bracket junk = true ->
        open = "" \/ open = "[" ->
        close = "" \/ close = "]" ->
        all_chars is_digit digits = true ->
        digits <> "" ->
        all_chars is_space ws = true ->
        ws <> "" ->
        stops is_space name = true ->
        stops is_separator name = true ->
        extractShortTitle (junk ++ open ++ "ADR-" ++ digits ++ close ++ ws ++ name)
        = trim name)
  /\ (forall junk rest,
        all_chars not_word_or_bracket junk = true ->
        stops not_word_or_bracket rest = true ->
        run tag_separator_re rest = None ->
        run tag_space_re rest = None ->
        extractShortTitle (junk ++ rest) = trim rest).
Proof.
  split; [|split; [|split]].
  - intros title. apply trim_idem.
  - intros junk open digits close ws name sep ws' Hj Ho Hc Hd Hne Hws Hsep Hws' Hn Hr.
    unfold extractShortTitle.
    rewrite (strip_leading _ _ Hj (tagged_stops open _ Ho)).
    assert (P : forall c, is_digit c = true -> is_space c = false)
      by (intros c Hcd; apply (digit_clash _ Hcd)).
    assert (V : forall b v', ws ++ String sep (ws' ++ name) = String b v' ->
                             is_digit b = false /\ Ascii.eqb "]" b = false).
    { apply (after_close ws _ is_space Hws).
      intros b v' [= <- _]. destruct (separator_clash _ Hsep) as (C1 & _ & C3).
      now split. }
    assert (S : run [PStar is_space; POne is_separator; PStar is_space]
                  (ws ++ String sep (ws' ++ name)) = Some name)
      by now apply run_separator.
    assert (E : run tag_separator_re
                  (open ++ "ADR-" ++ digits ++ close ++ ws ++ String sep (ws' ++ name))
                = Some name).
    { unfold tag_separator_re.
      rewrite (tag_then open digits close ws (String sep (ws' ++ name)) _ is_space
                 Ho Hc Hd Hne Hws V P (or_intror (ex_intro _ _ eq_refl))).
      - exact S.
      - intros _ Hx. rewrite S in Hx. discriminate. }
    unfold strip at 2. rewrite E. unfold strip. now rewrite Hr.
  - intros junk open digits close ws name Hj Ho Hc Hd Hne Hws Hwn Hn Hs.
    unfold extractShortTitle.
    rewrite (strip_leading _ _ Hj (tagged_stops open _ Ho)).
    assert (V : forall b v', ws ++ name = String b v' ->
                             is_digit b = false /\ Ascii.eqb "]" b = false).
    { intros b v' E. destruct ws as [|c ws0]; [congruence|].
      cbn [append all_chars] in *. injection E as -> _.
      apply andb_prop in Hws as [Hcs _].
      destruct (space_clash _ Hcs) as (C1 & _ & C3). now split. }
    assert (P : forall c, is_digit c = true -> is_space c = false)
      by (intros c Hcd; apply (digit_clash _ Hcd)).
    assert (S2 : run [PStar is_space; POne is_separator; PStar is_space]
                   (ws ++ name) = None)
      by now apply run_no_separator.
    assert (S3 : run [PPlus is_space] (ws ++ name) = Some name)
      by now apply run_space.
    assert (E2 : run tag_separator_re
                   (open ++ "ADR-" ++ digits ++ close ++ ws ++ name) = None).
    { unfold tag_separator_re.
      rewrite (tag_then open digits close ws name _ is_space
                 Ho Hc Hd Hne Hws V P (or_intror (ex_intro _ _ eq_refl))).
      - exact S2.
      - intros _ _. reflexivity. }
    assert (E3 : run tag_space_re
                   (open ++ "ADR-" ++ digits ++ close ++ ws ++ name) = Some name).
    { unfold tag_space_re.
      rewrite (tag_then open digits close ws name _ is_space
                 Ho Hc Hd Hne Hws V P (or_introl eq_refl)).
      - exact S3.
      - intros _ Hx. rewrite S3 in Hx. discriminate. }
    unfold strip at 2. rewrite E2. unfold strip. now rewrite E3.
  - intros junk rest Hj Hr E2 E3. unfold extractShortTitle.
    rewrite (strip_leading _ _ Hj Hr).
    unfold strip at 2. rewrite E2. unfold strip. now rewrite E3.
Qed.

Lemma extractShortTitle_shapes_witness :
  extractShortTitle "* [ADR-007] - Use Kafka " = "Use Kafka"
  /\ extractShortTitle "ADR-012  Retire the monolith" = "Retire the monolith"
  /\ extractShortTitle "- Meeting notes" = "Meeting notes".
Proof.
  destruct extractShortTitle_shapes as (_ & H2 & H3 & H4).
  split; [|split].
  - apply (H2 "* " "[" "007" "]" " " "Use Kafka " "-"%char " ");
      try reflexivity; auto; discriminate.
  - apply (H3 "" "" "012" "" "  " "Retire the monolith");
      try reflexivity; auto; discriminate.
  - apply (H4 "- " "Meeting notes"); reflexivity.
Defined.

End ShortTitleFacts.

Module ReportRowFacts.
Import JsString ReportHelpers ShortTitle ReportRows ReportShapes RowShapes.
Import MapperFacts ReportFacts.
Local Open Scope string_scope.

Section Rows.
Variable siteUrl : string.











End Rows.





(** The number printed can be that of a reserved range: reserved pages
    are not rows. *)
Example next_number_may_be_reserved :
  nextNumber (adrs "https://acme.atlassian.net"
                [mkReportPage "3" "ADR-003: A" None None "/a";
                 mkReportPage "2" "ADR-004: Reserved Range" None None "/r"])
  = Fin 4
  /\ extractAdrNumber "ADR-004: Reserved Range" = Some 4%Z.
Proof. split; vm_compute; reflexivity. Qed.

End ReportRowFacts.

Module SummaryFacts.
Import JsString JsValue ReportRows ReportSummary RowShapes.
Local Open Scope string_scope.

Lemma own_put (acc : Counts) (k s : string) (v : jsval) :
  own (put acc k v) s = if String.eqb s k then Some v else own acc s.
Proof.
  induction acc as [|[k' v'] acc IH]; cbn [put own].
  - reflexivity.
  - destruct (String.eqb k k') eqn:Ek; cbn [own].
    + apply String.eqb_eq in Ek. subst k'.
      now destruct (String.eqb s k).
    + rewrite IH. destruct (String.eqb s k') eqn:Es; [|reflexivity].
      apply String.eqb_eq in Es. subst k'.
      now rewrite String.eqb_sym, Ek.
Qed.

Lemma statusCounts_step (rows : list Adr) (a : Adr) :
  statusCounts (rows ++ [a])
  = set (statusCounts rows) (status_key a)
      (plus_one (get (statusCounts rows) (status_key a))).
Proof. unfold statusCounts. now rewrite fold_left_app. Qed.

Lemma occurrences_step (s : string) (rows : list Adr) (a : Adr) :
  occurrences s (rows ++ [a])
  = occurrences s rows + (if String.eqb s (status_key a) then 1 else 0).
Proof.
  unfold occurrences. rewrite map_app, count_occ_app. cbn [map count_occ].
  destruct (string_dec (status_key a) s) as [->|Hn].
  - now rewrite String.eqb_refl.
  - destruct (String.eqb s (status_key a)) eqn:E; [|reflexivity].
    apply String.eqb_eq in E. congruence.
Qed.

Lemma plus_one_positive (n : Z) : (0 < n)%Z -> plus_one (JNum n) = JNum (n + 1).
Proof.
  intros Hn. unfold plus_one, js_truthy.
  destruct (Z.eqb_spec n 0); [lia|reflexivity].
Qed.

Lemma proto_member : Object_prototype "__proto__" = Some JObject.
Proof. reflexivity. Qed.

(** X24. The summary of the report. When no status of a row is the name
    of a member that objects inherit, the count kept for a status is the
    number of rows with that status (the empty status counted under
    "Unknown"), and no count is kept for a status that no row has. A
    status named like an inherited function, [constructor] for one, gets
    a string in place of its count; the status [__proto__] gets no entry
    at all. *)
Theorem status_counts (rows : list Adr) :
  ((forall a, In a rows -> Object_prototype (status_key a) = None) ->
   forall s,
     own (statusCounts rows) s
     = if Nat.eqb (occurrences s rows) 0 then None
       else Some (JNum (Z.of_nat (occurrences s rows))))
  /\ (forall k f,
        Object_prototype k = Some (JFunction f) ->
        In k (map status_key rows) ->
        exists text,
          own (statusCounts rows) k = Some (JStr text) /\ truthy text = true)
  /\ own (statusCounts rows) "__proto__" = None.
Proof.
  split; [|split].
  - induction rows as [|a rows IH] using rev_ind; intros Hp s; [reflexivity|].
    rewrite statusCounts_step, occurrences_step.
    assert (Hp' : forall b, In b rows -> Object_prototype (status_key b) = None)
      by (intros b Hb; apply Hp, in_or_app; now left).
    specialize (IH Hp').
    assert (Ha : Object_prototype (status_key a) = None)
      by (apply Hp, in_or_app; right; now left).
    unfold set.
    destruct (String.eqb (status_key a) "__proto__") eqn:Epr.
    { apply String.eqb_eq in Epr. rewrite Epr, proto_member in Ha. discriminate. }
    rewrite own_put. destruct (String.eqb s (status_key a)) eqn:Es.
    + apply String.eqb_eq in Es. subst s. unfold get. rewrite IH, Ha.
      destruct (occurrences (status_key a) rows) as [|n] eqn:En.
      * reflexivity.
      * cbn [Nat.eqb]. rewrite plus_one_positive by lia.
        replace (Nat.eqb (S n + 1) 0) with false
          by (symmetry; apply Nat.eqb_neq; lia).
        do 2 f_equal. lia.
    + rewrite IH, Nat.add_0_r. reflexivity.
  - intros k f Hk. induction rows as [|a rows IH] using rev_ind; [intros []|].
    rewrite map_app, statusCounts_step. cbn [map]. intros Hin.
    assert (Kp : String.eqb k "__proto__" = false).
    { apply String.eqb_neq. intros ->. rewrite proto_member in Hk. discriminate. }
    unfold set. destruct (String.eqb (status_key a) "__proto__") eqn:Epr.
    { apply in_app_or in Hin as [Hin | [<- | []]]; [now apply IH|].
      rewrite Kp in Epr. discriminate. }
    rewrite own_put. destruct (String.eqb k (status_key a)) eqn:Es.
    + apply String.eqb_eq in Es. subst k. unfold get.
      destruct (own (statusCounts rows) (status_key a)) as [v|] eqn:Eo.
      * assert (Hseen : In (status_key a) (map status_key rows)).
        { clear - Eo Epr. revert Eo. induction rows as [|b rows IH] using rev_ind;
            [discriminate|].
          rewrite map_app, statusCounts_step. cbn [map]. unfold set.
          destruct (String.eqb (status_key b) "__proto__") eqn:Eb.
          - intros Eo. apply in_or_app. left. now apply IH.
          - rewrite own_put.
            destruct (String.eqb (status_key a) (status_key b)) eqn:Eab.
            + intros _. apply String.eqb_eq in Eab. rewrite Eab.
              apply in_or_app. right. now left.
            + intros Eo. apply in_or_app. left. now apply IH. }
        destruct (IH Hseen) as (text & Et & Htt). injection Et as ->.
        destruct text; [discriminate|]. eexists. split; reflexivity.
      * rewrite Hk. eexists. split; reflexivity.
    + apply in_app_or in Hin as [Hin | [<- | []]]; [now apply IH|].
      rewrite String.eqb_refl in Es. discriminate.
  - induction rows as [|a rows IH] using rev_ind; [reflexivity|].
    rewrite statusCounts_step. unfold set.
    destruct (String.eqb (status_key a) "__proto__") eqn:Epr; [exact IH|].
    rewrite own_put, (String.eqb_sym "__proto__"), Epr. exact IH.
Qed.

Lemma status_counts_witness :
  own (statusCounts [row_with "Accepted"; row_with ""; row_with "Accepted"]) "Accepted"
  = Some (JNum 2)
  /\ own (statusCounts [row_with "Accepted"; row_with ""; row_with "Accepted"]) "Unknown"
     = Some (JNum 1)
  /\ exists text,
       own (statusCounts [row_with "Draft"; row_with "constructor"]) "constructor"
       = Some (JStr text)
       /\ truthy text = true.
Proof.
  assert (P : forall a,
             In a [row_with "Accepted"; row_with ""; row_with "Accepted"] ->
             Object_prototype (status_key a) = None)
    by (intros a [<- | [<- | [<- | []]]]; reflexivity).
  split; [|split].
  - apply (proj1 (status_counts [row_with "Accepted"; row_with ""; row_with "Accepted"])
             P "Accepted").
  - apply (proj1 (status_counts [row_with "Accepted"; row_with ""; row_with "Accepted"])
             P "Unknown").
  - apply (proj1 (proj2 (status_counts [row_with "Draft"; row_with "constructor"]))
             "constructor" "Object"); [reflexivity|].
    right. now left.
Defined.

End SummaryFacts.
